(** * Ragged all-to-all thunk of XLA's GPU runtime

    A shallow embedding of [nccl_ragged_all_to_all_thunk.cc]: the index
    accessor [IntegerOperandData], the staging of the offset and size operands
    ([LoadOffsetAndSizeOperands]), the transfer loop ([RunRaggedAllToAll]) and
    the thunk's methods [CheckImplementable], [Initialize] and
    [RunNcclCollective].

    Integers of the C++ code are [Z]; a byte is a [Z] in [0, 256); memory is a
    function from byte addresses to bytes.  Calls into the stream, the
    communicator and the executor are recorded as events, and their results
    come from an environment record, so that every behaviour of those
    collaborators is covered by quantifying over the environment. *)

From Stdlib Require Import ZArith Lia HexString.
From stdpp Require Import base option list gmap strings.

Local Open Scope Z_scope.

(** ** Status values *)

(** The error codes of [absl::StatusCode]; [kOk] is [OkStatus] below. *)
Inductive StatusCode : Type :=
  | kCancelled | kUnknown | kInvalidArgument | kDeadlineExceeded | kNotFound
  | kAlreadyExists | kPermissionDenied | kResourceExhausted
  | kFailedPrecondition | kAborted | kOutOfRange | kUnimplemented | kInternal
  | kUnavailable | kDataLoss | kUnauthenticated.

Record Error : Type := MkError { code : StatusCode; message : string }.

(** [absl::Status]. *)
Inductive Status : Type :=
  | OkStatus
  | ErrorStatus (e : Error).

(** [absl::StatusOr<A>]. *)
Inductive StatusOr (A : Type) : Type :=
  | OkValue (a : A)
  | ErrorValue (e : Error).
Arguments OkValue {A} a.
Arguments ErrorValue {A} e.

Definition InternalError (msg : string) : Error := MkError kInternal msg.

(** ** Element types *)

(** Modelled from the spec: the enumeration [PrimitiveType] is declared in
    [xla_data.proto], which is not among the sources.  The four integer tags
    are the ones the code names (the spec's narrow and wide widths, signed and
    unsigned); the other enumerators stand for the element types outside the
    two supported widths, which the code handles alike. *)
Inductive PrimitiveType : Type :=
  | PRIMITIVE_TYPE_INVALID | PRED
  | S8 | S16 | S32 | S64
  | U8 | U16 | U32 | U64
  | F16 | F32 | F64 | BF16
  | C64 | C128
  | TUPLE | OPAQUE_TYPE | TOKEN.

#[global] Instance PrimitiveType_eq_dec : EqDecision PrimitiveType.
Proof. solve_decision. Defined.

(** The element types [IntegerOperandData::get] has a case for. *)
Definition supported_index_type (t : PrimitiveType) : bool :=
  match t with
  | S32 | U32 | S64 | U64 => true
  | _ => false
  end.

(** ** Outcomes of a call *)

(** How a call can end without returning to its caller. *)
Inductive AbortReason : Type :=
  | UnsupportedElementType (t : PrimitiveType)
      (* LOG(FATAL) << "Unsupported element type: " << element_type_ *)
  | MapKeyNotFound
      (* absl hash map [at] on a missing key: std::out_of_range is raised,
         the process is terminated where exceptions are disabled *)
  | VectorIndexOutOfRange.
      (* std::vector operator[] past the end: undefined behaviour *)

(** A call returns a value, returns a non-OK status, or does not return. *)
Inductive Outcome (A : Type) : Type :=
  | Returns (a : A)
  | Fails (e : Error)
  | Aborts (r : AbortReason).
Arguments Returns {A} a.
Arguments Fails {A} e.
Arguments Aborts {A} r.

Definition is_error_status {A} (o : Outcome A) : Prop :=
  exists e, o = Fails e.

(** ** Memory *)

(** Byte-addressed memory: address to byte value.  Every address holds a
    byte, there are no allocation bounds: the statements on runs that read
    the index arrays bound the number of peers by the arrays' length. *)
Definition Memory : Type := Z -> Z.

Fixpoint load_bytes (m : Memory) (a : Z) (n : nat) : list Z :=
  match n with
  | O => []
  | S n' => m a :: load_bytes m (a + 1) n'
  end.

Fixpoint store_bytes (m : Memory) (a : Z) (bs : list Z) : Memory :=
  match bs with
  | [] => m
  | b :: bs' => store_bytes (fun x => if Z.eqb x a then b else m x) (a + 1) bs'
  end.

(** Little-endian value of a byte string (the hosts and devices of the GPU
    backend are little-endian). *)
Fixpoint le_value (bs : list Z) : Z :=
  match bs with
  | [] => 0
  | b :: bs' => b mod 256 + 256 * le_value bs'
  end.

(** The [n] low bytes of [v], least significant first. *)
Fixpoint le_bytes (n : nat) (v : Z) : list Z :=
  match n with
  | O => []
  | S n' => v mod 256 :: le_bytes n' (v / 256)
  end.

(** Two's complement reading of the low [bits] bits. *)
Definition sign_extend (bits : Z) (x : Z) : Z :=
  (x + 2 ^ (bits - 1)) mod 2 ^ bits - 2 ^ (bits - 1).

(** [reinterpret_cast<int32_t*>(p)[0]] and [reinterpret_cast<int64_t*>(p)[0]]
    for the byte address [p]. *)
Definition load_int32 (m : Memory) (p : Z) : Z :=
  sign_extend 32 (le_value (load_bytes m p 4)).
Definition load_int64 (m : Memory) (p : Z) : Z :=
  sign_extend 64 (le_value (load_bytes m p 8)).

(** ** IntegerOperandData *)

Record IntegerOperandData : Type := MkIntegerOperandData {
  element_type_ : PrimitiveType;
  data_ : Z                        (* void* data_, a byte address *)
}.

(** [int64_t IntegerOperandData::get(int i) const], reading host memory [m].
    The [int32_t] read is widened to [int64_t], which keeps its value. *)
Definition get (d : IntegerOperandData) (m : Memory) (i : Z) : Outcome Z :=
  match element_type_ d with
  | S32 | U32 => Returns (load_int32 m (data_ d + 4 * i))
  | S64 | U64 => Returns (load_int64 m (data_ d + 8 * i))
  | t => Aborts (UnsupportedElementType t)
  end.

(** The values a declared element type can hold. *)
Definition representable (t : PrimitiveType) (v : Z) : Prop :=
  match t with
  | S32 => - 2 ^ 31 <= v < 2 ^ 31
  | U32 => 0 <= v < 2 ^ 32
  | S64 => - 2 ^ 63 <= v < 2 ^ 63
  | U64 => 0 <= v < 2 ^ 64
  | _ => False
  end.

(** Size in bytes of one element of an index array. *)
Definition index_width (t : PrimitiveType) : Z :=
  match t with
  | S32 | U32 => 4
  | S64 | U64 => 8
  | _ => 0
  end.

(** Memory [m] holds the logical value [v] as element [i] of an array of
    element type [t] that starts at byte address [p]. *)
Definition holds_at (m : Memory) (p : Z) (t : PrimitiveType) (i v : Z) : Prop :=
  load_bytes m (p + index_width t * i) (Z.to_nat (index_width t))
  = le_bytes (Z.to_nat (index_width t)) v.

(** ** Device buffers *)

(** [se::DeviceMemoryBase]: a device address and a size in bytes. *)
Record DeviceMemoryBase : Type := MkDeviceMemoryBase {
  opaque : Z;
  size : Z
}.

(** The fields of [DeviceBufferPair] (declared in [nccl_collective_thunk.h])
    that this file reads. *)
Record DeviceBufferPair : Type := MkDeviceBufferPair {
  element_type : PrimitiveType;
  element_count : Z;
  source_buffer : DeviceMemoryBase;
  destination_buffer : DeviceMemoryBase
}.

(** Modelled from the spec: [GpuCollectives::Slice] is not among the sources.
    Following its contract, [Slice(buffer, elementType, offsetElements,
    countElements) -> subBuffer], the result of
    [collectives->Slice(buff, dtype, offset, count)] is kept as the arguments
    of the call: the part of [buff] that starts at element [offset] and spans
    [count] elements of type [dtype]. *)
Record DeviceSlice : Type := Slice {
  slice_buffer : DeviceMemoryBase;
  slice_dtype : PrimitiveType;
  slice_offset : Z;
  slice_count : Z
}.

(** The elements a slice covers: [first, last], empty when [last < first]. *)
Definition slice_first (s : DeviceSlice) : Z := slice_offset s.
Definition slice_last (s : DeviceSlice) : Z := slice_offset s + slice_count s - 1.

(** ** Calls into the collaborators *)

(** One event per call made on the stream or on the communicator layer, in
    program order; a call is recorded whether or not it succeeds. *)
Inductive Event : Type :=
  | EvMaybeRegisterBuffers
  | EvNumRanks
  | EvMemcpy (host_dst : Z) (src : DeviceMemoryBase) (bytes : Z)
  | EvBlockHostUntilDone
  | EvGroupStart
  | EvSend (send_slice : DeviceSlice) (dtype : PrimitiveType) (count : Z) (peer : Z)
  | EvRecv (recv_slice : DeviceSlice) (dtype : PrimitiveType) (count : Z) (peer : Z)
  | EvGroupEnd.

Definition is_memcpy (e : Event) : bool :=
  match e with EvMemcpy _ _ _ => true | _ => false end.
Definition is_block (e : Event) : bool :=
  match e with EvBlockHostUntilDone => true | _ => false end.
Definition is_send (e : Event) : bool :=
  match e with EvSend _ _ _ _ => true | _ => false end.
Definition is_recv (e : Event) : bool :=
  match e with EvRecv _ _ _ _ => true | _ => false end.
Definition is_transfer (e : Event) : bool := is_send e || is_recv e.
Definition is_group_start (e : Event) : bool :=
  match e with EvGroupStart => true | _ => false end.
Definition is_group_end (e : Event) : bool :=
  match e with EvGroupEnd => true | _ => false end.

Definition count_events (p : Event -> bool) (t : list Event) : nat :=
  length (filter (fun e => p e = true) t).

(** What the collaborators answer during one invocation.  Copies are keyed
    by the position of the buffer copied, sends and receives by the peer. *)
Record Env : Type := MkEnv {
  device_memory : Memory;                 (* contents of device memory *)
  stream_address : Z;                     (* &stream *)
  register_status : Status;               (* MaybeRegisterBuffers *)
  num_ranks_result : StatusOr Z;          (* comm->NumRanks(), an int32_t *)
  memcpy_status : nat -> Status;          (* stream.Memcpy of buffers[i] *)
  block_status : Status;                  (* stream.BlockHostUntilDone() *)
  group_start_status : Status;            (* collectives->GroupStart() *)
  send_status : Z -> Status;              (* comm->Send(.., peer, ..) *)
  recv_status : Z -> Status;              (* comm->Recv(.., peer, ..) *)
  group_end_status : Status               (* collectives->GroupEnd() *)
}.

(** Host memory, and the device-to-host copies enqueued on the stream that
    have not completed yet (destination address and bytes). *)
Record Machine : Type := MkMachine {
  host : Memory;
  pending : list (Z * list Z)
}.

Definition complete_copies (h : Memory) (copies : list (Z * list Z)) : Memory :=
  fold_left (fun m c => store_bytes m (fst c) (snd c)) copies h.

(** ** The monad of the runtime code

    A computation runs on a machine and gives an outcome, the events it
    issued and the machine it leaves. *)
Definition M (A : Type) : Type := Machine -> Outcome A * list Event * Machine.

Definition ret {A} (a : A) : M A := fun w => (Returns a, [], w).

Definition bind {A B} (c : M A) (k : A -> M B) : M B := fun w =>
  match c w with
  | (Returns a, t, w') =>
      match k a w' with (o, t', w'') => (o, t ++ t', w'') end
  | (Fails e, t, w') => (Fails e, t, w')
  | (Aborts r, t, w') => (Aborts r, t, w')
  end.

Notation "'do' x <- c ; k" := (bind c (fun x => k))
  (at level 10, x name, c at level 100, k at level 200).
Notation "'do' ' p <- c ; k" := (bind c (fun x => match x with p => k end))
  (at level 10, p pattern, c at level 100, k at level 200).

Definition fail {A} (e : Error) : M A := fun w => (Fails e, [], w).
Definition abort {A} (r : AbortReason) : M A := fun w => (Aborts r, [], w).
Definition emit (e : Event) : M unit := fun w => (Returns tt, [e], w).
Definition lift {A} (o : Outcome A) : M A := fun w => (o, [], w).

(** [TF_RETURN_IF_ERROR(s)]. *)
Definition return_if_error (s : Status) : M unit :=
  match s with
  | OkStatus => ret tt
  | ErrorStatus e => fail e
  end.

(** [TF_ASSIGN_OR_RETURN(x, r)]. *)
Definition assign_or_return {A} (r : StatusOr A) : M A :=
  match r with
  | OkValue a => ret a
  | ErrorValue e => fail e
  end.

(** [v[i]] on a [std::vector].  Past the end the unchecked [operator[]] of
    the source is undefined; the model stops the run there, and no property
    below is about a run that indexes a vector past its end. *)
Definition vector_at {A} (v : list A) (i : nat) : M A :=
  match v !! i with
  | Some a => ret a
  | None => abort VectorIndexOutOfRange
  end.

Definition outcome_of {A} (r : Outcome A * list Event * Machine) : Outcome A :=
  fst (fst r).
Definition trace_of {A} (r : Outcome A * list Event * Machine) : list Event :=
  snd (fst r).
Definition machine_of {A} (r : Outcome A * list Event * Machine) : Machine :=
  snd r.

(** ** Stream and communicator operations *)

(** Modelled from the spec: the stream is not among the sources; its
    [Memcpy(dest, source, byteSize)] is an asynchronous device-to-host copy.
    [stream.Memcpy(host_dst, src, bytes)] for [buffers[i]] enqueues the copy
    of the first [bytes] bytes of [src], unless the call fails.  The copy
    stays pending until the wait, the first point at which the caller may
    rely on it; what host memory holds between the call and a successful
    wait is not part of any property below. *)
Definition Memcpy (env : Env) (i : nat) (host_dst : Z) (src : DeviceMemoryBase)
    (bytes : Z) : M unit :=
  do _ <- emit (EvMemcpy host_dst src bytes);
  match memcpy_status env i with
  | OkStatus => fun w =>
      (Returns tt, [],
       MkMachine (host w)
         (pending w ++ [(host_dst,
            load_bytes (device_memory env) (opaque src) (Z.to_nat bytes))]))
  | ErrorStatus e => fail e
  end.

(** Modelled from the spec: the stream's wait is a synchronous barrier over
    all work enqueued before it.  On success of
    [stream.BlockHostUntilDone()] every enqueued copy has reached host memory.
    The status is handed to the caller as a value. *)
Definition BlockHostUntilDone (env : Env) : M Status :=
  do _ <- emit EvBlockHostUntilDone;
  match block_status env with
  | OkStatus => fun w =>
      (Returns OkStatus, [], MkMachine (complete_copies (host w) (pending w)) [])
  | ErrorStatus e => ret (ErrorStatus e)
  end.

(** The calls below are the communicator layer's; each is recorded and
    answers what the environment says.  [MaybeRegisterBuffers] receives the
    executor, the whole vector of buffers and the communicator; what it does
    with them is its own, and only its status comes back to the caller. *)
Definition MaybeRegisterBuffers (env : Env) : M unit :=
  do _ <- emit EvMaybeRegisterBuffers; return_if_error (register_status env).

Definition NumRanks (env : Env) : M Z :=
  do _ <- emit EvNumRanks; assign_or_return (num_ranks_result env).

Definition GroupStart (env : Env) : M unit :=
  do _ <- emit EvGroupStart; return_if_error (group_start_status env).

Definition GroupEnd (env : Env) : M unit :=
  do _ <- emit EvGroupEnd; return_if_error (group_end_status env).

Definition Send (env : Env) (s : DeviceSlice) (dtype : PrimitiveType)
    (count peer : Z) : M unit :=
  do _ <- emit (EvSend s dtype count peer); return_if_error (send_status env peer).

Definition Recv (env : Env) (s : DeviceSlice) (dtype : PrimitiveType)
    (count peer : Z) : M unit :=
  do _ <- emit (EvRecv s dtype count peer); return_if_error (recv_status env peer).

(** [operand[i]] of an [IntegerOperandData], read from host memory. *)
Definition index_at (d : IntegerOperandData) (i : Z) : M Z :=
  fun w => (get d (host w) i, [], w).

(** [int64_t] multiplication; the C++ product is undefined when it overflows,
    the model wraps it. *)
Definition mul64 (a b : Z) : Z := sign_extend 64 (a * b).

(** ** LoadOffsetAndSizeOperands *)

(** The message of the error returned when the wait fails:
    [StrFormat("Failed to complete all kernels launched on stream %p: %s",
    &stream, blocked.message())]. *)
Definition block_failure_message (env : Env) (e : Error) : string :=
  "Failed to complete all kernels launched on stream "
  +:+ HexString.of_Z (stream_address env) +:+ ": " +:+ message e.

(** The loop [for (int i = 2; i < buffers.size(); ++i)], entered at position
    [i] with [rest] the buffers from [i] on. *)
Fixpoint stage_operands (env : Env) (i : nat) (rest : list DeviceBufferPair)
    (num_elements : Z) (host_buffer_alloc : Z)
    (indices : list IntegerOperandData) : M (list IntegerOperandData) :=
  match rest with
  | [] => ret indices
  | b :: rest' =>
      do _ <- Memcpy env i host_buffer_alloc (source_buffer b)
                (size (source_buffer b));
      stage_operands env (S i) rest' num_elements
        (host_buffer_alloc + 8 * num_elements)
        (indices ++ [MkIntegerOperandData (element_type b) host_buffer_alloc])
  end.

Definition LoadOffsetAndSizeOperands (env : Env)
    (buffers : list DeviceBufferPair) (host_buffer_alloc : Z)
    : M (list IntegerOperandData) :=
  do b2 <- vector_at buffers 2;
  let num_elements := element_count b2 in
  do indices <- stage_operands env 2 (drop 2 buffers) num_elements
                  host_buffer_alloc [];
  do blocked <- BlockHostUntilDone env;
  match blocked with
  | OkStatus => ret indices
  | ErrorStatus e => fail (InternalError (block_failure_message env e))
  end.

(** ** RunRaggedAllToAll *)

(** One iteration of the peer loop: the two slices, then the send, then the
    receive; the counts passed to [Send] and [Recv] are read again from the
    index arrays, as in the source. *)
Definition peer_step (env : Env) (ragged_row_element_size : Z)
    (data_buffer : DeviceBufferPair)
    (input_offsets send_sizes output_offsets recv_sizes : IntegerOperandData)
    (peer : Z) : M unit :=
  do io <- index_at input_offsets peer;
  do ss <- index_at send_sizes peer;
  let send_slice :=
    Slice (source_buffer data_buffer) (element_type data_buffer)
      (mul64 io ragged_row_element_size) (mul64 ss ragged_row_element_size) in
  do oo <- index_at output_offsets peer;
  do rs <- index_at recv_sizes peer;
  let recv_slice :=
    Slice (destination_buffer data_buffer) (element_type data_buffer)
      (mul64 oo ragged_row_element_size) (mul64 rs ragged_row_element_size) in
  do send_count <- index_at send_sizes peer;
  do _ <- Send env send_slice (element_type data_buffer)
            (mul64 send_count ragged_row_element_size) peer;
  do recv_count <- index_at recv_sizes peer;
  Recv env recv_slice (element_type data_buffer)
    (mul64 recv_count ragged_row_element_size) peer.

(** [for (int peer = 0; peer < num_ranks; ++peer)], over the peers left. *)
Fixpoint peer_loop (step : Z -> M unit) (peers : list Z) : M unit :=
  match peers with
  | [] => ret tt
  | peer :: peers' => do _ <- step peer; peer_loop step peers'
  end.

Definition RunRaggedAllToAll (env : Env) (ragged_row_element_size : Z)
    (buffers : list DeviceBufferPair) (host_buffer_alloc : Z) : M unit :=
  do _ <- MaybeRegisterBuffers env;
  do num_ranks <- NumRanks env;
  do index_operands <- LoadOffsetAndSizeOperands env buffers host_buffer_alloc;
  do input_offsets <- vector_at index_operands 0;
  do send_sizes <- vector_at index_operands 1;
  do output_offsets <- vector_at index_operands 2;
  do recv_sizes <- vector_at index_operands 3;
  do _ <- GroupStart env;
  do data_buffer <- vector_at buffers 0;
  do _ <- peer_loop
            (peer_step env ragged_row_element_size data_buffer
               input_offsets send_sizes output_offsets recv_sizes)
            (seqZ 0 num_ranks);
  GroupEnd env.

(** ** The thunk *)

(** [NcclRaggedAllToAllConfig], without the generic collective
    configuration. *)
Record NcclRaggedAllToAllConfig : Type := MkConfig {
  num_ragged_rows : Z;
  ragged_row_element_size : Z
}.

(** [se::MemoryAllocation]: the host region returned by the executor. *)
Record MemoryAllocation : Type := MkMemoryAllocation {
  allocation_opaque : Z;
  allocation_size : Z
}.

(** The state of a [NcclRaggedAllToAllStartThunk]: its configuration and the
    cache [host_buffer_allocs_], keyed by the executor's address.  The mutex
    that guards the cache is held for the whole of each access below; calls
    are modelled one after the other. *)
Record Thunk : Type := MkThunk {
  config_ : NcclRaggedAllToAllConfig;
  host_buffer_allocs_ : gmap Z MemoryAllocation
}.

(** What the collaborators answer during one call of [Initialize]. *)
Record InitializeEnv : Type := MkInitializeEnv {
  base_initialize_status : Status;   (* NcclCollectiveThunk::Initialize *)
  host_memory_allocate : Z -> StatusOr MemoryAllocation
                                     (* executor->HostMemoryAllocate(size) *)
}.

(** [4 * config_.num_ragged_rows * sizeof(int64_t)]: an [int64_t] product,
    converted to [size_t] and multiplied modulo [2^64]. *)
Definition staging_size (config : NcclRaggedAllToAllConfig) : Z :=
  ((mul64 4 (num_ragged_rows config)) mod 2 ^ 64 * 8) mod 2 ^ 64.

(** The result of a call of [Initialize]: the status returned, the sizes of
    the host allocations requested during the call, and the thunk after it. *)
Record InitializeResult : Type := MkInitializeResult {
  init_status : Status;
  init_requests : list Z;
  init_thunk : Thunk
}.

(** [NcclRaggedAllToAllStartThunk::Initialize(params)], [executor] being
    [params.executor]. *)
Definition Initialize (ienv : InitializeEnv) (executor : Z) (th : Thunk)
    : InitializeResult :=
  match base_initialize_status ienv with
  | ErrorStatus e => MkInitializeResult (ErrorStatus e) [] th
  | OkStatus =>
      match host_buffer_allocs_ th !! executor with
      | Some _ => MkInitializeResult OkStatus [] th
      | None =>
          let bytes := staging_size (config_ th) in
          match host_memory_allocate ienv bytes with
          | ErrorValue e => MkInitializeResult (ErrorStatus e) [bytes] th
          | OkValue allocation =>
              MkInitializeResult OkStatus [bytes]
                (MkThunk (config_ th)
                   (<[executor := allocation]> (host_buffer_allocs_ th)))
          end
      end
  end.

(** What the collaborators answer during one call of [RunNcclCollective],
    besides the stream and communicator of [Env]. *)
Record RunEnv : Type := MkRunEnv {
  convert_result : StatusOr (list DeviceBufferPair);
                                     (* ConvertToDeviceBuffers *)
  collectives_status : Status;       (* GetGpuCollectives *)
  stream_parent : Z;                 (* stream.parent() *)
  run_env : Env
}.

(** The lambda of [RunNcclCollective] that fetches the staging region:
    [host_buffer_allocs_.at(stream.parent())->opaque()]. *)
Definition GetStagingRegion (th : Thunk) (executor : Z) : Outcome Z :=
  match host_buffer_allocs_ th !! executor with
  | Some allocation => Returns (allocation_opaque allocation)
  | None => Aborts MapKeyNotFound
  end.

(** [NcclRaggedAllToAllStartThunk::RunNcclCollective]. *)
Definition RunNcclCollective (renv : RunEnv) (th : Thunk) : M unit :=
  do device_buffers <- assign_or_return (convert_result renv);
  do _ <- return_if_error (collectives_status renv);
  do host_buffer_alloc <- lift (GetStagingRegion th (stream_parent renv));
  RunRaggedAllToAll (run_env renv) (ragged_row_element_size (config_ th))
    device_buffers host_buffer_alloc.

(** ** CheckImplementable *)

Section CheckImplementable.

(** [Shape] and the operand test are the collective layer's. *)
Variable Shape : Type.
Variable shape_string : Shape -> string.

(** Whether a shape is an acceptable operand shape for the ragged
    all-to-all collective. *)
Variable acceptable : Shape -> bool.

(** Modelled from the spec: [IsValidOperand(shape, kind)] is defined in
    [nccl_collective_thunk.cc], which is not among the sources.  Following
    the spec, an operand whose shape is not acceptable for the collective
    kind gives an [InvalidArgument]-class error that names the operand. *)
Definition IsValidOperand (shape : Shape) : Status :=
  if acceptable shape then OkStatus
  else ErrorStatus (MkError kInvalidArgument
                      ("invalid operand: " +:+ shape_string shape)).

(** The text [AddOpDescription] adds for an instruction and the two
    counts (operation name, counts, group mode, operand count). *)
Variable op_description : list Shape -> Z -> Z -> string.

(** Modelled from the spec: [AddOpDescription] is defined in
    [nccl_collective_thunk.h], which is not among the sources.  Following
    the spec, success is returned unchanged and a failure keeps its error
    class and its message, to which the description of the operation is
    added. *)
Definition AddOpDescription (status : Status) (instr : list Shape)
    (replica_count partition_count : Z) : Status :=
  match status with
  | OkStatus => OkStatus
  | ErrorStatus e =>
      ErrorStatus
        (MkError (code e)
           (message e +:+ op_description instr replica_count partition_count))
  end.

(** The lambda [status] of [CheckImplementable]: the loop over the
    operands, with the shapes it has passed to [IsValidOperand] so far. *)
Fixpoint check_operands (operands : list Shape) (checked : list Shape)
    : Status * list Shape :=
  match operands with
  | [] => (OkStatus, checked)
  | shape :: operands' =>
      match IsValidOperand shape with
      | OkStatus => check_operands operands' (checked ++ [shape])
      | ErrorStatus e => (ErrorStatus e, checked ++ [shape])
      end
  end.

(** [NcclRaggedAllToAllStartThunk::CheckImplementable], [instr] being the
    shapes of the instruction's operands, in order: the status it returns
    and the operand shapes it has checked.  Its arguments are all it reads:
    no stream, executor or thunk. *)
Definition CheckImplementable (instr : list Shape)
    (replica_count partition_count : Z) : Status * list Shape :=
  let r := check_operands instr [] in
  (AddOpDescription (fst r) instr replica_count partition_count, snd r).

End CheckImplementable.

(** ** Concrete inputs *)

Definition zero_memory : Memory := fun _ => 0.

(** Memory [m] with the values [vs] stored from address [p] on as an array
    of element type [t]. *)
Definition store_array (m : Memory) (p : Z) (t : PrimitiveType) (vs : list Z)
    : Memory :=
  store_bytes m p (flat_map (le_bytes (Z.to_nat (index_width t))) vs).

(** An environment in which every call succeeds, with [n] ranks. *)
Definition env_all_ok (dev : Memory) (n : Z) : Env :=
  MkEnv dev 48879 OkStatus (OkValue n) (fun _ => OkStatus) OkStatus OkStatus
    (fun _ => OkStatus) (fun _ => OkStatus) OkStatus.

Definition idle_machine : Machine := MkMachine zero_memory [].

(** The scenario of two peers: a payload of 3 rows of 4 elements, and the
    index arrays [input_offsets = [0, 2]], [send_sizes = [2, 1]],
    [output_offsets = [1, 0]], [recv_sizes = [1, 2]], one of each supported
    element type. *)
Definition scenario_payload_src : DeviceMemoryBase := MkDeviceMemoryBase 4096 48.
Definition scenario_payload_dst : DeviceMemoryBase := MkDeviceMemoryBase 8192 48.

Definition scenario_buffers : list DeviceBufferPair :=
  [ MkDeviceBufferPair F32 12 scenario_payload_src scenario_payload_dst;
    MkDeviceBufferPair F32 12 scenario_payload_dst scenario_payload_dst;
    MkDeviceBufferPair S32 2 (MkDeviceMemoryBase 12288 8) (MkDeviceMemoryBase 12288 8);
    MkDeviceBufferPair S64 2 (MkDeviceMemoryBase 12544 16) (MkDeviceMemoryBase 12544 16);
    MkDeviceBufferPair U32 2 (MkDeviceMemoryBase 12800 8) (MkDeviceMemoryBase 12800 8);
    MkDeviceBufferPair U64 2 (MkDeviceMemoryBase 13056 16) (MkDeviceMemoryBase 13056 16) ].

Definition scenario_device_memory : Memory :=
  store_array
    (store_array
       (store_array
          (store_array zero_memory 12288 S32 [0; 2])
          12544 S64 [2; 1])
       12800 U32 [1; 0])
    13056 U64 [1; 2].

Definition scenario_env : Env := env_all_ok scenario_device_memory 2.

Definition scenario_host_buffer : Z := 65536.

(** The same scenario when the wait on the stream fails. *)
Definition wait_error : Error := MkError kDeadlineExceeded "timeout".

Definition env_wait_fails : Env :=
  MkEnv scenario_device_memory 48879 OkStatus (OkValue 2) (fun _ => OkStatus)
    (ErrorStatus wait_error) OkStatus (fun _ => OkStatus) (fun _ => OkStatus)
    OkStatus.

(** The same scenario when the send to peer 0 fails. *)
Definition send_error : Error := MkError kUnavailable "peer 0 unreachable".

Definition env_send_fails : Env :=
  MkEnv scenario_device_memory 48879 OkStatus (OkValue 2) (fun _ => OkStatus)
    OkStatus OkStatus
    (fun peer => if peer =? 0 then ErrorStatus send_error else OkStatus)
    (fun _ => OkStatus) OkStatus.

(** Five bindings: the payload followed by the four index arrays. *)
Definition five_bindings : list DeviceBufferPair :=
  [ MkDeviceBufferPair F32 12 scenario_payload_src scenario_payload_dst;
    MkDeviceBufferPair S32 2 (MkDeviceMemoryBase 12288 8) (MkDeviceMemoryBase 12288 8);
    MkDeviceBufferPair S64 2 (MkDeviceMemoryBase 12544 16) (MkDeviceMemoryBase 12544 16);
    MkDeviceBufferPair U32 2 (MkDeviceMemoryBase 12800 8) (MkDeviceMemoryBase 12800 8);
    MkDeviceBufferPair U64 2 (MkDeviceMemoryBase 13056 16) (MkDeviceMemoryBase 13056 16) ].

(** A thunk on which [Initialize] has not run, and a run on executor 1. *)
Definition scenario_config : NcclRaggedAllToAllConfig := MkConfig 2 4.

Definition fresh_thunk : Thunk := MkThunk scenario_config ∅.

Definition scenario_run_env : RunEnv :=
  MkRunEnv (OkValue scenario_buffers) OkStatus 1 scenario_env.

(** Executors whose allocation succeeds, at the given address. *)
Definition init_env_ok (address : Z) : InitializeEnv :=
  MkInitializeEnv OkStatus
    (fun bytes => OkValue (MkMemoryAllocation address bytes)).

(** The value 3000000000, which fits 32 unsigned bits, stored as the first
    element of a [U32] array and of a [U64] array at address 4096. *)
Definition narrow_memory : Memory := store_array zero_memory 4096 U32 [3000000000].
Definition wide_memory : Memory := store_array zero_memory 4096 U64 [3000000000].

(** ** Notions used in the statements *)

(** The [k]-th value of the index array bound to [b], as
    [IntegerOperandData] decodes it from device memory: the signed reading
    of the element's bytes, which differs from the entry itself for an
    unsigned entry above the signed range of its width. *)
Definition device_index (env : Env) (b : DeviceBufferPair) (k : Z) : Z :=
  match element_type b with
  | S32 | U32 => load_int32 (device_memory env) (opaque (source_buffer b) + 4 * k)
  | S64 | U64 => load_int64 (device_memory env) (opaque (source_buffer b) + 8 * k)
  | _ => 0
  end.

Definition in_int64 (z : Z) : Prop := - 2 ^ 63 <= z < 2 ^ 63.

(** Every call on the stream and on the communicator succeeds. *)
Definition all_succeed (env : Env) : Prop :=
  register_status env = OkStatus /\
  (forall i, memcpy_status env i = OkStatus) /\
  block_status env = OkStatus /\
  group_start_status env = OkStatus /\
  (forall peer, send_status env peer = OkStatus) /\
  (forall peer, recv_status env peer = OkStatus) /\
  group_end_status env = OkStatus.

(** An index operand of [n] elements of a supported element type, whose
    device buffer has the size of its elements. *)
Definition index_operand (n : Z) (b : DeviceBufferPair) : Prop :=
  supported_index_type (element_type b) = true /\
  element_count b = n /\
  size (source_buffer b) = index_width (element_type b) * n.

(** The send and the receive for peer [k], computed with exact products. *)
Definition expected_transfers (row_element_count : Z)
    (payload : DeviceBufferPair) (input_offsets send_sizes output_offsets
    recv_sizes : Z -> Z) (k : Z) : list Event :=
  [ EvSend (Slice (source_buffer payload) (element_type payload)
              (input_offsets k * row_element_count)
              (send_sizes k * row_element_count))
      (element_type payload) (send_sizes k * row_element_count) k;
    EvRecv (Slice (destination_buffer payload) (element_type payload)
              (output_offsets k * row_element_count)
              (recv_sizes k * row_element_count))
      (element_type payload) (recv_sizes k * row_element_count) k ].

(** The same with the code's 64-bit products. *)
Definition issued_transfers (env : Env) (row_element_count : Z)
    (b0 b2 b3 b4 b5 : DeviceBufferPair) (k : Z) : list Event :=
  [ EvSend (Slice (source_buffer b0) (element_type b0)
              (mul64 (device_index env b2 k) row_element_count)
              (mul64 (device_index env b3 k) row_element_count))
      (element_type b0) (mul64 (device_index env b3 k) row_element_count) k;
    EvRecv (Slice (destination_buffer b0) (element_type b0)
              (mul64 (device_index env b4 k) row_element_count)
              (mul64 (device_index env b5 k) row_element_count))
      (element_type b0) (mul64 (device_index env b5 k) row_element_count) k ].

(** The copy of the index array bound to [b] into the [i]-th sub-region of
    the staging buffer, for a stride of [n] 64-bit words. *)
Definition staging_copy (host_buffer_alloc n : Z) (i : Z) (b : DeviceBufferPair)
    : Event :=
  EvMemcpy (host_buffer_alloc + i * n * 8) (source_buffer b)
    (size (source_buffer b)).

(** The calls up to the wait, for bindings [b2 .. b5] at positions 2 to 5. *)
Definition staging_calls (host_buffer_alloc : Z) (b2 b3 b4 b5 : DeviceBufferPair)
    : list Event :=
  [ EvMaybeRegisterBuffers; EvNumRanks;
    staging_copy host_buffer_alloc (element_count b2) 0 b2;
    staging_copy host_buffer_alloc (element_count b2) 1 b3;
    staging_copy host_buffer_alloc (element_count b2) 2 b4;
    staging_copy host_buffer_alloc (element_count b2) 3 b5 ].

(** The device buffers copied to the host, in the order of the copies. *)
Definition staged_sources (t : list Event) : list DeviceMemoryBase :=
  omap (fun e => match e with EvMemcpy _ src _ => Some src | _ => None end) t.




(** The accessors built by the staging loop. *)
Definition staged_operands (hba : Z) (b2 b3 b4 b5 : DeviceBufferPair)
    : list IntegerOperandData :=
  [ MkIntegerOperandData (element_type b2) hba;
    MkIntegerOperandData (element_type b3) (hba + 8 * element_count b2);
    MkIntegerOperandData (element_type b4)
      (hba + 8 * element_count b2 + 8 * element_count b2);
    MkIntegerOperandData (element_type b5)
      (hba + 8 * element_count b2 + 8 * element_count b2 + 8 * element_count b2) ].

(** The bytes a staging copy of [b] carries. *)
Definition staged_bytes (env : Env) (b : DeviceBufferPair) : list Z :=
  load_bytes (device_memory env) (opaque (source_buffer b))
    (Z.to_nat (size (source_buffer b))).

(** The copies pending on the stream once the four arrays are staged. *)
Definition staged_copies (env : Env) (hba : Z) (b2 b3 b4 b5 : DeviceBufferPair)
    : list (Z * list Z) :=
  [ (hba, staged_bytes env b2);
    (hba + 8 * element_count b2, staged_bytes env b3);
    (hba + 8 * element_count b2 + 8 * element_count b2, staged_bytes env b4);
    (hba + 8 * element_count b2 + 8 * element_count b2 + 8 * element_count b2,
     staged_bytes env b5) ].

(** The first and the last element a send or a receive covers. *)
Definition covered_elements (e : Event) : option (Z * Z) :=
  match e with
  | EvSend s _ _ _ | EvRecv s _ _ _ => Some (slice_first s, slice_last s)
  | _ => None
  end.

(** The run of the scenario. *)
Definition scenario_run : Outcome unit * list Event * Machine :=
  RunRaggedAllToAll scenario_env 4 scenario_buffers scenario_host_buffer
    idle_machine.

(** Operand shapes for the examples: an operand is given by its element
    type, and tuples, opaque values and tokens are not acceptable. *)
Definition example_acceptable (t : PrimitiveType) : bool :=
  match t with
  | TUPLE | OPAQUE_TYPE | TOKEN | PRIMITIVE_TYPE_INVALID => false
  | _ => true
  end.

Definition example_shape_string (t : PrimitiveType) : string :=
  match t with
  | TUPLE => "tuple"
  | OPAQUE_TYPE => "opaque"
  | TOKEN => "token"
  | _ => "array"
  end.

Definition example_description (instr : list PrimitiveType)
    (replica_count partition_count : Z) : string :=
  " (ragged-all-to-all)".

(** ** Further notions and inputs *)

(** The accessor and the pending copy the staging loop makes for binding [b]
    when it is the [j]-th index array, for a stride of [n] 64-bit words. *)
Definition staged_accessor (host_buffer_alloc n : Z) (j : nat)
    (b : DeviceBufferPair) : IntegerOperandData :=
  MkIntegerOperandData (element_type b) (host_buffer_alloc + Z.of_nat j * n * 8).

Definition staged_copy (env : Env) (host_buffer_alloc n : Z) (j : nat)
    (b : DeviceBufferPair) : Z * list Z :=
  (host_buffer_alloc + Z.of_nat j * n * 8, staged_bytes env b).

(** The scenario when the copy of the binding at position 3 fails. *)
Definition copy_error : Error := MkError kInternal "copy failed".

Definition env_copy_fails : Env :=
  MkEnv scenario_device_memory 48879 OkStatus (OkValue 2)
    (fun i => if Nat.eqb i 3 then ErrorStatus copy_error else OkStatus)
    OkStatus OkStatus (fun _ => OkStatus) (fun _ => OkStatus) OkStatus.

(** The scenario when the receive from peer 1 fails. *)
Definition recv_error : Error := MkError kAborted "peer 1 gone".

Definition env_recv_fails : Env :=
  MkEnv scenario_device_memory 48879 OkStatus (OkValue 2) (fun _ => OkStatus)
    OkStatus OkStatus (fun _ => OkStatus)
    (fun peer => if peer =? 1 then ErrorStatus recv_error else OkStatus)
    OkStatus.

(** The scenario with [send_sizes] bound to an array of 32-bit floats. *)
Definition float_sizes_buffers : list DeviceBufferPair :=
  [ MkDeviceBufferPair F32 12 scenario_payload_src scenario_payload_dst;
    MkDeviceBufferPair F32 12 scenario_payload_dst scenario_payload_dst;
    MkDeviceBufferPair S32 2 (MkDeviceMemoryBase 12288 8) (MkDeviceMemoryBase 12288 8);
    MkDeviceBufferPair F32 2 (MkDeviceMemoryBase 12544 8) (MkDeviceMemoryBase 12544 8);
    MkDeviceBufferPair U32 2 (MkDeviceMemoryBase 12800 8) (MkDeviceMemoryBase 12800 8);
    MkDeviceBufferPair U64 2 (MkDeviceMemoryBase 13056 16) (MkDeviceMemoryBase 13056 16) ].

(** An executor whose host allocation fails. *)
Definition alloc_error : Error := MkError kResourceExhausted "out of pinned memory".

Definition init_env_alloc_fails : InitializeEnv :=
  MkInitializeEnv OkStatus (fun _ => ErrorValue alloc_error).

(** What can make a peer step over the accessors [accessors] end in [o] for
    peer [k]: a failed [Send] or [Recv] for that peer, or an accessor of an
    unsupported element type. *)
Definition step_outcome_explained (env : Env)
    (accessors : list IntegerOperandData) (k : Z) (o : Outcome unit) : Prop :=
  match o with
  | Returns _ => True
  | Fails e =>
      send_status env k = ErrorStatus e \/ recv_status env k = ErrorStatus e
  | Aborts r =>
      exists a, a ∈ accessors /\
        supported_index_type (element_type_ a) = false /\
        r = UnsupportedElementType (element_type_ a)
  end.

(** The errors the collaborators answer in [env], and the one error the
    code builds itself, from a failed wait. *)
Definition error_of_a_call (env : Env) (e : Error) : Prop :=
  register_status env = ErrorStatus e \/
  num_ranks_result env = ErrorValue e \/
  (exists i, (2 <= i <= 5)%nat /\ memcpy_status env i = ErrorStatus e) \/
  (exists e', block_status env = ErrorStatus e' /\
     e = InternalError (block_failure_message env e')) \/
  group_start_status env = ErrorStatus e \/
  (exists k, send_status env k = ErrorStatus e \/
             recv_status env k = ErrorStatus e) \/
  group_end_status env = ErrorStatus e.

(** ** Deriving the configuration *)

(** A shape, by its dimensions, and the part of an
    [HloRaggedAllToAllInstruction] that the configuration is derived from:
    the shapes of its operands and of its result. *)
Record HloShape : Type := MkHloShape { dimensions : list Z }.

Record HloRaggedAllToAllInstruction : Type := MkInstruction {
  operand_shapes : list HloShape;
  shape : HloShape
}.

(** Modelled from the spec: [ShapeUtil::ElementsIn] is not among the sources;
    it is the spec's total element count of the payload, the product of the
    dimensions. *)
Definition ElementsIn (s : HloShape) : Z := fold_right Z.mul 1 (dimensions s).

(** [GetNcclRaggedAllToAllConfig(instr)], without the generic collective
    configuration.  [None] stands for the runs the source leaves undefined:
    an operand or a dimension that does not exist, or a division by a
    leading dimension of zero.  The [int64_t] division truncates. *)
Definition GetNcclRaggedAllToAllConfig (instr : HloRaggedAllToAllInstruction)
    : option NcclRaggedAllToAllConfig :=
  match operand_shapes instr !! 2%nat with
  | None => None
  | Some operand2 =>
      match dimensions operand2 !! 0%nat, dimensions (shape instr) !! 0%nat with
      | Some rows, Some d0 =>
          if d0 =? 0 then None
          else Some (MkConfig rows (Z.quot (ElementsIn (shape instr)) d0))
      | _, _ => None
      end
  end.

(** A ragged all-to-all on a payload of shape [3, 4] with two ranks. *)
Definition scenario_instruction : HloRaggedAllToAllInstruction :=
  MkInstruction
    [ MkHloShape [3; 4]; MkHloShape [3; 4]; MkHloShape [2]; MkHloShape [2];
      MkHloShape [2]; MkHloShape [2] ]
    (MkHloShape [3; 4]).

(** A run on executor 1 whose buffer conversion fails. *)
Definition convert_error : Error := MkError kInvalidArgument "bad buffer".

Definition run_env_convert_fails : RunEnv :=
  MkRunEnv (ErrorValue convert_error) OkStatus 1 scenario_env.


(** ** Logical contents of the index arrays *)

(** The values of the signed type of the width of [t]: what the
    [int32_t] or [int64_t] read of [get] can give back. *)
Definition in_signed_range (t : PrimitiveType) (v : Z) : Prop :=
  - 2 ^ (8 * index_width t - 1) <= v < 2 ^ (8 * index_width t - 1).

(** The index array bound to [b] holds the logical values [vs] in device
    memory: as many as the binding has elements, each a value of the
    binding's element type, stored in that type's width. *)
Definition device_array (env : Env) (b : DeviceBufferPair) (vs : list Z) : Prop :=
  Z.of_nat (length vs) = element_count b /\
  forall (k : nat) (v : Z), vs !! k = Some v ->
    representable (element_type b) v /\
    holds_at (device_memory env) (opaque (source_buffer b)) (element_type b)
      (Z.of_nat k) v.

(** The logical value at index [k] of an array. *)
Definition entry (vs : list Z) (k : Z) : Z := default 0 (vs !! Z.to_nat k).

(** The entries of [vs] below index [N] fit the signed type of the width. *)
Definition entries_in_signed_range (t : PrimitiveType) (N : Z) (vs : list Z)
    : Prop :=
  forall (k : nat) (v : Z), vs !! k = Some v -> Z.of_nat k < N ->
    in_signed_range t v.

(** One rank, rows of one element, and [input_offsets] a [U32] array whose
    entry for peer 0 is 3000000000. *)
Definition large_offset_buffers : list DeviceBufferPair :=
  [ MkDeviceBufferPair F32 12 scenario_payload_src scenario_payload_dst;
    MkDeviceBufferPair F32 12 scenario_payload_dst scenario_payload_dst;
    MkDeviceBufferPair U32 1 (MkDeviceMemoryBase 12288 4) (MkDeviceMemoryBase 12288 4);
    MkDeviceBufferPair S32 1 (MkDeviceMemoryBase 12544 4) (MkDeviceMemoryBase 12544 4);
    MkDeviceBufferPair S32 1 (MkDeviceMemoryBase 12800 4) (MkDeviceMemoryBase 12800 4);
    MkDeviceBufferPair S32 1 (MkDeviceMemoryBase 13056 4) (MkDeviceMemoryBase 13056 4) ].

Definition large_offset_env : Env :=
  env_all_ok
    (store_array
       (store_array
          (store_array
             (store_array zero_memory 12288 U32 [3000000000])
             12544 S32 [1])
          12800 S32 [0])
       13056 S32 [1])
    1.

(** ** Slices and the memory they are computed from *)

(** The send or the receive [e] carries, for its peer, the slice and the
    count that the loop body computes from the index values that the four
    accessors read in host memory [h]. *)
Definition transfer_computed_from (rs : Z) (b0 : DeviceBufferPair)
    (a_io a_ss a_oo a_rs : IntegerOperandData) (h : Memory) (e : Event) : Prop :=
  exists k io ss oo rs',
    get a_io h k = Returns io /\ get a_ss h k = Returns ss /\
    get a_oo h k = Returns oo /\ get a_rs h k = Returns rs' /\
    (e = EvSend (Slice (source_buffer b0) (element_type b0)
                   (mul64 io rs) (mul64 ss rs))
           (element_type b0) (mul64 ss rs) k \/
     e = EvRecv (Slice (destination_buffer b0) (element_type b0)
                   (mul64 oo rs) (mul64 rs' rs))
           (element_type b0) (mul64 rs' rs) k).

(** Host memory as the completed wait leaves it: every copy enqueued before
    the run and the four staging copies have landed. *)
Definition staged_host (env : Env) (hba : Z) (b2 b3 b4 b5 : DeviceBufferPair)
    (w : Machine) : Memory :=
  complete_copies (host w) (pending w ++ staged_copies env hba b2 b3 b4 b5).

(** * Properties *)

(** ** Lemmas on the byte encoding *)

Lemma le_value_le_bytes (n : nat) (v : Z) :
  le_value (le_bytes n v) = v mod 256 ^ Z.of_nat n.
Proof.
  revert v; induction n as [|n IH]; intros v.
  - simpl. now rewrite Z.mod_1_r.
  - cbn [le_bytes le_value]. rewrite IH, Z.mod_mod by lia.
    rewrite Nat2Z.inj_succ, Z.pow_succ_r by lia.
    rewrite Z.rem_mul_r by lia. reflexivity.
Qed.

Lemma sign_extend_mod (bits v : Z) :
  0 < bits ->
  - 2 ^ (bits - 1) <= v < 2 ^ (bits - 1) ->
  sign_extend bits (v mod 2 ^ bits) = v.
Proof.
  intros Hb Hv. unfold sign_extend.
  assert (Hp : 2 ^ bits = 2 * 2 ^ (bits - 1)).
  { replace bits with (Z.succ (bits - 1)) at 1 by lia.
    rewrite Z.pow_succ_r by lia. reflexivity. }
  rewrite Zplus_mod_idemp_l.
  rewrite Z.mod_small by lia. lia.
Qed.

Lemma load_int32_le_bytes (m : Memory) (p v : Z) :
  load_bytes m p 4 = le_bytes 4 v ->
  load_int32 m p = sign_extend 32 (v mod 2 ^ 32).
Proof.
  intros H. unfold load_int32. rewrite H, le_value_le_bytes. reflexivity.
Qed.

Lemma load_int64_le_bytes (m : Memory) (p v : Z) :
  load_bytes m p 8 = le_bytes 8 v ->
  load_int64 m p = sign_extend 64 (v mod 2 ^ 64).
Proof.
  intros H. unfold load_int64. rewrite H, le_value_le_bytes. reflexivity.
Qed.

(** What [get] returns on an array that holds [v] at position [i]. *)
Lemma get_holds (m : Memory) (p : Z) (t : PrimitiveType) (i v : Z) :
  supported_index_type t = true ->
  holds_at m p t i v ->
  get (MkIntegerOperandData t p) m i
  = Returns (sign_extend (8 * index_width t) (v mod 2 ^ (8 * index_width t))).
Proof.
  intros Ht H. unfold holds_at in H.
  destruct t; try discriminate Ht; cbn in H |- *;
    first [ now rewrite (load_int32_le_bytes _ _ _ H)
          | now rewrite (load_int64_le_bytes _ _ _ H) ].
Qed.

Lemma sign_extend_small (bits x : Z) :
  0 < bits ->
  - 2 ^ (bits - 1) <= x < 2 ^ (bits - 1) ->
  sign_extend bits x = x.
Proof.
  intros Hb Hx. unfold sign_extend.
  assert (Hp : 2 ^ bits = 2 * 2 ^ (bits - 1)).
  { replace bits with (Z.succ (bits - 1)) at 1 by lia.
    rewrite Z.pow_succ_r by lia. reflexivity. }
  rewrite Z.mod_small by lia. lia.
Qed.

Lemma mul64_exact (a b : Z) : in_int64 (a * b) -> mul64 a b = a * b.
Proof. intros H. apply sign_extend_small; [lia | exact H]. Qed.

(** ** The index accessor *)

(** C3, as amended: on an element type other than S32, U32, S64 and U64,
    [IntegerOperandData::get] does not return: it ends in [LOG(FATAL)], for
    every index and whatever the memory holds; no error value reaches the
    caller. *)
Theorem get_unsupported_aborts (d : IntegerOperandData) (m : Memory) (i : Z) :
  supported_index_type (element_type_ d) = false ->
  get d m i = Aborts (UnsupportedElementType (element_type_ d)) /\
  ~ is_error_status (get d m i).
Proof.
  intros Ht.
  assert (E : get d m i = Aborts (UnsupportedElementType (element_type_ d))).
  { unfold get. destruct (element_type_ d); try reflexivity; discriminate Ht. }
  split; [exact E |]. rewrite E. intros [e He]. discriminate He.
Qed.

Lemma get_unsupported_aborts_witness :
  get (MkIntegerOperandData F32 65536) zero_memory 1
  = Aborts (UnsupportedElementType F32).
Proof.
  apply (get_unsupported_aborts (MkIntegerOperandData F32 65536) zero_memory 1).
  reflexivity.
Defined.

(** C3 as stated fails: on a 32-bit float index array [get] returns no
    error value. *)
Lemma get_unsupported_no_error_value :
  supported_index_type F32 = false /\
  ~ is_error_status (get (MkIntegerOperandData F32 65536) zero_memory 0).
Proof.
  split; [reflexivity |]. intros [e He]. discriminate He.
Qed.

(** C6, as amended: for every index and every value of the signed 32-bit
    range, [get] on a narrow array (S32 or U32) and on a wide array (S64 or
    U64) that hold the value at that index both return it; and [get] does
    not look at the signedness of the tag. *)
Theorem get_narrow_wide_agree (t32 t64 : PrimitiveType) (m32 m64 : Memory)
    (p32 p64 i v : Z) :
  index_width t32 = 4 -> index_width t64 = 8 ->
  - 2 ^ 31 <= v < 2 ^ 31 ->
  holds_at m32 p32 t32 i v -> holds_at m64 p64 t64 i v ->
  get (MkIntegerOperandData t32 p32) m32 i = Returns v /\
  get (MkIntegerOperandData t64 p64) m64 i = Returns v /\
  (forall m p j, get (MkIntegerOperandData U32 p) m j
                 = get (MkIntegerOperandData S32 p) m j) /\
  (forall m p j, get (MkIntegerOperandData U64 p) m j
                 = get (MkIntegerOperandData S64 p) m j).
Proof.
  intros W32 W64 Hv H32 H64.
  assert (S32' : supported_index_type t32 = true)
    by (destruct t32; try reflexivity; discriminate W32).
  assert (S64' : supported_index_type t64 = true)
    by (destruct t64; try reflexivity; discriminate W64).
  rewrite (get_holds _ _ _ _ _ S32' H32), (get_holds _ _ _ _ _ S64' H64).
  rewrite W32, W64. change (8 * 4) with 32. change (8 * 8) with 64.
  rewrite !sign_extend_mod by lia.
  repeat split; reflexivity.
Qed.

Lemma get_narrow_wide_agree_witness :
  get (MkIntegerOperandData S32 4096) (store_array zero_memory 4096 S32 [-7]) 0
  = Returns (-7) /\
  get (MkIntegerOperandData U64 4096) (store_array zero_memory 4096 U64 [-7]) 0
  = Returns (-7).
Proof.
  destruct (get_narrow_wide_agree S32 U64
              (store_array zero_memory 4096 S32 [-7])
              (store_array zero_memory 4096 U64 [-7]) 4096 4096 0 (-7))
    as (H1 & H2 & _); [reflexivity | reflexivity | lia | reflexivity
                      | reflexivity | ].
  split; [exact H1 | exact H2].
Defined.

(** C6 as stated fails: 3000000000 is representable as U32 and as U64, and
    the narrow and the wide array that hold it decode to different values. *)
Lemma get_narrow_wide_differ :
  representable U32 3000000000 /\ representable U64 3000000000 /\
  holds_at narrow_memory 4096 U32 0 3000000000 /\
  holds_at wide_memory 4096 U64 0 3000000000 /\
  get (MkIntegerOperandData U32 4096) narrow_memory 0 = Returns (-1294967296) /\
  get (MkIntegerOperandData U64 4096) wide_memory 0 = Returns 3000000000 /\
  get (MkIntegerOperandData U32 4096) narrow_memory 0
  <> get (MkIntegerOperandData U64 4096) wide_memory 0.
Proof.
  repeat split; try (cbn; lia); try reflexivity.
  vm_compute. discriminate.
Qed.

(** ** Running the monad *)

Lemma bind_run {A B} (c : M A) (k : A -> M B) (w : Machine) :
  bind c k w =
  match c w with
  | (Returns a, t, w') =>
      (outcome_of (k a w'), t ++ trace_of (k a w'), machine_of (k a w'))
  | (Fails e, t, w') => (Fails e, t, w')
  | (Aborts r, t, w') => (Aborts r, t, w')
  end.
Proof.
  unfold bind. destruct (c w) as [[[a|e|r] t] w']; try reflexivity.
  destruct (k a w') as [[o t'] w'']. reflexivity.
Qed.

Lemma bind_ret {A B} (a : A) (k : A -> M B) (w : Machine) :
  bind (ret a) k w = k a w.
Proof. unfold bind, ret. destruct (k a w) as [[o t] w']. reflexivity. Qed.

Ltac run_unfold :=
  cbv [RunRaggedAllToAll LoadOffsetAndSizeOperands stage_operands
       MaybeRegisterBuffers NumRanks GroupStart GroupEnd Memcpy
       BlockHostUntilDone bind ret fail abort emit lift return_if_error
       assign_or_return vector_at lookup list_lookup drop skipn
       outcome_of trace_of machine_of fst snd host pending].

Lemma staging_calls_eq hba b2 b3 b4 b5 :
  staging_calls hba b2 b3 b4 b5 =
  [ EvMaybeRegisterBuffers; EvNumRanks;
    EvMemcpy hba (source_buffer b2) (size (source_buffer b2));
    EvMemcpy (hba + 8 * element_count b2) (source_buffer b3) (size (source_buffer b3));
    EvMemcpy (hba + 8 * element_count b2 + 8 * element_count b2)
      (source_buffer b4) (size (source_buffer b4));
    EvMemcpy (hba + 8 * element_count b2 + 8 * element_count b2 + 8 * element_count b2)
      (source_buffer b5) (size (source_buffer b5)) ].
Proof.
  unfold staging_calls, staging_copy. repeat (f_equal; try lia).
Qed.

Lemma Load_ok env b0 b1 b2 b3 b4 b5 hba w :
  (forall i, memcpy_status env i = OkStatus) ->
  block_status env = OkStatus ->
  LoadOffsetAndSizeOperands env [b0; b1; b2; b3; b4; b5] hba w =
  (Returns (staged_operands hba b2 b3 b4 b5),
   drop 2 (staging_calls hba b2 b3 b4 b5) ++ [EvBlockHostUntilDone],
   MkMachine
     (complete_copies (host w) (pending w ++ staged_copies env hba b2 b3 b4 b5))
     []).
Proof.
  intros Hm Hb. rewrite staging_calls_eq. destruct w as [h p].
  run_unfold. rewrite !Hm, Hb. cbv beta iota.
  rewrite <- !app_assoc. reflexivity.
Qed.

(** ** Memory lemmas *)

Lemma length_load_bytes (m : Memory) (a : Z) (n : nat) :
  length (load_bytes m a n) = n.
Proof. revert a; induction n as [|n IH]; intros a; simpl; [|rewrite IH]; reflexivity. Qed.

Lemma store_bytes_outside (m : Memory) (a : Z) (bs : list Z) (y : Z) :
  y < a \/ a + Z.of_nat (length bs) <= y ->
  store_bytes m a bs y = m y.
Proof.
  revert m a; induction bs as [|b bs IH]; intros m a Hy; simpl; [reflexivity|].
  rewrite IH by (simpl in Hy; lia).
  destruct (Z.eqb_spec y a); [simpl in Hy; lia | reflexivity].
Qed.

Lemma store_bytes_load (m d : Memory) (a p : Z) (n : nat) (k : Z) :
  0 <= k < Z.of_nat n ->
  store_bytes m a (load_bytes d p n) (a + k) = d (p + k).
Proof.
  revert m a p k; induction n as [|n IH]; intros m a p k Hk; [simpl in Hk; lia|].
  cbn [load_bytes store_bytes].
  destruct (decide (k = 0)) as [->|Hne].
  - rewrite store_bytes_outside by lia.
    rewrite !Z.add_0_r, Z.eqb_refl. reflexivity.
  - replace (a + k) with (a + 1 + (k - 1)) by lia.
    rewrite IH by lia. f_equal. lia.
Qed.

Lemma load_bytes_ext (m1 m2 : Memory) (a1 a2 : Z) (n : nat) :
  (forall i, 0 <= i < Z.of_nat n -> m1 (a1 + i) = m2 (a2 + i)) ->
  load_bytes m1 a1 n = load_bytes m2 a2 n.
Proof.
  revert a1 a2; induction n as [|n IH]; intros a1 a2 H; [reflexivity|].
  cbn [load_bytes]. f_equal.
  - specialize (H 0). rewrite !Z.add_0_r in H. apply H. lia.
  - apply IH. intros i Hi. specialize (H (1 + i)).
    rewrite !Z.add_assoc in H. apply H. lia.
Qed.

Lemma complete_copies_app (h : Memory) (c1 c2 : list (Z * list Z)) :
  complete_copies h (c1 ++ c2) = complete_copies (complete_copies h c1) c2.
Proof. apply fold_left_app. Qed.

(** After the wait, byte [x] of the [j]-th staged array is byte [x] of its
    device buffer, when no array is longer than the stride. *)
Lemma staged_byte env hba b2 b3 b4 b5 (h : Memory) (j : Z) (b : DeviceBufferPair) (x : Z) :
  let n := element_count b2 in
  size (source_buffer b2) <= 8 * n -> size (source_buffer b3) <= 8 * n ->
  size (source_buffer b4) <= 8 * n -> size (source_buffer b5) <= 8 * n ->
  (j = 0 /\ b = b2) \/ (j = 1 /\ b = b3) \/ (j = 2 /\ b = b4) \/ (j = 3 /\ b = b5) ->
  0 <= x < size (source_buffer b) ->
  complete_copies h (staged_copies env hba b2 b3 b4 b5) (hba + j * n * 8 + x)
  = device_memory env (opaque (source_buffer b) + x).
Proof.
  intros n H2 H3 H4 H5 Hj Hx. subst n.
  unfold complete_copies, staged_copies, staged_bytes. cbn [fold_left fst snd].
  destruct Hj as [[-> ->]|[[-> ->]|[[-> ->]|[-> ->]]]].
  - rewrite 3 store_bytes_outside by (rewrite length_load_bytes; lia).
    replace (hba + 0 * element_count b2 * 8 + x) with (hba + x) by lia.
    apply store_bytes_load. lia.
  - rewrite 2 store_bytes_outside by (rewrite length_load_bytes; lia).
    replace (hba + 1 * element_count b2 * 8 + x)
      with (hba + 8 * element_count b2 + x) by lia.
    apply store_bytes_load. lia.
  - rewrite store_bytes_outside by (rewrite length_load_bytes; lia).
    replace (hba + 2 * element_count b2 * 8 + x)
      with (hba + 8 * element_count b2 + 8 * element_count b2 + x) by lia.
    apply store_bytes_load. lia.
  - replace (hba + 3 * element_count b2 * 8 + x)
      with (hba + 8 * element_count b2 + 8 * element_count b2
            + 8 * element_count b2 + x) by lia.
    apply store_bytes_load. lia.
Qed.

(** Reading the [j]-th staged array through its accessor gives the value
    decoded from the device array. *)
Lemma staged_get env hba b2 b3 b4 b5 (h : Memory) (j : Z) (b : DeviceBufferPair) (k : Z) :
  let n := element_count b2 in
  index_operand n b2 -> index_operand n b3 ->
  index_operand n b4 -> index_operand n b5 ->
  (j = 0 /\ b = b2) \/ (j = 1 /\ b = b3) \/ (j = 2 /\ b = b4) \/ (j = 3 /\ b = b5) ->
  0 <= k < n ->
  get (MkIntegerOperandData (element_type b) (hba + j * n * 8))
    (complete_copies h (staged_copies env hba b2 b3 b4 b5)) k
  = Returns (device_index env b k).
Proof.
  intros n I2 I3 I4 I5 Hj Hk.
  assert (Hw : forall t, supported_index_type t = true ->
                 0 < index_width t <= 8)
    by (intros t; destruct t; cbn; intros; try discriminate; lia).
  assert (Hb : index_operand n b)
    by (destruct Hj as [[_ ->]|[[_ ->]|[[_ ->]|[_ ->]]]]; assumption).
  assert (Hsz : forall b', index_operand n b' -> size (source_buffer b') <= 8 * n).
  { intros b' (Hs & _ & Hz). rewrite Hz. specialize (Hw _ Hs). nia. }
  pose proof (staged_byte env hba b2 b3 b4 b5 h j b) as Hbyte.
  cbv zeta in Hbyte. fold n in Hbyte.
  specialize (fun x => Hbyte x (Hsz _ I2) (Hsz _ I3) (Hsz _ I4) (Hsz _ I5) Hj).
  destruct Hb as (Hs & _ & Hz).
  unfold get, device_index. cbn [element_type_ data_].
  destruct (element_type b) eqn:Et; try discriminate Hs; cbn in Hz;
    unfold load_int32, load_int64; do 3 f_equal;
    apply load_bytes_ext; intros i Hi;
    rewrite <- !Z.add_assoc, Z.add_assoc; rewrite Hbyte by lia; f_equal; lia.
Qed.

(** ** The peer loop *)

Ltac step_unfold :=
  cbv [peer_step index_at Send Recv bind ret fail abort emit return_if_error
       outcome_of trace_of machine_of fst snd].

Lemma peer_step_ok env rs b0 a_io a_ss a_oo a_rs (io ss oo rs' : Z) peer w :
  send_status env peer = OkStatus -> recv_status env peer = OkStatus ->
  get a_io (host w) peer = Returns io -> get a_ss (host w) peer = Returns ss ->
  get a_oo (host w) peer = Returns oo -> get a_rs (host w) peer = Returns rs' ->
  peer_step env rs b0 a_io a_ss a_oo a_rs peer w
  = (Returns tt,
     [ EvSend (Slice (source_buffer b0) (element_type b0) (mul64 io rs) (mul64 ss rs))
         (element_type b0) (mul64 ss rs) peer;
       EvRecv (Slice (destination_buffer b0) (element_type b0) (mul64 oo rs) (mul64 rs' rs))
         (element_type b0) (mul64 rs' rs) peer ],
     w).
Proof.
  intros Hs Hr H1 H2 H3 H4. step_unfold.
  repeat (first [rewrite H1 | rewrite H2 | rewrite H3 | rewrite H4
                | rewrite Hs | rewrite Hr]; cbv beta iota).
  reflexivity.
Qed.

Lemma peer_loop_ok env rs b0 b2 b3 b4 b5 a_io a_ss a_oo a_rs peers w :
  (forall peer, send_status env peer = OkStatus) ->
  (forall peer, recv_status env peer = OkStatus) ->
  (forall k, k ∈ peers ->
     get a_io (host w) k = Returns (device_index env b2 k) /\
     get a_ss (host w) k = Returns (device_index env b3 k) /\
     get a_oo (host w) k = Returns (device_index env b4 k) /\
     get a_rs (host w) k = Returns (device_index env b5 k)) ->
  peer_loop (peer_step env rs b0 a_io a_ss a_oo a_rs) peers w
  = (Returns tt, flat_map (issued_transfers env rs b0 b2 b3 b4 b5) peers, w).
Proof.
  intros Hs Hr. induction peers as [|k peers IH]; intros Hget; [reflexivity|].
  cbn [peer_loop flat_map]. rewrite bind_run.
  destruct (Hget k) as (H1 & H2 & H3 & H4); [left|].
  rewrite (peer_step_ok env rs b0 _ _ _ _ _ _ _ _ k w (Hs k) (Hr k) H1 H2 H3 H4).
  rewrite IH by (intros k' Hk'; apply Hget; right; exact Hk').
  reflexivity.
Qed.

(** Whatever the collaborators answer, the peer loop issues sends and
    receives only. *)
Lemma peer_step_transfers env rs b0 a_io a_ss a_oo a_rs peer w :
  Forall (fun e => is_transfer e = true)
    (trace_of (peer_step env rs b0 a_io a_ss a_oo a_rs peer w)).
Proof.
  step_unfold.
  repeat match goal with
         | |- context [get ?a (host w) peer] =>
             destruct (get a (host w) peer); cbv beta iota;
             [| repeat constructor ..]
         | |- context [send_status env peer] =>
             destruct (send_status env peer); cbv beta iota;
             [| repeat constructor ..]
         | |- context [recv_status env peer] =>
             destruct (recv_status env peer); cbv beta iota;
             [| repeat constructor ..]
         end.
  repeat constructor.
Qed.

Lemma peer_loop_transfers (step : Z -> M unit) peers w :
  (forall peer w', Forall (fun e => is_transfer e = true) (trace_of (step peer w'))) ->
  Forall (fun e => is_transfer e = true) (trace_of (peer_loop step peers w)).
Proof.
  intros Hstep. revert w; induction peers as [|k peers IH]; intros w.
  - constructor.
  - cbn [peer_loop]. rewrite bind_run. specialize (Hstep k w).
    destruct (step k w) as [[[[]|e|r] t] w']; cbn [trace_of fst snd] in *;
      try assumption.
    apply Forall_app. split; [assumption | apply IH].
Qed.

(** ** The whole run when every call succeeds *)

Lemma MaybeRegisterBuffers_ok env w :
  register_status env = OkStatus ->
  MaybeRegisterBuffers env w = (Returns tt, [EvMaybeRegisterBuffers], w).
Proof. intros H. run_unfold. rewrite H. reflexivity. Qed.

Lemma NumRanks_ok env w N :
  num_ranks_result env = OkValue N ->
  NumRanks env w = (Returns N, [EvNumRanks], w).
Proof. intros H. run_unfold. rewrite H. reflexivity. Qed.

Lemma GroupStart_ok env w :
  group_start_status env = OkStatus ->
  GroupStart env w = (Returns tt, [EvGroupStart], w).
Proof. intros H. run_unfold. rewrite H. reflexivity. Qed.

Lemma GroupEnd_ok env w :
  group_end_status env = OkStatus ->
  GroupEnd env w = (Returns tt, [EvGroupEnd], w).
Proof. intros H. run_unfold. rewrite H. reflexivity. Qed.

Lemma run_all_ok env rs b0 b1 b2 b3 b4 b5 hba w N :
  all_succeed env ->
  num_ranks_result env = OkValue N ->
  index_operand (element_count b2) b2 -> index_operand (element_count b2) b3 ->
  index_operand (element_count b2) b4 -> index_operand (element_count b2) b5 ->
  N <= element_count b2 ->
  RunRaggedAllToAll env rs [b0; b1; b2; b3; b4; b5] hba w
  = (Returns tt,
     staging_calls hba b2 b3 b4 b5
       ++ [EvBlockHostUntilDone; EvGroupStart]
       ++ flat_map (issued_transfers env rs b0 b2 b3 b4 b5) (seqZ 0 N)
       ++ [EvGroupEnd],
     MkMachine
       (complete_copies (host w) (pending w ++ staged_copies env hba b2 b3 b4 b5))
       []).
Proof.
  intros (Hreg & Hm & Hb & Hgs & Hs & Hr & Hge) HN I2 I3 I4 I5 HNn.
  unfold RunRaggedAllToAll.
  rewrite bind_run, (MaybeRegisterBuffers_ok env w Hreg). cbv beta iota.
  rewrite bind_run, (NumRanks_ok env w N HN). cbv beta iota.
  rewrite bind_run, (Load_ok env b0 b1 b2 b3 b4 b5 hba w Hm Hb). cbv beta iota.
  unfold staged_operands, vector_at. cbn [lookup list_lookup].
  rewrite !bind_ret.
  rewrite bind_run, (GroupStart_ok env _ Hgs). cbv beta iota.
  rewrite bind_ret, bind_run.
  rewrite (peer_loop_ok env rs b0 b2 b3 b4 b5 _ _ _ _ (seqZ 0 N) _ Hs Hr).
  - cbv beta iota. rewrite (GroupEnd_ok env _ Hge).
    cbn [outcome_of trace_of machine_of fst snd].
    rewrite (staging_calls_eq hba b2 b3 b4 b5). cbn [app drop skipn].
    reflexivity.
  - intros k Hk. apply elem_of_seqZ in Hk. cbn [host].
    rewrite complete_copies_app.
    pose proof (fun j b => staged_get env hba b2 b3 b4 b5
                  (complete_copies (host w) (pending w)) j b k I2 I3 I4 I5) as G.
    cbv zeta in G.
    pose proof (G 0 b2) as G0. pose proof (G 1 b3) as G1.
    pose proof (G 2 b4) as G2. pose proof (G 3 b5) as G3.
    replace (hba + 0 * element_count b2 * 8) with hba in G0 by lia.
    replace (hba + 1 * element_count b2 * 8)
      with (hba + 8 * element_count b2) in G1 by lia.
    replace (hba + 2 * element_count b2 * 8)
      with (hba + 8 * element_count b2 + 8 * element_count b2) in G2 by lia.
    replace (hba + 3 * element_count b2 * 8)
      with (hba + 8 * element_count b2 + 8 * element_count b2
            + 8 * element_count b2) in G3 by lia.
    repeat split; [apply G0 | apply G1 | apply G2 | apply G3];
      first [lia | tauto].
Qed.

(** ** The shape of every run *)

Lemma transfer_not_staging (e : Event) :
  is_transfer e = true -> is_memcpy e = false /\ is_block e = false.
Proof. destruct e; cbn; intros H; try discriminate H; split; reflexivity. Qed.

Lemma run_shape env rs b0 b1 b2 b3 b4 b5 hba w :
  let r := RunRaggedAllToAll env rs [b0; b1; b2; b3; b4; b5] hba w in
  let calls := staging_calls hba b2 b3 b4 b5 in
  (exists e, outcome_of r = Fails e /\ trace_of r `prefix_of` calls)
  \/ (exists e, block_status env = ErrorStatus e /\
        outcome_of r = Fails (InternalError (block_failure_message env e)) /\
        trace_of r = calls ++ [EvBlockHostUntilDone])
  \/ (block_status env = OkStatus /\
      exists post, trace_of r = calls ++ EvBlockHostUntilDone :: post /\
        Forall (fun e => is_memcpy e = false /\ is_block e = false) post).
Proof.
  cbv zeta. rewrite staging_calls_eq. destruct w as [h p].
  pose proof (fun w' => peer_loop_transfers
    (peer_step env rs b0
       (MkIntegerOperandData (element_type b2) hba)
       (MkIntegerOperandData (element_type b3) (hba + 8 * element_count b2))
       (MkIntegerOperandData (element_type b4)
          (hba + 8 * element_count b2 + 8 * element_count b2))
       (MkIntegerOperandData (element_type b5)
          (hba + 8 * element_count b2 + 8 * element_count b2
           + 8 * element_count b2)))
    (seqZ 0 (match num_ranks_result env with OkValue n => n | _ => 0 end)) w'
    (peer_step_transfers env rs b0 _ _ _ _)) as Hloop.
  run_unfold. cbn [app]. cbv beta iota.
  destruct (register_status env) as [|e].
  2:{ left. exists e. split; [reflexivity | eexists; reflexivity]. }
  destruct (num_ranks_result env) as [N|e].
  2:{ left. exists e. split; [reflexivity | eexists; reflexivity]. }
  destruct (memcpy_status env 2) as [|e].
  2:{ left. exists e. split; [reflexivity | eexists; reflexivity]. }
  destruct (memcpy_status env 3) as [|e].
  2:{ left. exists e. split; [reflexivity | eexists; reflexivity]. }
  destruct (memcpy_status env 4) as [|e].
  2:{ left. exists e. split; [reflexivity | eexists; reflexivity]. }
  destruct (memcpy_status env 5) as [|e].
  2:{ left. exists e. split; [reflexivity | eexists; reflexivity]. }
  destruct (block_status env) as [|e].
  2:{ right. left. exists e. repeat split; reflexivity. }
  right. right. split; [reflexivity|].
  destruct (group_start_status env) as [|e].
  2:{ eexists. split; [reflexivity|]. repeat constructor. }
  match goal with
  | |- context [peer_loop ?s ?l ?m] =>
      specialize (Hloop m); destruct (peer_loop s l m) as [[o t] w']
  end.
  cbn [trace_of fst snd] in Hloop.
  assert (Ht : Forall (fun e => is_memcpy e = false /\ is_block e = false) t).
  { eapply Forall_impl; [exact Hloop | apply transfer_not_staging]. }
  destruct o as [[]|e|r].
  - destruct (group_end_status env) as [|e].
    + eexists; split; [cbn [app]; reflexivity|].
      constructor; [split; reflexivity|].
      rewrite ?app_nil_r. apply Forall_app; split; [assumption|].
      repeat constructor.
    + eexists; split; [cbn [app]; reflexivity|].
      constructor; [split; reflexivity|].
      rewrite ?app_nil_r. apply Forall_app; split; [assumption|].
      repeat constructor.
  - eexists; split; [cbn [app]; reflexivity|].
    constructor; [split; reflexivity | assumption].
  - eexists; split; [cbn [app]; reflexivity|].
    constructor; [split; reflexivity | assumption].
Qed.

(** ** The transfers of a run *)

Lemma filter_flat_map_transfers (f g : Z -> list Event) (peers : list Z) :
  (forall k, k ∈ peers -> f k = g k) ->
  (forall k, Forall (fun e => is_transfer e = true) (g k)) ->
  filter (fun e => is_transfer e = true) (flat_map f peers) = flat_map g peers.
Proof.
  intros Hfg Hg. induction peers as [|k peers IH]; [reflexivity|].
  cbn [flat_map]. rewrite filter_app, IH, Hfg.
  - f_equal. induction (Hg k) as [|e l He _ IHl]; [reflexivity|].
    rewrite filter_cons_True by exact He. f_equal. exact IHl.
  - left.
  - intros k' Hk'. apply Hfg. right. exact Hk'.
Qed.

(** ** The wait and the transfers *)

Lemma count_events_app (p : Event -> bool) (t1 t2 : list Event) :
  count_events p (t1 ++ t2) = (count_events p t1 + count_events p t2)%nat.
Proof. unfold count_events. rewrite filter_app, length_app. reflexivity. Qed.

Lemma count_events_none (p : Event -> bool) (t : list Event) :
  Forall (fun e => p e = false) t -> count_events p t = 0%nat.
Proof.
  unfold count_events. induction 1 as [|e t He _ IH]; [reflexivity|].
  rewrite filter_cons_False by congruence. exact IH.
Qed.

Lemma staging_calls_counts hba b2 b3 b4 b5 :
  count_events is_memcpy (staging_calls hba b2 b3 b4 b5) = 4%nat /\
  count_events is_transfer (staging_calls hba b2 b3 b4 b5) = 0%nat /\
  count_events is_block (staging_calls hba b2 b3 b4 b5) = 0%nat.
Proof. repeat split; reflexivity. Qed.

Lemma count_events_prefix (p : Event -> bool) (t1 t2 : list Event) :
  t1 `prefix_of` t2 -> count_events p t2 = 0%nat -> count_events p t1 = 0%nat.
Proof. intros [k ->]. rewrite count_events_app. lia. Qed.

Lemma count_events_zero_not_in (p : Event -> bool) (t : list Event) (e : Event) :
  count_events p t = 0%nat -> p e = true -> ~ In e t.
Proof.
  unfold count_events. intros Hc He Hin.
  assert (Hf : e ∈ filter (fun e => p e = true) t).
  { apply list_elem_of_filter. split; [exact He | apply list_elem_of_In; exact Hin]. }
  destruct (filter (fun e => p e = true) t); [inversion Hf | discriminate Hc].
Qed.

(** C2 as stated fails on the error returned: when the wait fails with
    DeadlineExceeded, the invocation returns another status, of class
    Internal, that quotes the message of the wait's failure. *)
Lemma wait_failure_not_returned_as_is :
  block_status env_wait_fails = ErrorStatus wait_error /\
  In EvBlockHostUntilDone
    (trace_of (RunRaggedAllToAll env_wait_fails 4 scenario_buffers
                 scenario_host_buffer idle_machine)) /\
  outcome_of (RunRaggedAllToAll env_wait_fails 4 scenario_buffers
                scenario_host_buffer idle_machine)
  <> Fails wait_error.
Proof.
  split; [reflexivity|]. split; [vm_compute; tauto|].
  vm_compute. discriminate.
Qed.

(** ** The batching scope *)

Lemma issued_transfers_no_group env rs b0 b2 b3 b4 b5 (peers : list Z) :
  Forall (fun e => is_group_start e = false /\ is_group_end e = false)
    (flat_map (issued_transfers env rs b0 b2 b3 b4 b5) peers).
Proof.
  induction peers as [|k peers IH]; [constructor|].
  cbn [flat_map issued_transfers app]. repeat constructor. exact IH.
Qed.

(** When every call succeeds, the scope opened by [GroupStart] is closed by
    the [GroupEnd] at the end of the function. *)
Lemma group_scope_closed_on_success env rs b0 b1 b2 b3 b4 b5 hba w N :
  all_succeed env ->
  num_ranks_result env = OkValue N ->
  index_operand (element_count b2) b2 -> index_operand (element_count b2) b3 ->
  index_operand (element_count b2) b4 -> index_operand (element_count b2) b5 ->
  N <= element_count b2 ->
  let r := RunRaggedAllToAll env rs [b0; b1; b2; b3; b4; b5] hba w in
  count_events is_group_start (trace_of r) = 1%nat /\
  count_events is_group_end (trace_of r) = 1%nat.
Proof.
  intros Hok HN I2 I3 I4 I5 HNn r. subst r.
  rewrite (run_all_ok env rs b0 b1 b2 b3 b4 b5 hba w N) by assumption.
  cbn [trace_of fst snd].
  pose proof (issued_transfers_no_group env rs b0 b2 b3 b4 b5 (seqZ 0 N)) as Hn.
  rewrite !count_events_app.
  rewrite (count_events_none is_group_start (flat_map _ _))
    by (eapply Forall_impl; [exact Hn | intros x [Hx _]; exact Hx]).
  rewrite (count_events_none is_group_end (flat_map _ _))
    by (eapply Forall_impl; [exact Hn | intros x [_ Hx]; exact Hx]).
  split; reflexivity.
Qed.

(** C8 as stated fails: when the send to peer 0 fails, the run returns that
    error right after [GroupStart] has succeeded, without a call of
    [GroupEnd]. *)
Theorem group_scope_left_open :
  let r := RunRaggedAllToAll env_send_fails 4 scenario_buffers
             scenario_host_buffer idle_machine in
  group_start_status env_send_fails = OkStatus /\
  outcome_of r = Fails send_error /\
  count_events is_group_start (trace_of r) = 1%nat /\
  count_events is_group_end (trace_of r) = 0%nat.
Proof. repeat split; vm_compute; reflexivity. Qed.

(** ** The staging region *)

Lemma staging_size_exact (config : NcclRaggedAllToAllConfig) :
  0 <= num_ragged_rows config < 2 ^ 59 ->
  staging_size config = 4 * num_ragged_rows config * 8.
Proof.
  intros H. unfold staging_size.
  rewrite mul64_exact by (unfold in_int64; lia).
  rewrite (Z.mod_small (4 * _)) by lia.
  apply Z.mod_small. lia.
Qed.



(** ** The host staging buffer cache *)

Lemma Initialize_cached ienv d th a :
  host_buffer_allocs_ th !! d = Some a ->
  init_requests (Initialize ienv d th) = [] /\ init_thunk (Initialize ienv d th) = th.
Proof.
  intros H. unfold Initialize.
  destruct (base_initialize_status ienv); [rewrite H|]; split; reflexivity.
Qed.

Lemma Initialize_first ienv d th :
  host_buffer_allocs_ th !! d = None ->
  init_status (Initialize ienv d th) = OkStatus ->
  exists a,
    host_memory_allocate ienv (staging_size (config_ th)) = OkValue a /\
    Initialize ienv d th
    = MkInitializeResult OkStatus [staging_size (config_ th)]
        (MkThunk (config_ th) (<[d := a]> (host_buffer_allocs_ th))).
Proof.
  intros Hnone Hok. unfold Initialize in *.
  destruct (base_initialize_status ienv); [|discriminate Hok].
  rewrite Hnone in *.
  destruct (host_memory_allocate ienv (staging_size (config_ th))) as [a|e];
    [|discriminate Hok].
  exists a. split; reflexivity.
Qed.

(** A call that does not return OK leaves the cache as it was. *)
Lemma Initialize_failed ienv d th :
  init_status (Initialize ienv d th) <> OkStatus ->
  init_thunk (Initialize ienv d th) = th.
Proof.
  unfold Initialize.
  destruct (base_initialize_status ienv); [|reflexivity].
  destruct (host_buffer_allocs_ th !! d); [reflexivity|].
  destruct (host_memory_allocate ienv _); [|reflexivity].
  cbn. congruence.
Qed.

(** C7: on a device that has no cache entry yet, a first successful
    [Initialize] followed by a second call for the same device makes one
    allocation in all, of [4 * ragged_row_count * 8] bytes, and leaves one
    entry for the device; followed instead by a successful call for another
    device, each call makes one allocation of that size and each device has
    its own entry, holding the allocation made for it. *)
Theorem Initialize_idempotent (th : Thunk) (d d' : Z)
    (ienv1 ienv2 : InitializeEnv) :
  let R := num_ragged_rows (config_ th) in
  let r1 := Initialize ienv1 d th in
  0 <= R < 2 ^ 59 ->
  host_buffer_allocs_ th !! d = None ->
  init_status r1 = OkStatus ->
  (let r2 := Initialize ienv2 d (init_thunk r1) in
   init_requests r1 ++ init_requests r2 = [4 * R * 8] /\
   init_thunk r2 = init_thunk r1 /\
   is_Some (host_buffer_allocs_ (init_thunk r2) !! d) /\
   base.size (host_buffer_allocs_ (init_thunk r2))
   = S (base.size (host_buffer_allocs_ th))) /\
  (let r2 := Initialize ienv2 d' (init_thunk r1) in
   d' <> d -> host_buffer_allocs_ th !! d' = None ->
   init_status r2 = OkStatus ->
   init_requests r1 = [4 * R * 8] /\ init_requests r2 = [4 * R * 8] /\
   (exists a a',
      host_memory_allocate ienv1 (4 * R * 8) = OkValue a /\
      host_memory_allocate ienv2 (4 * R * 8) = OkValue a' /\
      host_buffer_allocs_ (init_thunk r2) !! d = Some a /\
      host_buffer_allocs_ (init_thunk r2) !! d' = Some a') /\
   base.size (host_buffer_allocs_ (init_thunk r2))
   = S (S (base.size (host_buffer_allocs_ th)))).
Proof.
  intros R r1 HR Hnone Hok.
  destruct (Initialize_first ienv1 d th Hnone Hok) as (a & Ha & E1).
  pose proof (staging_size_exact (config_ th) HR) as Hsz. fold R in Hsz.
  subst r1. rewrite E1. cbn [init_requests init_thunk]. rewrite Hsz in *.
  split.
  - cbv zeta.
    destruct (Initialize_cached ienv2 d
                (MkThunk (config_ th) (<[d := a]> (host_buffer_allocs_ th))) a)
      as [Hreq Hth]; [apply lookup_insert_eq|].
    rewrite Hreq, Hth. cbn [host_buffer_allocs_].
    repeat split.
    + rewrite lookup_insert_eq. eexists. reflexivity.
    + apply map_size_insert_None. exact Hnone.
  - cbv zeta. intros Hne Hnone' Hok'.
    assert (Hn2 : host_buffer_allocs_
                    (MkThunk (config_ th) (<[d := a]> (host_buffer_allocs_ th)))
                  !! d' = None).
    { cbn [host_buffer_allocs_]. rewrite lookup_insert_ne by congruence.
      exact Hnone'. }
    destruct (Initialize_first ienv2 d' _ Hn2 Hok') as (a' & Ha' & E2).
    rewrite E2. cbn [init_requests init_thunk host_buffer_allocs_ config_] in *.
    rewrite Hsz in *.
    repeat split.
    + exists a, a'. repeat split; try assumption.
      * rewrite lookup_insert_ne by congruence. apply lookup_insert_eq.
      * apply lookup_insert_eq.
    + rewrite map_size_insert_None.
      * f_equal. apply map_size_insert_None. exact Hnone.
      * rewrite lookup_insert_ne by congruence. exact Hnone'.
Qed.

Lemma Initialize_idempotent_witness :
  init_requests (Initialize (init_env_ok 65536) 1 fresh_thunk)
  ++ init_requests
       (Initialize (init_env_ok 131072) 1
          (init_thunk (Initialize (init_env_ok 65536) 1 fresh_thunk)))
  = [64].
Proof.
  pose proof (Initialize_idempotent fresh_thunk 1 2 (init_env_ok 65536)
                (init_env_ok 131072)) as H.
  cbv zeta in H. destruct H as [(H & _) _].
  - cbn. lia.
  - reflexivity.
  - reflexivity.
  - exact H.
Defined.

(** C5, as amended: on a thunk whose cache has no entry for the device of
    the stream, which is the case as long as no [Initialize] for that device
    has returned OK, fetching the staging region does not return: the lookup
    [at] ends the call with no status, and the run enqueues nothing. *)
Theorem staging_region_uninitialized (th : Thunk) (renv : RunEnv) (w : Machine) :
  host_buffer_allocs_ th !! stream_parent renv = None ->
  GetStagingRegion th (stream_parent renv) = Aborts MapKeyNotFound /\
  ~ is_error_status (GetStagingRegion th (stream_parent renv)) /\
  (forall buffers,
     convert_result renv = OkValue buffers ->
     collectives_status renv = OkStatus ->
     RunNcclCollective renv th w = (Aborts MapKeyNotFound, [], w)) /\
  (forall ienv,
     init_status (Initialize ienv (stream_parent renv) th) <> OkStatus ->
     host_buffer_allocs_ (init_thunk (Initialize ienv (stream_parent renv) th))
     !! stream_parent renv = None).
Proof.
  intros Hnone.
  assert (E : GetStagingRegion th (stream_parent renv) = Aborts MapKeyNotFound)
    by (unfold GetStagingRegion; rewrite Hnone; reflexivity).
  split; [exact E|]. split; [|split].
  - rewrite E. intros [e He]. discriminate He.
  - intros buffers Hc Hg. unfold RunNcclCollective.
    rewrite Hc, Hg, E. reflexivity.
  - intros ienv Hfail. rewrite (Initialize_failed _ _ _ Hfail). exact Hnone.
Qed.

Lemma staging_region_uninitialized_witness :
  RunNcclCollective scenario_run_env fresh_thunk idle_machine
  = (Aborts MapKeyNotFound, [], idle_machine).
Proof.
  apply (proj1 (proj2 (proj2 (staging_region_uninitialized fresh_thunk
                  scenario_run_env idle_machine eq_refl)))
           scenario_buffers eq_refl eq_refl).
Defined.

(** C5 as stated fails: a run on a device without a cache entry returns no
    error status. *)
Lemma uninitialized_run_no_status :
  host_buffer_allocs_ fresh_thunk !! stream_parent scenario_run_env = None /\
  ~ is_error_status
      (outcome_of (RunNcclCollective scenario_run_env fresh_thunk idle_machine)).
Proof.
  split; [reflexivity|]. intros [e He]. vm_compute in He. discriminate He.
Qed.

(** ** CheckImplementable *)

Lemma check_operands_all_valid (Shape : Type) (shape_string : Shape -> string)
    (acceptable : Shape -> bool) (operands checked : list Shape) :
  Forall (fun s => acceptable s = true) operands ->
  check_operands Shape shape_string acceptable operands checked
  = (OkStatus, checked ++ operands).
Proof.
  intros H. revert checked.
  induction H as [|s l Hs _ IH]; intros checked; cbn [check_operands].
  - rewrite app_nil_r. reflexivity.
  - unfold IsValidOperand. rewrite Hs, IH, <- app_assoc. reflexivity.
Qed.

Lemma check_operands_first_invalid (Shape : Type) (shape_string : Shape -> string)
    (acceptable : Shape -> bool) (pre post checked : list Shape) (bad : Shape) :
  Forall (fun s => acceptable s = true) pre ->
  acceptable bad = false ->
  check_operands Shape shape_string acceptable (pre ++ bad :: post) checked
  = (IsValidOperand Shape shape_string acceptable bad, checked ++ pre ++ [bad]).
Proof.
  intros H Hbad. revert checked.
  induction H as [|s l Hs _ IH]; intros checked; cbn [check_operands app].
  - unfold IsValidOperand. rewrite Hbad. reflexivity.
  - unfold IsValidOperand at 1. rewrite Hs, IH, <- app_assoc. reflexivity.
Qed.

(** C9: [CheckImplementable] checks the operands in order; at the first
    operand whose shape is not acceptable it returns an InvalidArgument error
    whose message names that operand, and it has checked no later operand;
    when every operand is acceptable it has checked them all and returns OK.
    It is a function of the instruction and the two counts alone. *)
Theorem CheckImplementable_fail_fast (Shape : Type)
    (shape_string : Shape -> string) (acceptable : Shape -> bool)
    (op_description : list Shape -> Z -> Z -> string)
    (instr : list Shape) (replica_count partition_count : Z) :
  (forall pre bad post,
     instr = pre ++ bad :: post ->
     Forall (fun s => acceptable s = true) pre ->
     acceptable bad = false ->
     CheckImplementable Shape shape_string acceptable op_description instr
       replica_count partition_count
     = (ErrorStatus
          (MkError kInvalidArgument
             (("invalid operand: " +:+ shape_string bad)
              +:+ op_description instr replica_count partition_count)),
        pre ++ [bad])) /\
  (Forall (fun s => acceptable s = true) instr ->
   CheckImplementable Shape shape_string acceptable op_description instr
     replica_count partition_count
   = (OkStatus, instr)).
Proof.
  split.
  - intros pre bad post -> Hpre Hbad. unfold CheckImplementable.
    rewrite (check_operands_first_invalid _ _ _ pre post [] bad Hpre Hbad).
    unfold IsValidOperand. rewrite Hbad. reflexivity.
  - intros H. unfold CheckImplementable.
    rewrite (check_operands_all_valid _ _ _ instr [] H). reflexivity.
Qed.

Lemma CheckImplementable_fail_fast_witness :
  CheckImplementable PrimitiveType example_shape_string example_acceptable
    example_description [F32; F32; S32; TUPLE; S64; TOKEN] 2 1
  = (ErrorStatus
       (MkError kInvalidArgument "invalid operand: tuple (ragged-all-to-all)"),
     [F32; F32; S32; TUPLE]).
Proof.
  apply (proj1 (CheckImplementable_fail_fast PrimitiveType example_shape_string
                  example_acceptable example_description
                  [F32; F32; S32; TUPLE; S64; TOKEN] 2 1)
           [F32; F32; S32] TUPLE [S64; TOKEN] eq_refl).
  - repeat constructor.
  - reflexivity.
Defined.

(** * Further properties of the code *)

(** ** The index accessor *)

Lemma sign_extend_bounds (bits x : Z) :
  0 < bits ->
  - 2 ^ (bits - 1) <= sign_extend bits x < 2 ^ (bits - 1).
Proof.
  intros Hb. unfold sign_extend.
  assert (Hp : 2 ^ bits = 2 * 2 ^ (bits - 1)).
  { replace bits with (Z.succ (bits - 1)) at 1 by lia.
    rewrite Z.pow_succ_r by lia. reflexivity. }
  assert (0 < 2 ^ (bits - 1)) by (apply Z.pow_pos_nonneg; lia).
  pose proof (Z.mod_pos_bound (x + 2 ^ (bits - 1)) (2 ^ bits)). lia.
Qed.

(** X1: whatever the memory holds, a value that [get] returns from a 32-bit
    index array (S32 or U32) lies in the signed 32-bit range, and one from a
    64-bit array (S64 or U64) in the signed 64-bit range; an unsigned entry
    from [2^31] (or [2^63]) on is never returned as such. *)
Theorem get_signed_range (d : IntegerOperandData) (m : Memory) (i v : Z) :
  get d m i = Returns v ->
  (index_width (element_type_ d) = 4 /\ - 2 ^ 31 <= v < 2 ^ 31) \/
  (index_width (element_type_ d) = 8 /\ - 2 ^ 63 <= v < 2 ^ 63).
Proof.
  unfold get. intros H.
  destruct (element_type_ d); try discriminate H; injection H as <-;
    first [ left; split; [reflexivity|];
            apply (sign_extend_bounds 32); lia
          | right; split; [reflexivity|];
            apply (sign_extend_bounds 64); lia ].
Qed.

Lemma get_signed_range_witness :
  (index_width U32 = 4 /\ - 2 ^ 31 <= -1294967296 < 2 ^ 31) \/
  (index_width U32 = 8 /\ - 2 ^ 63 <= -1294967296 < 2 ^ 63).
Proof.
  apply (get_signed_range (MkIntegerOperandData U32 4096) narrow_memory 0
           (-1294967296)).
  vm_compute. reflexivity.
Defined.

(** X2: [get] at index [i] reads the bytes of element [i] only: two memories
    that agree on the [index_width] bytes from [data_ + index_width * i] on
    give the same result. *)
Theorem get_reads_its_element (d : IntegerOperandData) (m1 m2 : Memory) (i : Z) :
  (forall x,
     data_ d + index_width (element_type_ d) * i <= x
       < data_ d + index_width (element_type_ d) * i
         + index_width (element_type_ d) ->
     m1 x = m2 x) ->
  get d m1 i = get d m2 i.
Proof.
  intros H. unfold get.
  destruct (element_type_ d); try reflexivity; cbn [index_width] in H;
    unfold load_int32, load_int64; do 3 f_equal;
    apply load_bytes_ext; intros k Hk; apply H; lia.
Qed.

Lemma get_reads_its_element_witness :
  get (MkIntegerOperandData S32 4096) (store_array zero_memory 4096 S32 [5; 9]) 0
  = get (MkIntegerOperandData S32 4096) (store_array zero_memory 4096 S32 [5; 3]) 0.
Proof.
  apply (get_reads_its_element (MkIntegerOperandData S32 4096)
           (store_array zero_memory 4096 S32 [5; 9])
           (store_array zero_memory 4096 S32 [5; 3]) 0).
  cbn [data_ element_type_ index_width]. intros x Hx.
  assert (Hc : x = 4096 \/ x = 4097 \/ x = 4098 \/ x = 4099) by lia.
  destruct Hc as [-> | [-> | [-> | ->]]]; reflexivity.
Defined.

(** ** Staging, for any number of bindings *)

Lemma Memcpy_ok env i a src sz w :
  memcpy_status env i = OkStatus ->
  Memcpy env i a src sz w
  = (Returns tt, [EvMemcpy a src sz],
     MkMachine (host w)
       (pending w ++ [(a, load_bytes (device_memory env) (opaque src) (Z.to_nat sz))])).
Proof. intros H. run_unfold. rewrite H. reflexivity. Qed.

Lemma Memcpy_failed env i a src sz w e :
  memcpy_status env i = ErrorStatus e ->
  Memcpy env i a src sz w = (Fails e, [EvMemcpy a src sz], w).
Proof. intros H. run_unfold. rewrite H. reflexivity. Qed.

Lemma BlockHostUntilDone_ok env w :
  block_status env = OkStatus ->
  BlockHostUntilDone env w
  = (Returns OkStatus, [EvBlockHostUntilDone],
     MkMachine (complete_copies (host w) (pending w)) []).
Proof. intros H. run_unfold. rewrite H. reflexivity. Qed.

Lemma imap_shift {A B : Type} (F : nat -> A -> B) (j0 : nat) (b : A)
    (rest : list A) :
  imap (fun j => F (j0 + j)%nat) (b :: rest)
  = F j0 b :: imap (fun j => F (S j0 + j)%nat) rest.
Proof.
  rewrite imap_cons, Nat.add_0_r. f_equal.
  apply imap_ext. intros j x _. cbn. f_equal. lia.
Qed.

Lemma stage_operands_ok env (rest : list DeviceBufferPair) :
  (forall i, memcpy_status env i = OkStatus) ->
  forall i n hba (j0 : nat) indices w,
  stage_operands env i rest n (hba + Z.of_nat j0 * n * 8) indices w
  = (Returns (indices ++ imap (fun j => staged_accessor hba n (j0 + j)) rest),
     imap (fun j => staging_copy hba n (Z.of_nat (j0 + j))) rest,
     MkMachine (host w)
       (pending w ++ imap (fun j => staged_copy env hba n (j0 + j)) rest)).
Proof.
  intros Hm. induction rest as [|b rest IH]; intros i n hba j0 indices w.
  - cbn. rewrite !app_nil_r. destruct w. reflexivity.
  - cbn [stage_operands]. rewrite bind_run, (Memcpy_ok _ _ _ _ _ _ (Hm i)).
    cbv beta iota.
    replace (hba + Z.of_nat j0 * n * 8 + 8 * n)
      with (hba + Z.of_nat (S j0) * n * 8) by lia.
    rewrite IH. cbn [outcome_of trace_of machine_of fst snd host pending].
    pose proof (imap_shift (staged_accessor hba n) j0 b rest) as E1.
    pose proof (imap_shift (fun j => staging_copy hba n (Z.of_nat j)) j0 b rest) as E2.
    pose proof (imap_shift (staged_copy env hba n) j0 b rest) as E3.
    cbv beta in E1, E2, E3. rewrite E1, E2, E3, <- !app_assoc.
    reflexivity.
Qed.

(** X3: for any list of at least three bindings, when the copies and the
    wait succeed [LoadOffsetAndSizeOperands] issues one copy per binding from
    position 2 on and then the wait, and returns one accessor per such
    binding: the [j]-th carries the element type of the binding at position
    [j + 2] and points [j * num_elements * 8] bytes into the staging buffer,
    [num_elements] being the element count of the binding at position 2. *)
Theorem Load_accessors (env : Env) (buffers : list DeviceBufferPair)
    (b2 : DeviceBufferPair) (hba : Z) (w : Machine) :
  buffers !! 2%nat = Some b2 ->
  (forall i, memcpy_status env i = OkStatus) ->
  block_status env = OkStatus ->
  let n := element_count b2 in
  let r := LoadOffsetAndSizeOperands env buffers hba w in
  outcome_of r = Returns (imap (staged_accessor hba n) (drop 2 buffers)) /\
  trace_of r
  = imap (fun j => staging_copy hba n (Z.of_nat j)) (drop 2 buffers)
    ++ [EvBlockHostUntilDone] /\
  machine_of r
  = MkMachine
      (complete_copies (host w)
         (pending w ++ imap (staged_copy env hba n) (drop 2 buffers)))
      [].
Proof.
  intros H2 Hm Hb n r. subst r. unfold LoadOffsetAndSizeOperands, vector_at.
  rewrite H2, bind_ret, bind_run. fold n.
  pose proof (stage_operands_ok env (drop 2 buffers) Hm 2%nat n hba 0%nat [] w) as E.
  replace (hba + Z.of_nat 0 * n * 8) with hba in E by lia.
  rewrite E. cbv beta iota.
  rewrite bind_run, (BlockHostUntilDone_ok env _ Hb).
  cbn [outcome_of trace_of machine_of fst snd host pending app ret].
  rewrite ?app_nil_r. repeat split.
Qed.

Lemma Load_accessors_witness :
  outcome_of (LoadOffsetAndSizeOperands scenario_env scenario_buffers
                scenario_host_buffer idle_machine)
  = Returns [ MkIntegerOperandData S32 65536; MkIntegerOperandData S64 65552;
              MkIntegerOperandData U32 65568; MkIntegerOperandData U64 65584 ].
Proof.
  apply (Load_accessors scenario_env scenario_buffers
           (MkDeviceBufferPair S32 2 (MkDeviceMemoryBase 12288 8)
              (MkDeviceMemoryBase 12288 8))
           scenario_host_buffer idle_machine eq_refl (fun _ => eq_refl) eq_refl).
Defined.

Lemma stage_operands_failed env (k : nat) (e : Error)
    (rest : list DeviceBufferPair) :
  memcpy_status env k = ErrorStatus e ->
  forall i n hba indices w,
  (i <= k < i + length rest)%nat ->
  (forall j, (i <= j < k)%nat -> memcpy_status env j = OkStatus) ->
  let r := stage_operands env i rest n hba indices w in
  outcome_of r = Fails e /\
  Forall (fun ev => is_memcpy ev = true) (trace_of r) /\
  length (trace_of r) = (k - i + 1)%nat /\
  host (machine_of r) = host w.
Proof.
  intros He. induction rest as [|b rest IH]; intros i n hba indices w Hk Hok r.
  - cbn in Hk. lia.
  - subst r. cbn [stage_operands]. rewrite bind_run.
    destruct (decide (k = i)) as [->|Hne].
    + rewrite (Memcpy_failed _ _ _ _ _ _ _ He).
      cbn [outcome_of trace_of machine_of fst snd].
      repeat split; [repeat constructor | cbn; lia].
    + rewrite (Memcpy_ok _ _ _ _ _ _ (Hok i ltac:(lia))). cbv beta iota.
      cbn [length] in Hk.
      specialize (IH (S i) n (hba + 8 * n)
                    (indices ++ [MkIntegerOperandData (element_type b) hba])
                    (MkMachine (host w)
                       (pending w ++
                        [(hba, load_bytes (device_memory env)
                                 (opaque (source_buffer b))
                                 (Z.to_nat (size (source_buffer b))))]))
                    ltac:(lia) ltac:(intros; apply Hok; lia)).
      cbv zeta in IH. destruct IH as (Ho & Hf & Hl & Hh).
      cbn [outcome_of trace_of machine_of fst snd].
      fold (@outcome_of (list IntegerOperandData)).
      fold (@trace_of (list IntegerOperandData)).
      fold (@machine_of (list IntegerOperandData)).
      repeat split.
      * exact Ho.
      * constructor; [reflexivity | exact Hf].
      * cbn [app length]. rewrite Hl. lia.
      * rewrite Hh. reflexivity.
Qed.

Lemma count_events_all (p : Event -> bool) (t : list Event) :
  Forall (fun e => p e = true) t -> count_events p t = length t.
Proof.
  unfold count_events. induction 1 as [|e t He _ IH]; [reflexivity|].
  rewrite filter_cons_True by exact He. cbn. rewrite IH. reflexivity.
Qed.

Lemma memcpy_only (q : Event -> bool) (t : list Event) :
  (forall e, is_memcpy e = true -> q e = false) ->
  Forall (fun e => is_memcpy e = true) t -> count_events q t = 0%nat.
Proof.
  intros Hq Ht. apply count_events_none.
  eapply Forall_impl; [exact Ht | exact Hq].
Qed.

Lemma Load_copy_failed env buffers b2 hba w k e :
  buffers !! 2%nat = Some b2 ->
  (2 <= k < length buffers)%nat ->
  (forall j, (2 <= j < k)%nat -> memcpy_status env j = OkStatus) ->
  memcpy_status env k = ErrorStatus e ->
  let r := LoadOffsetAndSizeOperands env buffers hba w in
  outcome_of r = Fails e /\
  Forall (fun ev => is_memcpy ev = true) (trace_of r) /\
  length (trace_of r) = (k - 1)%nat /\
  host (machine_of r) = host w.
Proof.
  intros H2 Hk Hok He r. subst r. unfold LoadOffsetAndSizeOperands, vector_at.
  rewrite H2, bind_ret, bind_run.
  pose proof (stage_operands_failed env k e (drop 2 buffers) He 2%nat
                (element_count b2) hba [] w) as Hs.
  rewrite length_drop in Hs.
  specialize (Hs ltac:(lia) Hok). cbv zeta in Hs.
  destruct (stage_operands env 2 (drop 2 buffers) (element_count b2) hba [] w)
    as [[o t] w'].
  cbn [outcome_of trace_of machine_of fst snd] in Hs.
  destruct Hs as (-> & Hf & Hl & Hh).
  cbn [outcome_of trace_of machine_of fst snd].
  repeat split; try assumption. lia.
Qed.

(** X5: when the staging copy of the binding at position [k] is the first to
    fail, [RunRaggedAllToAll] returns the status of that copy unchanged; the
    copies up to position [k] have been issued, and neither the wait, nor
    [GroupStart], nor any send or receive. *)
Theorem copy_failure_returned (env : Env) (rs : Z)
    (buffers : list DeviceBufferPair) (b2 : DeviceBufferPair) (hba : Z)
    (w : Machine) (k : nat) (e : Error) (N : Z) :
  register_status env = OkStatus ->
  num_ranks_result env = OkValue N ->
  buffers !! 2%nat = Some b2 ->
  (2 <= k < length buffers)%nat ->
  (forall j, (2 <= j < k)%nat -> memcpy_status env j = OkStatus) ->
  memcpy_status env k = ErrorStatus e ->
  let r := RunRaggedAllToAll env rs buffers hba w in
  outcome_of r = Fails e /\
  count_events is_memcpy (trace_of r) = (k - 1)%nat /\
  count_events is_block (trace_of r) = 0%nat /\
  count_events is_group_start (trace_of r) = 0%nat /\
  count_events is_transfer (trace_of r) = 0%nat.
Proof.
  intros Hreg HN H2 Hk Hok He r. subst r. unfold RunRaggedAllToAll.
  rewrite bind_run, (MaybeRegisterBuffers_ok env w Hreg). cbv beta iota.
  rewrite bind_run, (NumRanks_ok env w N HN). cbv beta iota.
  rewrite bind_run.
  pose proof (Load_copy_failed env buffers b2 hba w k e H2 Hk Hok He) as Hs.
  cbv zeta in Hs.
  destruct (LoadOffsetAndSizeOperands env buffers hba w) as [[o t] w'].
  cbn [outcome_of trace_of machine_of fst snd] in Hs.
  destruct Hs as (-> & Hf & Hl & Hh).
  cbn [outcome_of trace_of machine_of fst snd app].
  change (EvMaybeRegisterBuffers :: EvNumRanks :: t)
    with ([EvMaybeRegisterBuffers; EvNumRanks] ++ t).
  rewrite !count_events_app.
  repeat split.
  - rewrite (count_events_all _ _ Hf), Hl. reflexivity.
  - rewrite (memcpy_only is_block t); [reflexivity| |exact Hf].
    intros []; cbn; congruence.
  - rewrite (memcpy_only is_group_start t); [reflexivity| |exact Hf].
    intros []; cbn; congruence.
  - rewrite (memcpy_only is_transfer t); [reflexivity| |exact Hf].
    intros []; cbn; congruence.
Qed.

Lemma copy_failure_returned_witness :
  outcome_of (RunRaggedAllToAll env_copy_fails 4 scenario_buffers
                scenario_host_buffer idle_machine)
  = Fails copy_error.
Proof.
  apply (copy_failure_returned env_copy_fails 4 scenario_buffers
           (MkDeviceBufferPair S32 2 (MkDeviceMemoryBase 12288 8)
              (MkDeviceMemoryBase 12288 8))
           scenario_host_buffer idle_machine 3%nat copy_error 2
           eq_refl eq_refl eq_refl).
  - cbn. lia.
  - intros j Hj. assert (j = 2%nat) as -> by lia. reflexivity.
  - reflexivity.
Defined.

(** ** Host memory *)

Lemma peer_step_machine env rs b0 a_io a_ss a_oo a_rs peer w :
  machine_of (peer_step env rs b0 a_io a_ss a_oo a_rs peer w) = w.
Proof.
  step_unfold.
  repeat match goal with
         | |- context [get ?a (host w) peer] =>
             destruct (get a (host w) peer); cbv beta iota; try reflexivity
         | |- context [send_status env peer] =>
             destruct (send_status env peer); cbv beta iota; try reflexivity
         | |- context [recv_status env peer] =>
             destruct (recv_status env peer); cbv beta iota; try reflexivity
         end.
Qed.

Lemma peer_loop_machine (step : Z -> M unit) peers w :
  (forall peer w', machine_of (step peer w') = w') ->
  machine_of (peer_loop step peers w) = w.
Proof.
  intros Hstep. revert w; induction peers as [|k peers IH]; intros w.
  - reflexivity.
  - cbn [peer_loop]. rewrite bind_run. specialize (Hstep k w).
    destruct (step k w) as [[[[]|e|r] t] w']; cbn [machine_of fst snd] in *;
      subst w'; try reflexivity.
    apply IH.
Qed.

Lemma run_host env rs b0 b1 b2 b3 b4 b5 hba w :
  let r := RunRaggedAllToAll env rs [b0; b1; b2; b3; b4; b5] hba w in
  host (machine_of r) = host w \/
  (block_status env = OkStatus /\
   host (machine_of r)
   = complete_copies (host w) (pending w ++ staged_copies env hba b2 b3 b4 b5)).
Proof.
  cbv zeta. destruct w as [h p].
  pose proof (fun l w' => peer_loop_machine
    (peer_step env rs b0
       (MkIntegerOperandData (element_type b2) hba)
       (MkIntegerOperandData (element_type b3) (hba + 8 * element_count b2))
       (MkIntegerOperandData (element_type b4)
          (hba + 8 * element_count b2 + 8 * element_count b2))
       (MkIntegerOperandData (element_type b5)
          (hba + 8 * element_count b2 + 8 * element_count b2
           + 8 * element_count b2)))
    l w' (peer_step_machine env rs b0 _ _ _ _)) as Hloop.
  run_unfold. cbn [app]. cbv beta iota.
  destruct (register_status env) as [|e]; [|left; reflexivity].
  destruct (num_ranks_result env) as [N|e]; [|left; reflexivity].
  destruct (memcpy_status env 2) as [|e]; [|left; reflexivity].
  destruct (memcpy_status env 3) as [|e]; [|left; reflexivity].
  destruct (memcpy_status env 4) as [|e]; [|left; reflexivity].
  destruct (memcpy_status env 5) as [|e]; [|left; reflexivity].
  destruct (block_status env) as [|e]; [|left; reflexivity].
  right. split; [reflexivity|].
  unfold staged_copies, staged_bytes. rewrite <- !app_assoc. cbn [app].
  destruct (group_start_status env) as [|e]; [|reflexivity].
  match goal with
  | |- context [peer_loop ?s ?l ?m] =>
      specialize (Hloop l m); destruct (peer_loop s l m) as [[o t] w']
  end.
  cbn [machine_of snd] in Hloop. subst w'.
  destruct o as [[]|e|r]; [|reflexivity..].
  destruct (group_end_status env); reflexivity.
Qed.

(** X6: on a stream with no copy pending, whatever the collaborators answer,
    a run on six bindings whose index arrays are no larger than the stride
    ([num_elements] 64-bit words, the element count of position 2) leaves
    every byte of host memory outside the [4 * num_elements * 8] bytes from
    [host_buffer_alloc] on as it was. *)
Theorem run_writes_staging_region_only (env : Env) (rs : Z)
    (b0 b1 b2 b3 b4 b5 : DeviceBufferPair) (hba : Z) (w : Machine) (x : Z) :
  let n := element_count b2 in
  pending w = [] ->
  size (source_buffer b2) <= 8 * n -> size (source_buffer b3) <= 8 * n ->
  size (source_buffer b4) <= 8 * n -> size (source_buffer b5) <= 8 * n ->
  x < hba \/ hba + 4 * n * 8 <= x ->
  host (machine_of (RunRaggedAllToAll env rs [b0; b1; b2; b3; b4; b5] hba w)) x
  = host w x.
Proof.
  intros n Hp S2 S3 S4 S5 Hx.
  destruct (run_host env rs b0 b1 b2 b3 b4 b5 hba w) as [-> | [_ ->]];
    [reflexivity|].
  rewrite Hp. cbn [app].
  unfold complete_copies, staged_copies, staged_bytes. cbn [fold_left fst snd].
  fold n.
  rewrite !store_bytes_outside; [reflexivity|..];
    rewrite length_load_bytes; lia.
Qed.

Lemma run_writes_staging_region_only_witness :
  host (machine_of scenario_run) 65600 = 0.
Proof.
  apply (run_writes_staging_region_only scenario_env 4
    (MkDeviceBufferPair F32 12 scenario_payload_src scenario_payload_dst)
    (MkDeviceBufferPair F32 12 scenario_payload_dst scenario_payload_dst)
    (MkDeviceBufferPair S32 2 (MkDeviceMemoryBase 12288 8) (MkDeviceMemoryBase 12288 8))
    (MkDeviceBufferPair S64 2 (MkDeviceMemoryBase 12544 16) (MkDeviceMemoryBase 12544 16))
    (MkDeviceBufferPair U32 2 (MkDeviceMemoryBase 12800 8) (MkDeviceMemoryBase 12800 8))
    (MkDeviceBufferPair U64 2 (MkDeviceMemoryBase 13056 16) (MkDeviceMemoryBase 13056 16))
    scenario_host_buffer idle_machine 65600 eq_refl);
    unfold scenario_host_buffer;
    cbn [element_count size source_buffer]; lia.
Defined.

(** X7: after [LoadOffsetAndSizeOperands] has succeeded on six bindings whose
    index arrays have [num_elements] elements of a supported type, each
    accessor it returned reads, at every index below [num_elements], the
    value that [IntegerOperandData] decodes from the device array itself,
    whatever copies were pending on the stream before. *)
Theorem staged_values (env : Env) (b0 b1 b2 b3 b4 b5 : DeviceBufferPair)
    (hba : Z) (w : Machine) (j : nat) (b : DeviceBufferPair) (k : Z) :
  let n := element_count b2 in
  let r := LoadOffsetAndSizeOperands env [b0; b1; b2; b3; b4; b5] hba w in
  (forall i, memcpy_status env i = OkStatus) ->
  block_status env = OkStatus ->
  index_operand n b2 -> index_operand n b3 ->
  index_operand n b4 -> index_operand n b5 ->
  [b2; b3; b4; b5] !! j = Some b ->
  0 <= k < n ->
  exists indices d,
    outcome_of r = Returns indices /\ indices !! j = Some d /\
    get d (host (machine_of r)) k = Returns (device_index env b k).
Proof.
  intros n r Hm Hb I2 I3 I4 I5 Hj Hk. subst r.
  rewrite (Load_ok env b0 b1 b2 b3 b4 b5 hba w Hm Hb).
  cbn [outcome_of machine_of fst snd host].
  rewrite complete_copies_app.
  pose proof (fun j' => staged_get env hba b2 b3 b4 b5
                (complete_copies (host w) (pending w)) j' b k I2 I3 I4 I5) as G.
  cbv zeta in G. fold n in G.
  eexists. destruct j as [|[|[|[|j]]]]; cbn in Hj; try discriminate Hj;
    injection Hj as <-; eexists; (split; [reflexivity|]);
    (split; [reflexivity|]).
  - rewrite <- (G 0) by (first [lia | tauto]). do 2 f_equal. lia.
  - rewrite <- (G 1) by (first [lia | tauto]). do 2 f_equal. lia.
  - rewrite <- (G 2) by (first [lia | tauto]). do 2 f_equal. lia.
  - rewrite <- (G 3) by (first [lia | tauto]). do 2 f_equal. lia.
Qed.

Lemma staged_values_witness :
  exists indices d,
    outcome_of (LoadOffsetAndSizeOperands scenario_env scenario_buffers
                  scenario_host_buffer idle_machine) = Returns indices /\
    indices !! 1%nat = Some d /\
    get d (host (machine_of (LoadOffsetAndSizeOperands scenario_env
                               scenario_buffers scenario_host_buffer
                               idle_machine))) 1
    = Returns (device_index scenario_env
                 (MkDeviceBufferPair S64 2 (MkDeviceMemoryBase 12544 16)
                    (MkDeviceMemoryBase 12544 16)) 1).
Proof.
  apply (staged_values scenario_env
    (MkDeviceBufferPair F32 12 scenario_payload_src scenario_payload_dst)
    (MkDeviceBufferPair F32 12 scenario_payload_dst scenario_payload_dst)
    (MkDeviceBufferPair S32 2 (MkDeviceMemoryBase 12288 8) (MkDeviceMemoryBase 12288 8))
    (MkDeviceBufferPair S64 2 (MkDeviceMemoryBase 12544 16) (MkDeviceMemoryBase 12544 16))
    (MkDeviceBufferPair U32 2 (MkDeviceMemoryBase 12800 8) (MkDeviceMemoryBase 12800 8))
    (MkDeviceBufferPair U64 2 (MkDeviceMemoryBase 13056 16) (MkDeviceMemoryBase 13056 16))
    scenario_host_buffer idle_machine 1%nat _ 1 (fun _ => eq_refl) eq_refl).
  - repeat split; reflexivity.
  - repeat split; reflexivity.
  - repeat split; reflexivity.
  - repeat split; reflexivity.
  - reflexivity.
  - cbn. lia.
Defined.

(** ** The peer loop, call by call *)

(** Once staging and [GroupStart] have succeeded, the run is the peer loop
    over the four staged accessors followed by [GroupEnd]. *)
Lemma run_after_staging env rs b0 b1 b2 b3 b4 b5 hba w N :
  register_status env = OkStatus ->
  num_ranks_result env = OkValue N ->
  (forall i, memcpy_status env i = OkStatus) ->
  block_status env = OkStatus ->
  group_start_status env = OkStatus ->
  let loop :=
    bind (peer_loop
            (peer_step env rs b0
               (MkIntegerOperandData (element_type b2) hba)
               (MkIntegerOperandData (element_type b3) (hba + 8 * element_count b2))
               (MkIntegerOperandData (element_type b4)
                  (hba + 8 * element_count b2 + 8 * element_count b2))
               (MkIntegerOperandData (element_type b5)
                  (hba + 8 * element_count b2 + 8 * element_count b2
                   + 8 * element_count b2)))
            (seqZ 0 N))
         (fun _ => GroupEnd env)
         (MkMachine
            (complete_copies (host w)
               (pending w ++ staged_copies env hba b2 b3 b4 b5)) []) in
  RunRaggedAllToAll env rs [b0; b1; b2; b3; b4; b5] hba w
  = (outcome_of loop,
     staging_calls hba b2 b3 b4 b5
       ++ [EvBlockHostUntilDone; EvGroupStart] ++ trace_of loop,
     machine_of loop).
Proof.
  intros Hreg HN Hm Hb Hgs loop. subst loop.
  unfold RunRaggedAllToAll.
  rewrite bind_run, (MaybeRegisterBuffers_ok env w Hreg). cbv beta iota.
  rewrite bind_run, (NumRanks_ok env w N HN). cbv beta iota.
  rewrite bind_run, (Load_ok env b0 b1 b2 b3 b4 b5 hba w Hm Hb). cbv beta iota.
  unfold staged_operands, vector_at. cbn [lookup list_lookup].
  rewrite !bind_ret.
  rewrite bind_run, (GroupStart_ok env _ Hgs). cbv beta iota.
  rewrite bind_ret.
  cbn [outcome_of trace_of machine_of fst snd].
  rewrite (staging_calls_eq hba b2 b3 b4 b5). cbn [app drop skipn].
  reflexivity.
Qed.

Lemma seqZ_nonpos (m len : Z) : len <= 0 -> seqZ m len = [].
Proof. intros H. unfold seqZ. destruct len; try lia; reflexivity. Qed.

(** X8: with a rank count of zero or less the loop body is never entered:
    after staging the run calls [GroupStart] and [GroupEnd] with nothing in
    between, issues no send or receive, reads no index (the element types of
    the index arrays do not matter), and returns the status of [GroupEnd]. *)
Theorem run_without_peers (env : Env) (rs : Z)
    (b0 b1 b2 b3 b4 b5 : DeviceBufferPair) (hba : Z) (w : Machine) (N : Z) :
  register_status env = OkStatus ->
  num_ranks_result env = OkValue N ->
  (forall i, memcpy_status env i = OkStatus) ->
  block_status env = OkStatus ->
  group_start_status env = OkStatus ->
  N <= 0 ->
  let r := RunRaggedAllToAll env rs [b0; b1; b2; b3; b4; b5] hba w in
  trace_of r
  = staging_calls hba b2 b3 b4 b5
      ++ [EvBlockHostUntilDone; EvGroupStart; EvGroupEnd] /\
  outcome_of r
  = match group_end_status env with
    | OkStatus => Returns tt
    | ErrorStatus e => Fails e
    end.
Proof.
  intros Hreg HN Hm Hb Hgs HN0 r. subst r.
  rewrite (run_after_staging env rs b0 b1 b2 b3 b4 b5 hba w N) by assumption.
  rewrite (seqZ_nonpos 0 N HN0). cbn [peer_loop]. rewrite bind_ret.
  cbn [outcome_of trace_of fst snd]. run_unfold.
  destruct (group_end_status env); split; reflexivity.
Qed.

Lemma run_without_peers_witness :
  trace_of (RunRaggedAllToAll (env_all_ok scenario_device_memory 0) 4
              float_sizes_buffers scenario_host_buffer idle_machine)
  = [ EvMaybeRegisterBuffers; EvNumRanks;
      EvMemcpy 65536 (MkDeviceMemoryBase 12288 8) 8;
      EvMemcpy 65552 (MkDeviceMemoryBase 12544 8) 8;
      EvMemcpy 65568 (MkDeviceMemoryBase 12800 8) 8;
      EvMemcpy 65584 (MkDeviceMemoryBase 13056 16) 16;
      EvBlockHostUntilDone; EvGroupStart; EvGroupEnd ].
Proof.
  apply (run_without_peers (env_all_ok scenario_device_memory 0) 4
    (MkDeviceBufferPair F32 12 scenario_payload_src scenario_payload_dst)
    (MkDeviceBufferPair F32 12 scenario_payload_dst scenario_payload_dst)
    (MkDeviceBufferPair S32 2 (MkDeviceMemoryBase 12288 8) (MkDeviceMemoryBase 12288 8))
    (MkDeviceBufferPair F32 2 (MkDeviceMemoryBase 12544 8) (MkDeviceMemoryBase 12544 8))
    (MkDeviceBufferPair U32 2 (MkDeviceMemoryBase 12800 8) (MkDeviceMemoryBase 12800 8))
    (MkDeviceBufferPair U64 2 (MkDeviceMemoryBase 13056 16) (MkDeviceMemoryBase 13056 16))
    scenario_host_buffer idle_machine 0 eq_refl eq_refl (fun _ => eq_refl)
    eq_refl eq_refl).
  lia.
Defined.

Lemma peer_loop_cons (step : Z -> M unit) (k : Z) (l : list Z) :
  peer_loop step (k :: l) = bind (step k) (fun _ => peer_loop step l).
Proof. reflexivity. Qed.

Lemma peer_loop_app (step : Z -> M unit) (l1 l2 : list Z) (w : Machine) :
  peer_loop step (l1 ++ l2) w
  = bind (peer_loop step l1) (fun _ => peer_loop step l2) w.
Proof.
  revert w; induction l1 as [|k l1 IH]; intros w.
  - cbn [app peer_loop]. rewrite bind_ret. reflexivity.
  - cbn [app peer_loop]. rewrite !bind_run.
    destruct (step k w) as [[[[]|e|r] t] w1]; try reflexivity.
    rewrite IH, bind_run.
    destruct (peer_loop step l1 w1) as [[[[]|e|r] t1] w2];
      cbn [outcome_of trace_of machine_of fst snd];
      rewrite ?app_assoc; reflexivity.
Qed.

Lemma peer_loop_served env rs b0 b2 b3 b4 b5 a_io a_ss a_oo a_rs peers w :
  (forall k, k ∈ peers ->
     send_status env k = OkStatus /\ recv_status env k = OkStatus /\
     get a_io (host w) k = Returns (device_index env b2 k) /\
     get a_ss (host w) k = Returns (device_index env b3 k) /\
     get a_oo (host w) k = Returns (device_index env b4 k) /\
     get a_rs (host w) k = Returns (device_index env b5 k)) ->
  peer_loop (peer_step env rs b0 a_io a_ss a_oo a_rs) peers w
  = (Returns tt, flat_map (issued_transfers env rs b0 b2 b3 b4 b5) peers, w).
Proof.
  induction peers as [|k peers IH]; intros H; [reflexivity|].
  cbn [peer_loop flat_map]. rewrite bind_run.
  destruct (H k) as (Hs & Hr & H1 & H2 & H3 & H4); [left|].
  rewrite (peer_step_ok env rs b0 _ _ _ _ _ _ _ _ k w Hs Hr H1 H2 H3 H4).
  rewrite IH by (intros k' Hk'; apply H; right; exact Hk').
  reflexivity.
Qed.

Lemma staged_reads env hba b2 b3 b4 b5 (h : Memory) (p : list (Z * list Z)) k :
  let n := element_count b2 in
  let h' := complete_copies h (p ++ staged_copies env hba b2 b3 b4 b5) in
  index_operand n b2 -> index_operand n b3 ->
  index_operand n b4 -> index_operand n b5 ->
  0 <= k < n ->
  get (MkIntegerOperandData (element_type b2) hba) h' k
  = Returns (device_index env b2 k) /\
  get (MkIntegerOperandData (element_type b3) (hba + 8 * n)) h' k
  = Returns (device_index env b3 k) /\
  get (MkIntegerOperandData (element_type b4) (hba + 8 * n + 8 * n)) h' k
  = Returns (device_index env b4 k) /\
  get (MkIntegerOperandData (element_type b5) (hba + 8 * n + 8 * n + 8 * n)) h' k
  = Returns (device_index env b5 k).
Proof.
  intros n h' I2 I3 I4 I5 Hk. subst h'. rewrite complete_copies_app.
  pose proof (fun j b => staged_get env hba b2 b3 b4 b5
                (complete_copies h p) j b k I2 I3 I4 I5) as G.
  cbv zeta in G. fold n in G.
  pose proof (G 0 b2) as G0. pose proof (G 1 b3) as G1.
  pose proof (G 2 b4) as G2. pose proof (G 3 b5) as G3.
  replace (hba + 0 * n * 8) with hba in G0 by lia.
  replace (hba + 1 * n * 8) with (hba + 8 * n) in G1 by lia.
  replace (hba + 2 * n * 8) with (hba + 8 * n + 8 * n) in G2 by lia.
  replace (hba + 3 * n * 8) with (hba + 8 * n + 8 * n + 8 * n) in G3 by lia.
  repeat split; [apply G0 | apply G1 | apply G2 | apply G3];
    first [lia | tauto].
Qed.

Lemma peer_step_send_failed env rs b0 b2 b3 b4 b5 a_io a_ss a_oo a_rs k w e :
  get a_io (host w) k = Returns (device_index env b2 k) ->
  get a_ss (host w) k = Returns (device_index env b3 k) ->
  get a_oo (host w) k = Returns (device_index env b4 k) ->
  get a_rs (host w) k = Returns (device_index env b5 k) ->
  send_status env k = ErrorStatus e ->
  peer_step env rs b0 a_io a_ss a_oo a_rs k w
  = (Fails e, take 1 (issued_transfers env rs b0 b2 b3 b4 b5 k), w).
Proof.
  intros H1 H2 H3 H4 Hs. step_unfold.
  repeat (first [rewrite H1 | rewrite H2 | rewrite H3 | rewrite H4
                | rewrite Hs]; cbv beta iota).
  reflexivity.
Qed.

Lemma peer_step_recv_failed env rs b0 b2 b3 b4 b5 a_io a_ss a_oo a_rs k w e :
  get a_io (host w) k = Returns (device_index env b2 k) ->
  get a_ss (host w) k = Returns (device_index env b3 k) ->
  get a_oo (host w) k = Returns (device_index env b4 k) ->
  get a_rs (host w) k = Returns (device_index env b5 k) ->
  send_status env k = OkStatus ->
  recv_status env k = ErrorStatus e ->
  peer_step env rs b0 a_io a_ss a_oo a_rs k w
  = (Fails e, issued_transfers env rs b0 b2 b3 b4 b5 k, w).
Proof.
  intros H1 H2 H3 H4 Hs Hr. step_unfold.
  repeat (first [rewrite H1 | rewrite H2 | rewrite H3 | rewrite H4
                | rewrite Hs | rewrite Hr]; cbv beta iota).
  reflexivity.
Qed.

(** X9: when the send or the receive for peer [k] is the first transfer call
    to fail, the run returns the status of that call unchanged; every peer
    below [k] has had its send and its receive, peer [k] its send (and its
    receive, when it is the receive that failed), no later peer has had
    either, and [GroupEnd] is not called. *)
Theorem transfer_failure_stops_loop (env : Env) (rs : Z)
    (b0 b1 b2 b3 b4 b5 : DeviceBufferPair) (hba : Z) (w : Machine)
    (N k : Z) (e : Error) :
  register_status env = OkStatus ->
  num_ranks_result env = OkValue N ->
  (forall i, memcpy_status env i = OkStatus) ->
  block_status env = OkStatus ->
  group_start_status env = OkStatus ->
  index_operand (element_count b2) b2 -> index_operand (element_count b2) b3 ->
  index_operand (element_count b2) b4 -> index_operand (element_count b2) b5 ->
  N <= element_count b2 ->
  0 <= k < N ->
  (forall p, 0 <= p < k ->
     send_status env p = OkStatus /\ recv_status env p = OkStatus) ->
  let r := RunRaggedAllToAll env rs [b0; b1; b2; b3; b4; b5] hba w in
  let served := flat_map (issued_transfers env rs b0 b2 b3 b4 b5) (seqZ 0 k) in
  (send_status env k = ErrorStatus e ->
   outcome_of r = Fails e /\
   trace_of r
   = staging_calls hba b2 b3 b4 b5 ++ [EvBlockHostUntilDone; EvGroupStart]
       ++ served ++ take 1 (issued_transfers env rs b0 b2 b3 b4 b5 k)) /\
  (send_status env k = OkStatus -> recv_status env k = ErrorStatus e ->
   outcome_of r = Fails e /\
   trace_of r
   = staging_calls hba b2 b3 b4 b5 ++ [EvBlockHostUntilDone; EvGroupStart]
       ++ served ++ issued_transfers env rs b0 b2 b3 b4 b5 k).
Proof.
  intros Hreg HN Hm Hb Hgs I2 I3 I4 I5 HNn Hk Hbefore r served. subst r served.
  rewrite (run_after_staging env rs b0 b1 b2 b3 b4 b5 hba w N) by assumption.
  cbn [outcome_of trace_of fst snd].
  assert (EN : seqZ 0 N = seqZ 0 k ++ k :: seqZ (Z.succ k) (Z.pred (N - k))).
  { replace N with (k + (N - k)) at 1 by lia.
    rewrite seqZ_app by lia. rewrite (seqZ_cons (0 + k)) by lia.
    reflexivity. }
  rewrite EN, bind_run, peer_loop_app, bind_run.
  rewrite (peer_loop_served env rs b0 b2 b3 b4 b5).
  2:{ intros p Hp. apply elem_of_seqZ in Hp. cbn [host].
      destruct (Hbefore p) as [Hs Hr]; [lia|].
      split; [exact Hs|]. split; [exact Hr|].
      apply (staged_reads env hba b2 b3 b4 b5 (host w) (pending w) p);
        assumption || lia. }
  cbv beta iota. rewrite peer_loop_cons, bind_run.
  assert (Hkn : 0 <= k < element_count b2) by lia.
  pose proof (staged_reads env hba b2 b3 b4 b5 (host w) (pending w) k
                I2 I3 I4 I5 Hkn) as G.
  cbv zeta in G.
  set (w1 := MkMachine
               (complete_copies (host w)
                  (pending w ++ staged_copies env hba b2 b3 b4 b5)) []) in *.
  change (complete_copies (host w)
            (pending w ++ staged_copies env hba b2 b3 b4 b5))
    with (host w1) in G.
  destruct G as (G0 & G1 & G2 & G3).
  split.
  - intros Hs.
    rewrite (peer_step_send_failed env rs b0 b2 b3 b4 b5 _ _ _ _ k w1 e
               G0 G1 G2 G3 Hs).
    cbn [outcome_of trace_of fst snd]. split; reflexivity.
  - intros Hs Hr.
    rewrite (peer_step_recv_failed env rs b0 b2 b3 b4 b5 _ _ _ _ k w1 e
               G0 G1 G2 G3 Hs Hr).
    cbn [outcome_of trace_of fst snd]. split; reflexivity.
Qed.

Lemma transfer_failure_stops_loop_witness :
  outcome_of (RunRaggedAllToAll env_recv_fails 4 scenario_buffers
                scenario_host_buffer idle_machine) = Fails recv_error /\
  count_events is_transfer
    (trace_of (RunRaggedAllToAll env_recv_fails 4 scenario_buffers
                 scenario_host_buffer idle_machine)) = 4%nat /\
  count_events is_group_end
    (trace_of (RunRaggedAllToAll env_recv_fails 4 scenario_buffers
                 scenario_host_buffer idle_machine)) = 0%nat.
Proof.
  pose proof (transfer_failure_stops_loop env_recv_fails 4
    (MkDeviceBufferPair F32 12 scenario_payload_src scenario_payload_dst)
    (MkDeviceBufferPair F32 12 scenario_payload_dst scenario_payload_dst)
    (MkDeviceBufferPair S32 2 (MkDeviceMemoryBase 12288 8) (MkDeviceMemoryBase 12288 8))
    (MkDeviceBufferPair S64 2 (MkDeviceMemoryBase 12544 16) (MkDeviceMemoryBase 12544 16))
    (MkDeviceBufferPair U32 2 (MkDeviceMemoryBase 12800 8) (MkDeviceMemoryBase 12800 8))
    (MkDeviceBufferPair U64 2 (MkDeviceMemoryBase 13056 16) (MkDeviceMemoryBase 13056 16))
    scenario_host_buffer idle_machine 2 1 recv_error
    eq_refl eq_refl (fun _ => eq_refl) eq_refl eq_refl) as H.
  cbv zeta in H. destruct H as [_ H].
  - repeat split; reflexivity.
  - repeat split; reflexivity.
  - repeat split; reflexivity.
  - repeat split; reflexivity.
  - cbn. lia.
  - lia.
  - intros p Hp. assert (p = 0) as -> by lia. split; reflexivity.
  - destruct (H eq_refl eq_refl) as [Ho _]. split; [exact Ho|].
    split; vm_compute; reflexivity.
Defined.

(** ** What a run can end in *)

Lemma get_supported (d : IntegerOperandData) (m : Memory) (i : Z) :
  supported_index_type (element_type_ d) = true ->
  exists v, get d m i = Returns v.
Proof.
  unfold get. destruct (element_type_ d); try discriminate; eexists; reflexivity.
Qed.

Lemma get_unsupported (d : IntegerOperandData) (m : Memory) (i : Z) :
  supported_index_type (element_type_ d) = false ->
  get d m i = Aborts (UnsupportedElementType (element_type_ d)).
Proof.
  unfold get. destruct (element_type_ d); try discriminate; reflexivity.
Qed.

Lemma get_not_returned (d : IntegerOperandData) (m : Memory) (i : Z) :
  (forall e, get d m i <> Fails e) /\
  (forall r, get d m i = Aborts r ->
     supported_index_type (element_type_ d) = false /\
     r = UnsupportedElementType (element_type_ d)).
Proof.
  unfold get. split.
  - intros e. destruct (element_type_ d); discriminate.
  - intros r. destruct (element_type_ d); try discriminate;
      intros H; injection H as <-; split; reflexivity.
Qed.

Lemma peer_step_outcome env rs b0 a_io a_ss a_oo a_rs k w :
  step_outcome_explained env [a_io; a_ss; a_oo; a_rs] k
    (outcome_of (peer_step env rs b0 a_io a_ss a_oo a_rs k w)).
Proof.
  assert (Hab : forall a r, a ∈ [a_io; a_ss; a_oo; a_rs] ->
            get a (host w) k = Aborts r ->
            step_outcome_explained env [a_io; a_ss; a_oo; a_rs] k (Aborts r)).
  { intros a r Ha E. apply get_not_returned in E as [Hs ->].
    exists a. repeat split; assumption. }
  step_unfold.
  destruct (get a_io (host w) k) as [io|e|r] eqn:E1; cbv beta iota;
    [ | destruct (proj1 (get_not_returned a_io (host w) k) e E1)
      | apply (Hab a_io); [repeat constructor | exact E1] ].
  destruct (get a_ss (host w) k) as [ss|e|r] eqn:E2; cbv beta iota;
    [ | destruct (proj1 (get_not_returned a_ss (host w) k) e E2)
      | apply (Hab a_ss); [repeat constructor | exact E2] ].
  destruct (get a_oo (host w) k) as [oo|e|r] eqn:E3; cbv beta iota;
    [ | destruct (proj1 (get_not_returned a_oo (host w) k) e E3)
      | apply (Hab a_oo); [repeat constructor | exact E3] ].
  destruct (get a_rs (host w) k) as [rs'|e|r] eqn:E4; cbv beta iota;
    [ | destruct (proj1 (get_not_returned a_rs (host w) k) e E4)
      | apply (Hab a_rs); [repeat constructor | exact E4] ].
  rewrite ?E2. cbv beta iota.
  destruct (send_status env k) as [|e] eqn:Es; cbv beta iota;
    [| left; first [exact Es | reflexivity]].
  rewrite ?E4. cbv beta iota.
  destruct (recv_status env k) as [|e] eqn:Er; cbv beta iota;
    [exact I | right; first [exact Er | reflexivity]].
Qed.

Lemma peer_loop_outcome env rs b0 a_io a_ss a_oo a_rs peers w :
  outcome_of (peer_loop (peer_step env rs b0 a_io a_ss a_oo a_rs) peers w)
  = Returns tt \/
  exists k, k ∈ peers /\
    step_outcome_explained env [a_io; a_ss; a_oo; a_rs] k
      (outcome_of (peer_loop (peer_step env rs b0 a_io a_ss a_oo a_rs) peers w)) /\
    outcome_of (peer_loop (peer_step env rs b0 a_io a_ss a_oo a_rs) peers w)
    <> Returns tt.
Proof.
  revert w. induction peers as [|k peers IH]; intros w; [left; reflexivity|].
  rewrite peer_loop_cons, bind_run.
  pose proof (peer_step_outcome env rs b0 a_io a_ss a_oo a_rs k w) as Hk.
  destruct (peer_step env rs b0 a_io a_ss a_oo a_rs k w) as [[[[]|e|r] t] w1];
    cbn [outcome_of fst] in *.
  - destruct (IH w1) as [H | (k' & Hin & Hex & Hne)]; [left; exact H|].
    right. exists k'. split; [right; exact Hin | split; assumption].
  - right. exists k. split; [left | split; [exact Hk | discriminate]].
  - right. exists k. split; [left | split; [exact Hk | discriminate]].
Qed.

Lemma run_outcome env rs b0 b1 b2 b3 b4 b5 hba w :
  match outcome_of (RunRaggedAllToAll env rs [b0; b1; b2; b3; b4; b5] hba w) with
  | Returns _ => True
  | Fails e => error_of_a_call env e
  | Aborts reason =>
      exists b, b ∈ [b2; b3; b4; b5] /\
        supported_index_type (element_type b) = false /\
        reason = UnsupportedElementType (element_type b)
  end.
Proof.
  destruct w as [h p].
  pose proof (fun l w' => peer_loop_outcome env rs b0
       (MkIntegerOperandData (element_type b2) hba)
       (MkIntegerOperandData (element_type b3) (hba + 8 * element_count b2))
       (MkIntegerOperandData (element_type b4)
          (hba + 8 * element_count b2 + 8 * element_count b2))
       (MkIntegerOperandData (element_type b5)
          (hba + 8 * element_count b2 + 8 * element_count b2
           + 8 * element_count b2))
       l w') as Hloop.
  unfold error_of_a_call.
  run_unfold. cbn [app]. cbv beta iota.
  destruct (register_status env) as [|e] eqn:Hreg; [|tauto].
  destruct (num_ranks_result env) as [N|e] eqn:HN; [|tauto].
  destruct (memcpy_status env 2) as [|e] eqn:H2;
    [|right; right; left; exists 2%nat; split; [lia | exact H2]].
  destruct (memcpy_status env 3) as [|e] eqn:H3;
    [|right; right; left; exists 3%nat; split; [lia | exact H3]].
  destruct (memcpy_status env 4) as [|e] eqn:H4;
    [|right; right; left; exists 4%nat; split; [lia | exact H4]].
  destruct (memcpy_status env 5) as [|e] eqn:H5;
    [|right; right; left; exists 5%nat; split; [lia | exact H5]].
  destruct (block_status env) as [|e] eqn:Hb;
    [|right; right; right; left; exists e; split; reflexivity].
  destruct (group_start_status env) as [|e] eqn:Hgs; [|tauto].
  match goal with
  | |- context [peer_loop ?s ?l ?m] =>
      specialize (Hloop l m); destruct (peer_loop s l m) as [[o t] w']
  end.
  cbn [outcome_of fst] in Hloop.
  destruct Hloop as [-> | (k & _ & Hex & _)].
  - destruct (group_end_status env) as [|e] eqn:Hge; [exact I | tauto].
  - destruct o as [[]|e|r]; cbn [step_outcome_explained] in Hex.
    + destruct (group_end_status env) as [|e] eqn:Hge; [exact I | tauto].
    + right; right; right; right; right; left. exists k. exact Hex.
    + destruct Hex as (a & Ha & Hs & ->).
      repeat (apply elem_of_cons in Ha as [-> | Ha]);
        [ exists b2 | exists b3 | exists b4 | exists b5 | inversion Ha ];
        (split; [repeat constructor | split; [exact Hs | reflexivity]]).
Qed.

(** X11: every error a run on six bindings returns is the status some call
    answered, passed on unchanged (buffer registration, rank count, one of
    the four copies, [GroupStart], a send, a receive, [GroupEnd]), except for
    a failed wait, which is returned as the Internal error built from it. *)
Theorem run_failure_origin (env : Env) (rs : Z)
    (b0 b1 b2 b3 b4 b5 : DeviceBufferPair) (hba : Z) (w : Machine) (e : Error) :
  outcome_of (RunRaggedAllToAll env rs [b0; b1; b2; b3; b4; b5] hba w) = Fails e ->
  error_of_a_call env e.
Proof.
  intros H. pose proof (run_outcome env rs b0 b1 b2 b3 b4 b5 hba w) as Ho.
  rewrite H in Ho. exact Ho.
Qed.

Lemma run_failure_origin_witness : error_of_a_call env_send_fails send_error.
Proof.
  apply (run_failure_origin env_send_fails 4
    (MkDeviceBufferPair F32 12 scenario_payload_src scenario_payload_dst)
    (MkDeviceBufferPair F32 12 scenario_payload_dst scenario_payload_dst)
    (MkDeviceBufferPair S32 2 (MkDeviceMemoryBase 12288 8) (MkDeviceMemoryBase 12288 8))
    (MkDeviceBufferPair S64 2 (MkDeviceMemoryBase 12544 16) (MkDeviceMemoryBase 12544 16))
    (MkDeviceBufferPair U32 2 (MkDeviceMemoryBase 12800 8) (MkDeviceMemoryBase 12800 8))
    (MkDeviceBufferPair U64 2 (MkDeviceMemoryBase 13056 16) (MkDeviceMemoryBase 13056 16))
    scenario_host_buffer idle_machine send_error).
  vm_compute. reflexivity.
Defined.

Lemma peer_step_unsupported env rs b0 a_io a_ss a_oo a_rs k w :
  (exists a, a ∈ [a_io; a_ss; a_oo; a_rs] /\
     supported_index_type (element_type_ a) = false) ->
  exists reason,
    peer_step env rs b0 a_io a_ss a_oo a_rs k w = (Aborts reason, [], w).
Proof.
  intros (a & Ha & Hs). step_unfold.
  destruct (supported_index_type (element_type_ a_io)) eqn:S1;
    [destruct (get_supported a_io (host w) k S1) as [v1 ->]
    | rewrite (get_unsupported a_io (host w) k S1); eexists; reflexivity].
  cbv beta iota.
  destruct (supported_index_type (element_type_ a_ss)) eqn:S2;
    [destruct (get_supported a_ss (host w) k S2) as [v2 ->]
    | rewrite (get_unsupported a_ss (host w) k S2); eexists; reflexivity].
  cbv beta iota.
  destruct (supported_index_type (element_type_ a_oo)) eqn:S3;
    [destruct (get_supported a_oo (host w) k S3) as [v3 ->]
    | rewrite (get_unsupported a_oo (host w) k S3); eexists; reflexivity].
  cbv beta iota.
  destruct (supported_index_type (element_type_ a_rs)) eqn:S4;
    [destruct (get_supported a_rs (host w) k S4) as [v4 ->]
    | rewrite (get_unsupported a_rs (host w) k S4); eexists; reflexivity].
  exfalso.
  repeat (apply elem_of_cons in Ha as [-> | Ha]); try congruence.
  inversion Ha.
Qed.

(** X12: the element types of the index arrays are not looked at during
    staging.  When one of the four is unsupported and there is at least one
    rank, the four copies, the wait and [GroupStart] all take place as usual
    and the run then ends in [LOG(FATAL)] at peer 0, before any send or
    receive. *)
Theorem unsupported_index_type_aborts (env : Env) (rs : Z)
    (b0 b1 b2 b3 b4 b5 : DeviceBufferPair) (hba : Z) (w : Machine) (N : Z) :
  register_status env = OkStatus ->
  num_ranks_result env = OkValue N ->
  (forall i, memcpy_status env i = OkStatus) ->
  block_status env = OkStatus ->
  group_start_status env = OkStatus ->
  1 <= N ->
  (exists b, b ∈ [b2; b3; b4; b5] /\
     supported_index_type (element_type b) = false) ->
  let r := RunRaggedAllToAll env rs [b0; b1; b2; b3; b4; b5] hba w in
  (exists reason, outcome_of r = Aborts reason) /\
  trace_of r
  = staging_calls hba b2 b3 b4 b5 ++ [EvBlockHostUntilDone; EvGroupStart].
Proof.
  intros Hreg HN Hm Hb Hgs HN1 (b & Hin & Hs) r. subst r.
  rewrite (run_after_staging env rs b0 b1 b2 b3 b4 b5 hba w N) by assumption.
  cbn [outcome_of trace_of fst snd].
  rewrite (seqZ_cons 0 N) by lia.
  rewrite peer_loop_cons, !bind_run.
  set (w1 := MkMachine
               (complete_copies (host w)
                  (pending w ++ staged_copies env hba b2 b3 b4 b5)) []).
  match goal with
  | |- context [peer_step env rs b0 ?a1 ?a2 ?a3 ?a4 0 w1] =>
      destruct (peer_step_unsupported env rs b0 a1 a2 a3 a4 0 w1)
        as [reason ->]
  end.
  - repeat (apply elem_of_cons in Hin as [-> | Hin]);
      [ eexists; split; [apply list_elem_of_here | exact Hs]
      | eexists; split;
          [apply list_elem_of_further, list_elem_of_here | exact Hs]
      | eexists; split;
          [do 2 apply list_elem_of_further; apply list_elem_of_here | exact Hs]
      | eexists; split;
          [do 3 apply list_elem_of_further; apply list_elem_of_here | exact Hs]
      | inversion Hin ].
  - cbn [outcome_of trace_of fst snd]. split; [eexists; reflexivity|].
    rewrite !app_nil_r. reflexivity.
Qed.

Lemma unsupported_index_type_aborts_witness :
  trace_of (RunRaggedAllToAll scenario_env 4 float_sizes_buffers
              scenario_host_buffer idle_machine)
  = [ EvMaybeRegisterBuffers; EvNumRanks;
      EvMemcpy 65536 (MkDeviceMemoryBase 12288 8) 8;
      EvMemcpy 65552 (MkDeviceMemoryBase 12544 8) 8;
      EvMemcpy 65568 (MkDeviceMemoryBase 12800 8) 8;
      EvMemcpy 65584 (MkDeviceMemoryBase 13056 16) 16;
      EvBlockHostUntilDone; EvGroupStart ].
Proof.
  apply (unsupported_index_type_aborts scenario_env 4
    (MkDeviceBufferPair F32 12 scenario_payload_src scenario_payload_dst)
    (MkDeviceBufferPair F32 12 scenario_payload_dst scenario_payload_dst)
    (MkDeviceBufferPair S32 2 (MkDeviceMemoryBase 12288 8) (MkDeviceMemoryBase 12288 8))
    (MkDeviceBufferPair F32 2 (MkDeviceMemoryBase 12544 8) (MkDeviceMemoryBase 12544 8))
    (MkDeviceBufferPair U32 2 (MkDeviceMemoryBase 12800 8) (MkDeviceMemoryBase 12800 8))
    (MkDeviceBufferPair U64 2 (MkDeviceMemoryBase 13056 16) (MkDeviceMemoryBase 13056 16))
    scenario_host_buffer idle_machine 2 eq_refl eq_refl (fun _ => eq_refl)
    eq_refl eq_refl).
  - lia.
  - exists (MkDeviceBufferPair F32 2 (MkDeviceMemoryBase 12544 8)
              (MkDeviceMemoryBase 12544 8)).
    split; [apply list_elem_of_further, list_elem_of_here | reflexivity].
Defined.

(** ** The thunk *)

(** X13: a call of [Initialize] that does not return OK leaves the cache as
    it was.  When the base class fails, no host allocation is requested;
    when the allocation fails, its error is returned unchanged, no entry is
    left behind, and the next call for the device whose allocation succeeds
    requests the same size again and inserts the entry. *)
Theorem Initialize_failure_leaves_cache (ienv ienv' : InitializeEnv) (d : Z)
    (th : Thunk) (e : Error) :
  init_status (Initialize ienv d th) = ErrorStatus e ->
  init_thunk (Initialize ienv d th) = th /\
  ((base_initialize_status ienv = ErrorStatus e /\
    init_requests (Initialize ienv d th) = []) \/
   (base_initialize_status ienv = OkStatus /\
    host_buffer_allocs_ th !! d = None /\
    host_memory_allocate ienv (staging_size (config_ th)) = ErrorValue e /\
    init_requests (Initialize ienv d th) = [staging_size (config_ th)] /\
    forall a,
      base_initialize_status ienv' = OkStatus ->
      host_memory_allocate ienv' (staging_size (config_ th)) = OkValue a ->
      Initialize ienv' d (init_thunk (Initialize ienv d th))
      = MkInitializeResult OkStatus [staging_size (config_ th)]
          (MkThunk (config_ th) (<[d := a]> (host_buffer_allocs_ th))))).
Proof.
  intros H. unfold Initialize in *.
  destruct (base_initialize_status ienv) as [|e0] eqn:Hbase.
  - destruct (host_buffer_allocs_ th !! d) as [a0|] eqn:Hd;
      [discriminate H|].
    destruct (host_memory_allocate ienv (staging_size (config_ th)))
      as [a0|e0] eqn:Ha; [discriminate H|].
    cbn in H. injection H as ->. cbn [init_thunk init_requests].
    split; [reflexivity|]. right. repeat split.
    intros a Hb' Ha'. rewrite Hb', Hd, Ha'. reflexivity.
  - cbn in H. injection H as ->. split; [reflexivity|].
    left. split; reflexivity.
Qed.

Lemma Initialize_failure_leaves_cache_witness :
  init_thunk (Initialize init_env_alloc_fails 1 fresh_thunk) = fresh_thunk.
Proof.
  apply (Initialize_failure_leaves_cache init_env_alloc_fails
           (init_env_ok 65536) 1 fresh_thunk alloc_error eq_refl).
Defined.

(** X14: [Initialize] for a device never touches the configuration nor the
    entry of another device, and it never replaces an entry: for a device
    that has one it requests no allocation and keeps the entry. *)
Theorem Initialize_preserves_entries (ienv : InitializeEnv) (d d' : Z)
    (th : Thunk) (a : MemoryAllocation) :
  host_buffer_allocs_ th !! d' = Some a ->
  config_ (init_thunk (Initialize ienv d th)) = config_ th /\
  host_buffer_allocs_ (init_thunk (Initialize ienv d th)) !! d' = Some a /\
  (d' = d -> init_requests (Initialize ienv d th) = []).
Proof.
  intros Hd'. unfold Initialize.
  destruct (base_initialize_status ienv) as [|e0];
    [|repeat split; try reflexivity; exact Hd'].
  destruct (host_buffer_allocs_ th !! d) as [a0|] eqn:Hd;
    [repeat split; try reflexivity; exact Hd'|].
  assert (Hne : d <> d') by congruence.
  destruct (host_memory_allocate ienv (staging_size (config_ th))) as [a0|e0];
    cbn [init_thunk init_requests config_ host_buffer_allocs_];
    repeat split; rewrite ?lookup_insert_ne by exact Hne;
    try exact Hd'; intros ->; congruence.
Qed.

Lemma Initialize_preserves_entries_witness :
  host_buffer_allocs_
    (init_thunk
       (Initialize (init_env_ok 131072) 2
          (init_thunk (Initialize (init_env_ok 65536) 1 fresh_thunk))))
  !! 1 = Some (MkMemoryAllocation 65536 64).
Proof.
  apply (Initialize_preserves_entries (init_env_ok 131072) 2 1
           (init_thunk (Initialize (init_env_ok 65536) 1 fresh_thunk))
           (MkMemoryAllocation 65536 64)).
  vm_compute. reflexivity.
Defined.

Lemma Initialize_ok_entry ienv d th :
  init_status (Initialize ienv d th) = OkStatus ->
  is_Some (host_buffer_allocs_ (init_thunk (Initialize ienv d th)) !! d).
Proof.
  unfold Initialize.
  destruct (base_initialize_status ienv); [|discriminate].
  destruct (host_buffer_allocs_ th !! d) as [a0|] eqn:Hd.
  - intros _. cbn. rewrite Hd. eexists. reflexivity.
  - destruct (host_memory_allocate ienv (staging_size (config_ th)));
      [|discriminate].
    intros _. cbn. rewrite lookup_insert_eq. eexists. reflexivity.
Qed.

(** X15: once [Initialize] has returned OK for a device, a run on a stream
    of that device finds the entry: when the buffers convert and the
    collectives are available, [RunNcclCollective] is [RunRaggedAllToAll] on
    the converted buffers, with the configured row size and the address of
    the region held for the device as staging buffer. *)
Theorem Initialize_then_run (ienv : InitializeEnv) (th : Thunk) (renv : RunEnv)
    (buffers : list DeviceBufferPair) (w : Machine) :
  let th' := init_thunk (Initialize ienv (stream_parent renv) th) in
  init_status (Initialize ienv (stream_parent renv) th) = OkStatus ->
  convert_result renv = OkValue buffers ->
  collectives_status renv = OkStatus ->
  exists a,
    host_buffer_allocs_ th' !! stream_parent renv = Some a /\
    RunNcclCollective renv th' w
    = RunRaggedAllToAll (run_env renv) (ragged_row_element_size (config_ th))
        buffers (allocation_opaque a) w.
Proof.
  intros th' Hok Hc Hg.
  destruct (Initialize_ok_entry ienv (stream_parent renv) th Hok) as [a Ha].
  fold th' in Ha. exists a. split; [exact Ha|].
  assert (Hcfg : config_ th' = config_ th).
  { subst th'. unfold Initialize.
    destruct (base_initialize_status ienv); [|reflexivity].
    destruct (host_buffer_allocs_ th !! stream_parent renv); [reflexivity|].
    destruct (host_memory_allocate ienv _); reflexivity. }
  unfold RunNcclCollective, GetStagingRegion.
  rewrite Hc, Hg, Ha, Hcfg. cbn [assign_or_return return_if_error].
  rewrite !bind_ret.
  unfold bind, lift.
  destruct (RunRaggedAllToAll (run_env renv)
              (ragged_row_element_size (config_ th)) buffers
              (allocation_opaque a) w) as [[[[]|e|r] t] w'];
    reflexivity.
Qed.

Lemma Initialize_then_run_witness :
  exists a,
    host_buffer_allocs_
      (init_thunk (Initialize (init_env_ok 65536) 1 fresh_thunk)) !! 1
    = Some a /\
    RunNcclCollective scenario_run_env
      (init_thunk (Initialize (init_env_ok 65536) 1 fresh_thunk)) idle_machine
    = RunRaggedAllToAll scenario_env 4 scenario_buffers (allocation_opaque a)
        idle_machine.
Proof.
  apply (Initialize_then_run (init_env_ok 65536) fresh_thunk scenario_run_env
           scenario_buffers idle_machine eq_refl eq_refl eq_refl).
Defined.

(** X16: [RunNcclCollective] converts the buffers and fetches the
    collectives before it looks at the cache: when either fails, that error
    is returned unchanged and nothing is enqueued, also on a device that was
    never initialized. *)
Theorem RunNcclCollective_early_errors (renv : RunEnv) (th : Thunk)
    (w : Machine) (e : Error) :
  convert_result renv = ErrorValue e \/
  ((exists buffers, convert_result renv = OkValue buffers) /\
   collectives_status renv = ErrorStatus e) ->
  RunNcclCollective renv th w = (Fails e, [], w).
Proof.
  unfold RunNcclCollective.
  intros [Hc | [[buffers Hc] Hg]]; rewrite Hc; [reflexivity|].
  rewrite Hg. reflexivity.
Qed.

Lemma RunNcclCollective_early_errors_witness :
  RunNcclCollective run_env_convert_fails fresh_thunk idle_machine
  = (Fails convert_error, [], idle_machine).
Proof.
  apply (RunNcclCollective_early_errors run_env_convert_fails fresh_thunk
           idle_machine convert_error).
  left. reflexivity.
Defined.

(** ** The configuration *)

(** X17: for an instruction with at least three operands whose result has
    dimensions [d0 :: rest] with [d0] not zero and whose operand 2 has leading
    dimension [rows], the configuration derived has [rows] ragged rows and a
    row element size equal to the product of [rest]: the division by [d0] is
    exact, so the row size times [d0] is the element count of the result. *)
Theorem config_row_size (instr : HloRaggedAllToAllInstruction)
    (operand2 : HloShape) (rows d0 : Z) (offsets_rest rest : list Z) :
  operand_shapes instr !! 2%nat = Some operand2 ->
  dimensions operand2 = rows :: offsets_rest ->
  dimensions (shape instr) = d0 :: rest ->
  d0 <> 0 ->
  GetNcclRaggedAllToAllConfig instr
  = Some (MkConfig rows (fold_right Z.mul 1 rest)) /\
  fold_right Z.mul 1 rest * d0 = ElementsIn (shape instr).
Proof.
  intros H2 Hr Hs Hd. unfold GetNcclRaggedAllToAllConfig, ElementsIn.
  rewrite H2, Hr, Hs. cbn [lookup list_lookup fold_right].
  destruct (Z.eqb_spec d0 0) as [|_]; [contradiction|].
  rewrite (Z.mul_comm d0), Z.quot_mul by exact Hd.
  split; reflexivity.
Qed.

Lemma config_row_size_witness :
  GetNcclRaggedAllToAllConfig scenario_instruction = Some scenario_config.
Proof.
  apply (config_row_size scenario_instruction (MkHloShape [2]) 2 3 [] [4]
           eq_refl eq_refl eq_refl).
  discriminate.
Defined.


(** * Properties of a whole run *)

(** ** The transfers, from the logical index values *)

Lemma device_index_entry env b vs (k : Z) :
  supported_index_type (element_type b) = true ->
  device_array env b vs ->
  0 <= k < element_count b ->
  in_signed_range (element_type b) (entry vs k) ->
  device_index env b k = entry vs k.
Proof.
  intros Hs [Hlen Hvs] Hk Hr.
  assert (Hlk : exists v, vs !! Z.to_nat k = Some v).
  { apply lookup_lt_is_Some. lia. }
  destruct Hlk as [v Hv]. unfold entry in *. rewrite Hv in *. cbn [default] in *.
  destruct (Hvs _ _ Hv) as [_ Hh]. rewrite Z2Nat.id in Hh by lia.
  unfold holds_at in Hh. unfold device_index, in_signed_range in *.
  destruct (element_type b); try discriminate Hs; cbn in Hh, Hr.
  - rewrite (load_int32_le_bytes _ _ _ Hh). apply sign_extend_mod; cbn; lia.
  - rewrite (load_int64_le_bytes _ _ _ Hh). apply sign_extend_mod; cbn; lia.
  - rewrite (load_int32_le_bytes _ _ _ Hh). apply sign_extend_mod; cbn; lia.
  - rewrite (load_int64_le_bytes _ _ _ Hh). apply sign_extend_mod; cbn; lia.
Qed.

Lemma entry_in_range t N vs (k : Z) :
  entries_in_signed_range t N vs ->
  0 <= k < N -> k < Z.of_nat (length vs) ->
  in_signed_range t (entry vs k).
Proof.
  intros H Hk Hl.
  assert (Hlk : exists v, vs !! Z.to_nat k = Some v).
  { apply lookup_lt_is_Some. lia. }
  destruct Hlk as [v Hv]. unfold entry. rewrite Hv. cbn [default].
  apply (H _ _ Hv). lia.
Qed.

(** C1, as amended: when every call succeeds and the index entries read (those
    of the peers below N) fit the signed type of their width (below 2^31 in a
    32-bit array, below 2^63 in a 64-bit one), the sends and receives of a
    run are, for the peers 0, 1, .., N-1 in this order, one send and then one
    receive per peer; the send slice of the payload source starts at element
    [input_offsets[k] * row_element_count] and spans
    [send_sizes[k] * row_element_count] elements, the receive slice of the
    payload destination starts at [output_offsets[k] * row_element_count] and
    spans [recv_sizes[k] * row_element_count] elements, whatever the sizes
    are (zero included), [input_offsets] .. [recv_sizes] being the logical
    contents of the arrays bound at positions 2 to 5.  In the scenario of two
    peers the transfers cover elements 0..7 and 4..7 for peer 0, 8..11 and
    0..7 for peer 1. *)
Theorem peer_transfers (env : Env) (row_element_count : Z)
    (b0 b1 b2 b3 b4 b5 : DeviceBufferPair) (hba : Z) (w : Machine) (N : Z)
    (input_offsets send_sizes output_offsets recv_sizes : list Z) :
  all_succeed env ->
  num_ranks_result env = OkValue N ->
  index_operand (element_count b2) b2 -> index_operand (element_count b2) b3 ->
  index_operand (element_count b2) b4 -> index_operand (element_count b2) b5 ->
  N <= element_count b2 ->
  device_array env b2 input_offsets -> device_array env b3 send_sizes ->
  device_array env b4 output_offsets -> device_array env b5 recv_sizes ->
  entries_in_signed_range (element_type b2) N input_offsets ->
  entries_in_signed_range (element_type b3) N send_sizes ->
  entries_in_signed_range (element_type b4) N output_offsets ->
  entries_in_signed_range (element_type b5) N recv_sizes ->
  (forall k, 0 <= k < N ->
     in_int64 (entry input_offsets k * row_element_count) /\
     in_int64 (entry send_sizes k * row_element_count) /\
     in_int64 (entry output_offsets k * row_element_count) /\
     in_int64 (entry recv_sizes k * row_element_count)) ->
  let r := RunRaggedAllToAll env row_element_count [b0; b1; b2; b3; b4; b5]
             hba w in
  (outcome_of r = Returns tt /\
   filter (fun e => is_transfer e = true) (trace_of r)
   = flat_map
       (expected_transfers row_element_count b0 (entry input_offsets)
          (entry send_sizes) (entry output_offsets) (entry recv_sizes))
       (seqZ 0 N)) /\
  (filter (fun e => is_transfer e = true) (trace_of scenario_run)
   = [ EvSend (Slice scenario_payload_src F32 0 8) F32 8 0;
       EvRecv (Slice scenario_payload_dst F32 4 4) F32 4 0;
       EvSend (Slice scenario_payload_src F32 8 4) F32 4 1;
       EvRecv (Slice scenario_payload_dst F32 0 8) F32 8 1 ] /\
   omap covered_elements (trace_of scenario_run)
   = [ (0, 7); (4, 7); (8, 11); (0, 7) ]).
Proof.
  intros Hok HN I2 I3 I4 I5 HNn D2 D3 D4 D5 R2 R3 R4 R5 Hprod r. split.
  - subst r. rewrite (run_all_ok env _ b0 b1 b2 b3 b4 b5 hba w N) by assumption.
    cbn [outcome_of trace_of fst snd]. split; [reflexivity|].
    rewrite staging_calls_eq. cbn [app].
    rewrite !filter_cons_False by (cbn; discriminate).
    rewrite filter_app.
    rewrite (filter_cons_False _ EvGroupEnd) by (cbn; discriminate).
    rewrite filter_nil, app_nil_r.
    apply filter_flat_map_transfers.
    + intros k Hk. apply elem_of_seqZ in Hk.
      destruct I2 as (S2 & _ & _), I3 as (S3 & C3 & _),
               I4 as (S4 & C4 & _), I5 as (S5 & C5 & _).
      assert (L2 := proj1 D2). assert (L3 := proj1 D3).
      assert (L4 := proj1 D4). assert (L5 := proj1 D5).
      assert (E2 : device_index env b2 k = entry input_offsets k).
      { apply device_index_entry; try assumption; [lia|].
        apply (entry_in_range _ N); [assumption | lia | lia]. }
      assert (E3 : device_index env b3 k = entry send_sizes k).
      { apply device_index_entry; try assumption; [lia|].
        apply (entry_in_range _ N); [assumption | lia | lia]. }
      assert (E4 : device_index env b4 k = entry output_offsets k).
      { apply device_index_entry; try assumption; [lia|].
        apply (entry_in_range _ N); [assumption | lia | lia]. }
      assert (E5 : device_index env b5 k = entry recv_sizes k).
      { apply device_index_entry; try assumption; [lia|].
        apply (entry_in_range _ N); [assumption | lia | lia]. }
      destruct (Hprod k) as (P2 & P3 & P4 & P5); [lia|].
      unfold issued_transfers, expected_transfers.
      rewrite E2, E3, E4, E5.
      rewrite !mul64_exact by assumption. reflexivity.
    + intros k. repeat constructor.
  - split; vm_compute; reflexivity.
Qed.

Lemma peer_transfers_witness :
  filter (fun e => is_transfer e = true) (trace_of scenario_run)
  = flat_map
      (expected_transfers 4
         (MkDeviceBufferPair F32 12 scenario_payload_src scenario_payload_dst)
         (entry [0; 2]) (entry [2; 1]) (entry [1; 0]) (entry [1; 2]))
      (seqZ 0 2).
Proof.
  pose proof (peer_transfers scenario_env 4
    (MkDeviceBufferPair F32 12 scenario_payload_src scenario_payload_dst)
    (MkDeviceBufferPair F32 12 scenario_payload_dst scenario_payload_dst)
    (MkDeviceBufferPair S32 2 (MkDeviceMemoryBase 12288 8) (MkDeviceMemoryBase 12288 8))
    (MkDeviceBufferPair S64 2 (MkDeviceMemoryBase 12544 16) (MkDeviceMemoryBase 12544 16))
    (MkDeviceBufferPair U32 2 (MkDeviceMemoryBase 12800 8) (MkDeviceMemoryBase 12800 8))
    (MkDeviceBufferPair U64 2 (MkDeviceMemoryBase 13056 16) (MkDeviceMemoryBase 13056 16))
    scenario_host_buffer idle_machine 2 [0; 2] [2; 1] [1; 0] [1; 2]) as H.
  assert (Harr : forall b vs,
            (forall (k : nat) (v : Z), vs !! k = Some v ->
               representable (element_type b) v /\
               holds_at (device_memory scenario_env) (opaque (source_buffer b))
                 (element_type b) (Z.of_nat k) v) ->
            Z.of_nat (length vs) = element_count b ->
            device_array scenario_env b vs)
    by (intros b vs H1 H2; split; assumption).
  destruct H as [[_ H] _].
  - repeat split; reflexivity.
  - reflexivity.
  - repeat split; reflexivity.
  - repeat split; reflexivity.
  - repeat split; reflexivity.
  - repeat split; reflexivity.
  - cbn. lia.
  - apply Harr; [|reflexivity].
    intros [|[|k]] v Hv; cbn in Hv; try discriminate Hv;
      injection Hv as <-; (split; [cbn; lia | reflexivity]).
  - apply Harr; [|reflexivity].
    intros [|[|k]] v Hv; cbn in Hv; try discriminate Hv;
      injection Hv as <-; (split; [cbn; lia | reflexivity]).
  - apply Harr; [|reflexivity].
    intros [|[|k]] v Hv; cbn in Hv; try discriminate Hv;
      injection Hv as <-; (split; [cbn; lia | reflexivity]).
  - apply Harr; [|reflexivity].
    intros [|[|k]] v Hv; cbn in Hv; try discriminate Hv;
      injection Hv as <-; (split; [cbn; lia | reflexivity]).
  - intros [|[|k]] v Hv _; cbn in Hv; try discriminate Hv;
      injection Hv as <-; unfold in_signed_range; cbn; lia.
  - intros [|[|k]] v Hv _; cbn in Hv; try discriminate Hv;
      injection Hv as <-; unfold in_signed_range; cbn; lia.
  - intros [|[|k]] v Hv _; cbn in Hv; try discriminate Hv;
      injection Hv as <-; unfold in_signed_range; cbn; lia.
  - intros [|[|k]] v Hv _; cbn in Hv; try discriminate Hv;
      injection Hv as <-; unfold in_signed_range; cbn; lia.
  - intros k Hk. assert (Hk' : k = 0 \/ k = 1) by lia.
    destruct Hk' as [-> | ->]; vm_compute; repeat split; congruence.
  - exact H.
Defined.

(** C1 as stated fails: with [input_offsets] a [U32] array whose entry for
    peer 0 is 3000000000, every call succeeding, one rank and rows of one
    element, the send slice starts at element -1294967296 and not at
    [input_offsets[0] * row_element_count]. *)
Lemma peer_transfers_unsigned_offset :
  all_succeed large_offset_env /\
  device_array large_offset_env
    (MkDeviceBufferPair U32 1 (MkDeviceMemoryBase 12288 4)
       (MkDeviceMemoryBase 12288 4))
    [3000000000] /\
  filter (fun e => is_transfer e = true)
    (trace_of (RunRaggedAllToAll large_offset_env 1 large_offset_buffers
                 scenario_host_buffer idle_machine))
  = [ EvSend (Slice scenario_payload_src F32 (-1294967296) 1) F32 1 0;
      EvRecv (Slice scenario_payload_dst F32 0 1) F32 1 0 ] /\
  filter (fun e => is_transfer e = true)
    (trace_of (RunRaggedAllToAll large_offset_env 1 large_offset_buffers
                 scenario_host_buffer idle_machine))
  <> flat_map
       (expected_transfers 1
          (MkDeviceBufferPair F32 12 scenario_payload_src scenario_payload_dst)
          (entry [3000000000]) (entry [1]) (entry [0]) (entry [1]))
       (seqZ 0 1).
Proof.
  split; [repeat split; reflexivity|]. split; [|split].
  - split; [reflexivity|].
    intros [|k] v Hv; cbn in Hv; try discriminate Hv.
    injection Hv as <-. split; [cbn; lia | reflexivity].
  - vm_compute. reflexivity.
  - vm_compute. discriminate.
Qed.

(** ** The wait, the slices and the transfers *)

Lemma peer_step_computed env rs b0 a_io a_ss a_oo a_rs k w :
  Forall (transfer_computed_from rs b0 a_io a_ss a_oo a_rs (host w))
    (trace_of (peer_step env rs b0 a_io a_ss a_oo a_rs k w)).
Proof.
  step_unfold.
  destruct (get a_io (host w) k) as [io|e|r] eqn:E1; cbv beta iota;
    [|constructor..].
  destruct (get a_ss (host w) k) as [ss|e|r] eqn:E2; cbv beta iota;
    [|constructor..].
  destruct (get a_oo (host w) k) as [oo|e|r] eqn:E3; cbv beta iota;
    [|constructor..].
  destruct (get a_rs (host w) k) as [rs'|e|r] eqn:E4; cbv beta iota;
    [|constructor..].
  rewrite ?E2. cbv beta iota.
  assert (Hsend : transfer_computed_from rs b0 a_io a_ss a_oo a_rs (host w)
            (EvSend (Slice (source_buffer b0) (element_type b0)
                       (mul64 io rs) (mul64 ss rs))
               (element_type b0) (mul64 ss rs) k)).
  { exists k, io, ss, oo, rs'. repeat split; try assumption. left. reflexivity. }
  assert (Hrecv : transfer_computed_from rs b0 a_io a_ss a_oo a_rs (host w)
            (EvRecv (Slice (destination_buffer b0) (element_type b0)
                       (mul64 oo rs) (mul64 rs' rs))
               (element_type b0) (mul64 rs' rs) k)).
  { exists k, io, ss, oo, rs'. repeat split; try assumption. right. reflexivity. }
  destruct (send_status env k) as [|e]; cbv beta iota;
    [|repeat constructor; exact Hsend].
  rewrite ?E4. cbv beta iota.
  destruct (recv_status env k) as [|e]; cbv beta iota;
    repeat constructor; assumption.
Qed.

Lemma peer_loop_computed env rs b0 a_io a_ss a_oo a_rs peers w :
  Forall (transfer_computed_from rs b0 a_io a_ss a_oo a_rs (host w))
    (trace_of (peer_loop (peer_step env rs b0 a_io a_ss a_oo a_rs) peers w)).
Proof.
  induction peers as [|k peers IH]; [constructor|].
  rewrite peer_loop_cons, bind_run.
  pose proof (peer_step_computed env rs b0 a_io a_ss a_oo a_rs k w) as Hk.
  pose proof (peer_step_machine env rs b0 a_io a_ss a_oo a_rs k w) as Hm.
  destruct (peer_step env rs b0 a_io a_ss a_oo a_rs k w) as [[[[]|e|r] t] w1];
    cbn [trace_of machine_of fst snd] in *; subst w1; try assumption.
  apply Forall_app. split; assumption.
Qed.

Lemma run_transfers_computed env rs b0 b1 b2 b3 b4 b5 hba w :
  Forall
    (fun e => is_transfer e = true ->
       transfer_computed_from rs b0
         (staged_accessor hba (element_count b2) 0 b2)
         (staged_accessor hba (element_count b2) 1 b3)
         (staged_accessor hba (element_count b2) 2 b4)
         (staged_accessor hba (element_count b2) 3 b5)
         (staged_host env hba b2 b3 b4 b5 w) e)
    (trace_of (RunRaggedAllToAll env rs [b0; b1; b2; b3; b4; b5] hba w)).
Proof.
  assert (A0 : staged_accessor hba (element_count b2) 0 b2
               = MkIntegerOperandData (element_type b2) hba)
    by (unfold staged_accessor; f_equal; lia).
  assert (A1 : staged_accessor hba (element_count b2) 1 b3
               = MkIntegerOperandData (element_type b3)
                   (hba + 8 * element_count b2))
    by (unfold staged_accessor; f_equal; lia).
  assert (A2 : staged_accessor hba (element_count b2) 2 b4
               = MkIntegerOperandData (element_type b4)
                   (hba + 8 * element_count b2 + 8 * element_count b2))
    by (unfold staged_accessor; f_equal; lia).
  assert (A3 : staged_accessor hba (element_count b2) 3 b5
               = MkIntegerOperandData (element_type b5)
                   (hba + 8 * element_count b2 + 8 * element_count b2
                    + 8 * element_count b2))
    by (unfold staged_accessor; f_equal; lia).
  rewrite A0, A1, A2, A3. clear A0 A1 A2 A3.
  unfold staged_host. destruct w as [h p]. cbn [host pending].
  pose proof (fun l w' => peer_loop_computed env rs b0
       (MkIntegerOperandData (element_type b2) hba)
       (MkIntegerOperandData (element_type b3) (hba + 8 * element_count b2))
       (MkIntegerOperandData (element_type b4)
          (hba + 8 * element_count b2 + 8 * element_count b2))
       (MkIntegerOperandData (element_type b5)
          (hba + 8 * element_count b2 + 8 * element_count b2
           + 8 * element_count b2))
       l w') as Hloop.
  assert (Hskip : forall (P : Event -> Prop) e,
            is_transfer e = false -> is_transfer e = true -> P e)
    by (intros P e H1 H2; congruence).
  run_unfold. cbn [app]. cbv beta iota.
  destruct (register_status env); [|repeat constructor; apply Hskip; reflexivity].
  destruct (num_ranks_result env) as [N|];
    [|repeat constructor; apply Hskip; reflexivity].
  destruct (memcpy_status env 2);
    [|repeat constructor; apply Hskip; reflexivity].
  destruct (memcpy_status env 3);
    [|repeat constructor; apply Hskip; reflexivity].
  destruct (memcpy_status env 4);
    [|repeat constructor; apply Hskip; reflexivity].
  destruct (memcpy_status env 5);
    [|repeat constructor; apply Hskip; reflexivity].
  destruct (block_status env);
    [|repeat constructor; apply Hskip; reflexivity].
  destruct (group_start_status env);
    [|repeat constructor; apply Hskip; reflexivity].
  match goal with
  | |- context [peer_loop ?s ?l ?m] =>
      specialize (Hloop l m); destruct (peer_loop s l m) as [[o t] w']
  end.
  cbn [trace_of fst snd host] in Hloop.
  unfold staged_copies, staged_bytes in *.
  rewrite <- !app_assoc in Hloop. cbn [app] in Hloop.
  assert (Ht : Forall
            (fun e => is_transfer e = true ->
               transfer_computed_from rs b0
                 (MkIntegerOperandData (element_type b2) hba)
                 (MkIntegerOperandData (element_type b3) (hba + 8 * element_count b2))
                 (MkIntegerOperandData (element_type b4)
                    (hba + 8 * element_count b2 + 8 * element_count b2))
                 (MkIntegerOperandData (element_type b5)
                    (hba + 8 * element_count b2 + 8 * element_count b2
                     + 8 * element_count b2))
                 (complete_copies h
                    (p ++
                     [(hba, load_bytes (device_memory env) (opaque (source_buffer b2))
                              (Z.to_nat (size (source_buffer b2))));
                      (hba + 8 * element_count b2,
                       load_bytes (device_memory env) (opaque (source_buffer b3))
                         (Z.to_nat (size (source_buffer b3))));
                      (hba + 8 * element_count b2 + 8 * element_count b2,
                       load_bytes (device_memory env) (opaque (source_buffer b4))
                         (Z.to_nat (size (source_buffer b4))));
                      (hba + 8 * element_count b2 + 8 * element_count b2
                       + 8 * element_count b2,
                       load_bytes (device_memory env) (opaque (source_buffer b5))
                         (Z.to_nat (size (source_buffer b5))))])) e) t).
  { eapply Forall_impl; [exact Hloop|]. intros e He _. exact He. }
  destruct o as [[]|e|r].
  - destruct (group_end_status env);
      do 8 (constructor; [apply Hskip; reflexivity|]);
      rewrite ?app_nil_r; (apply Forall_app; split; [exact Ht|]);
      repeat constructor; apply Hskip; reflexivity.
  - do 8 (constructor; [apply Hskip; reflexivity|]). exact Ht.
  - do 8 (constructor; [apply Hskip; reflexivity|]). exact Ht.
Qed.

(** C2, as amended: in every invocation on six bindings, the wait on the
    stream, when it is reached, comes after the four staging copies and before
    every send and receive, and no send or receive is issued without it;
    every slice sent or received is computed from the index values as the
    completed wait leaves them in host memory, so no slice is computed before
    the wait; if the wait fails, the invocation returns an Internal error
    whose message carries the stream and the message of the wait's failure,
    and no send or receive is issued. *)
Theorem wait_before_transfers (env : Env) (rs : Z)
    (buffers : list DeviceBufferPair) (hba : Z) (w : Machine) :
  length buffers = 6%nat ->
  let r := RunRaggedAllToAll env rs buffers hba w in
  (In EvBlockHostUntilDone (trace_of r)
   \/ count_events is_transfer (trace_of r) <> 0%nat ->
   exists pre post,
     trace_of r = pre ++ EvBlockHostUntilDone :: post /\
     count_events is_memcpy pre = 4%nat /\
     count_events is_transfer pre = 0%nat /\
     count_events is_memcpy post = 0%nat /\
     count_events is_block post = 0%nat) /\
  (forall b0 b1 b2 b3 b4 b5,
     buffers = [b0; b1; b2; b3; b4; b5] ->
     Forall
       (fun e => is_transfer e = true ->
          transfer_computed_from rs b0
            (staged_accessor hba (element_count b2) 0 b2)
            (staged_accessor hba (element_count b2) 1 b3)
            (staged_accessor hba (element_count b2) 2 b4)
            (staged_accessor hba (element_count b2) 3 b5)
            (staged_host env hba b2 b3 b4 b5 w) e)
       (trace_of r)) /\
  (forall e, block_status env = ErrorStatus e ->
     In EvBlockHostUntilDone (trace_of r) ->
     outcome_of r = Fails (InternalError (block_failure_message env e)) /\
     count_events is_transfer (trace_of r) = 0%nat).
Proof.
  intros Hlen r.
  destruct buffers as [|b0 [|b1 [|b2 [|b3 [|b4 [|b5 [|]]]]]]]; try discriminate Hlen.
  pose proof (run_shape env rs b0 b1 b2 b3 b4 b5 hba w) as Hshape.
  cbv zeta in Hshape. fold r in Hshape.
  destruct (staging_calls_counts hba b2 b3 b4 b5) as (Cm & Ct & Cb).
  assert (Hcomputed :
    forall c0 c1 c2 c3 c4 c5,
      [b0; b1; b2; b3; b4; b5] = [c0; c1; c2; c3; c4; c5] ->
      Forall
        (fun e => is_transfer e = true ->
           transfer_computed_from rs c0
             (staged_accessor hba (element_count c2) 0 c2)
             (staged_accessor hba (element_count c2) 1 c3)
             (staged_accessor hba (element_count c2) 2 c4)
             (staged_accessor hba (element_count c2) 3 c5)
             (staged_host env hba c2 c3 c4 c5 w) e)
        (trace_of r)).
  { intros c0 c1 c2 c3 c4 c5 E. injection E as <- <- <- <- <- <-.
    apply run_transfers_computed. }
  destruct Hshape as [(e & Ho & Hpre) | [(e & Hb & Ho & Ht) | (Hb & post & Ht & Hpost)]].
  - (* a failure before the wait *)
    assert (Nb : ~ In EvBlockHostUntilDone (trace_of r)).
    { apply (count_events_zero_not_in is_block); [|reflexivity].
      eapply count_events_prefix; eassumption. }
    assert (Nt : count_events is_transfer (trace_of r) = 0%nat)
      by (eapply count_events_prefix; eassumption).
    split; [intros [H|H]; contradiction|].
    split; [exact Hcomputed | intros e' _ H; contradiction].
  - (* the wait fails *)
    split; [|split; [exact Hcomputed|]].
    + intros _. exists (staging_calls hba b2 b3 b4 b5), [].
      repeat split; assumption || reflexivity.
    + intros e' He' _. rewrite Hb in He'. injection He' as <-.
      split; [exact Ho|]. rewrite Ht, count_events_app, Ct. reflexivity.
  - (* the wait succeeds *)
    split; [|split; [exact Hcomputed|]].
    + intros _. exists (staging_calls hba b2 b3 b4 b5), post.
      repeat split; try assumption.
      * apply count_events_none. eapply Forall_impl; [exact Hpost|].
        intros x [Hx _]. exact Hx.
      * apply count_events_none. eapply Forall_impl; [exact Hpost|].
        intros x [_ Hx]. exact Hx.
    + intros e' He'. rewrite Hb in He'. discriminate He'.
Qed.

Lemma wait_before_transfers_witness :
  outcome_of (RunRaggedAllToAll env_wait_fails 4 scenario_buffers
                scenario_host_buffer idle_machine)
  = Fails (InternalError
      "Failed to complete all kernels launched on stream 0xbeef: timeout") /\
  count_events is_transfer
    (trace_of (RunRaggedAllToAll env_wait_fails 4 scenario_buffers
                 scenario_host_buffer idle_machine)) = 0%nat.
Proof.
  apply (proj2 (proj2 (wait_before_transfers env_wait_fails 4 scenario_buffers
                         scenario_host_buffer idle_machine eq_refl))
           wait_error eq_refl).
  vm_compute. tauto.
Defined.

(** ** The bindings a run consumes *)

Lemma staged_sources_imap hba n (f : nat -> Z) (l : list DeviceBufferPair) :
  staged_sources (imap (fun j => staging_copy hba n (f j)) l)
  = map source_buffer l.
Proof.
  unfold staged_sources, staging_copy. revert f.
  induction l as [|b l IH]; intros f; [reflexivity|].
  rewrite imap_cons. simpl. f_equal. apply (IH (fun j => f (S j))).
Qed.

Lemma Load_trace env buffers b2 hba w :
  buffers !! 2%nat = Some b2 ->
  (forall i, memcpy_status env i = OkStatus) ->
  trace_of (LoadOffsetAndSizeOperands env buffers hba w)
  = imap (fun j => staging_copy hba (element_count b2) (Z.of_nat j))
      (drop 2 buffers)
    ++ [EvBlockHostUntilDone].
Proof.
  intros H2 Hm. unfold LoadOffsetAndSizeOperands, vector_at.
  rewrite H2, bind_ret, bind_run.
  pose proof (stage_operands_ok env (drop 2 buffers) Hm 2%nat
                (element_count b2) hba 0%nat [] w) as E.
  replace (hba + Z.of_nat 0 * element_count b2 * 8) with hba in E by lia.
  rewrite E. cbv beta iota.
  cbv [bind BlockHostUntilDone emit ret fail outcome_of trace_of machine_of
       fst snd].
  destruct (block_status env); cbn [app]; rewrite ?app_nil_r; reflexivity.
Qed.

Lemma staged_sources_app t1 t2 :
  staged_sources (t1 ++ t2) = staged_sources t1 ++ staged_sources t2.
Proof. unfold staged_sources. apply omap_app. Qed.

Lemma Load_staged_sources env buffers b2 hba w :
  buffers !! 2%nat = Some b2 ->
  (forall i, memcpy_status env i = OkStatus) ->
  staged_sources (trace_of (LoadOffsetAndSizeOperands env buffers hba w))
  = map source_buffer (drop 2 buffers).
Proof.
  intros H2 Hm. rewrite (Load_trace env buffers b2 hba w H2 Hm).
  rewrite staged_sources_app.
  rewrite (staged_sources_imap hba (element_count b2) (fun j => Z.of_nat j)).
  apply app_nil_r.
Qed.

(** C4, as amended: the orchestrator consumes six bindings.  The staging
    loop copies to the host the index arrays bound at the positions from 2
    on, in this order, whatever the number of bindings (at least three, all
    copies accepted), so that four arrays are staged exactly when there are
    six bindings.  On six bindings, when every call succeeds, position 0 is
    the payload (sends slice its source buffer, receives its destination
    buffer) and the four arrays staged are the bindings at positions 2 to 5,
    in the roles of input_offsets, send_sizes, output_offsets and recv_sizes,
    each of as many elements as position 2 has. *)
Theorem bindings_consumed (env : Env) (rs : Z) (buffers : list DeviceBufferPair)
    (hba : Z) (w : Machine) :
  (forall b2,
     buffers !! 2%nat = Some b2 ->
     (forall i, memcpy_status env i = OkStatus) ->
     let staged :=
       staged_sources (trace_of (LoadOffsetAndSizeOperands env buffers hba w)) in
     staged = map source_buffer (drop 2 buffers) /\
     (length staged = 4%nat <-> length buffers = 6%nat)) /\
  (forall b0 b1 b2 b3 b4 b5 N,
     buffers = [b0; b1; b2; b3; b4; b5] ->
     all_succeed env -> num_ranks_result env = OkValue N ->
     index_operand (element_count b2) b2 ->
     index_operand (element_count b2) b3 ->
     index_operand (element_count b2) b4 ->
     index_operand (element_count b2) b5 ->
     N <= element_count b2 ->
     let r := RunRaggedAllToAll env rs buffers hba w in
     staged_sources (trace_of r)
     = [source_buffer b2; source_buffer b3; source_buffer b4; source_buffer b5] /\
     trace_of r
     = staging_calls hba b2 b3 b4 b5
         ++ [EvBlockHostUntilDone; EvGroupStart]
         ++ flat_map (issued_transfers env rs b0 b2 b3 b4 b5) (seqZ 0 N)
         ++ [EvGroupEnd]).
Proof.
  split.
  - intros b2 H2 Hm staged. subst staged.
    rewrite (Load_staged_sources env buffers b2 hba w H2 Hm).
    split; [reflexivity|].
    rewrite length_map, length_drop.
    apply lookup_lt_Some in H2. lia.
  - intros b0 b1 b2 b3 b4 b5 N -> Hok HN I2 I3 I4 I5 HNn r. subst r.
    rewrite (run_all_ok env rs b0 b1 b2 b3 b4 b5 hba w N) by assumption.
    cbn [trace_of fst snd]. split; [|reflexivity].
    unfold staged_sources, staging_calls, staging_copy. cbn [app omap].
    do 4 f_equal.
    induction (seqZ 0 N) as [|k l IH]; [reflexivity|].
    cbn [flat_map issued_transfers app omap]. exact IH.
Qed.

Lemma bindings_consumed_witness :
  (staged_sources
     (trace_of (LoadOffsetAndSizeOperands scenario_env scenario_buffers
                  scenario_host_buffer idle_machine))
   = map source_buffer (drop 2 scenario_buffers) /\
   (length
      (staged_sources
         (trace_of (LoadOffsetAndSizeOperands scenario_env scenario_buffers
                      scenario_host_buffer idle_machine))) = 4%nat
    <-> length scenario_buffers = 6%nat)) /\
  staged_sources (trace_of scenario_run)
  = [ MkDeviceMemoryBase 12288 8; MkDeviceMemoryBase 12544 16;
      MkDeviceMemoryBase 12800 8; MkDeviceMemoryBase 13056 16 ].
Proof.
  split.
  - apply (proj1 (bindings_consumed scenario_env 4 scenario_buffers
                    scenario_host_buffer idle_machine)
             (MkDeviceBufferPair S32 2 (MkDeviceMemoryBase 12288 8)
                (MkDeviceMemoryBase 12288 8))).
    + reflexivity.
    + reflexivity.
  - apply (proj2 (bindings_consumed scenario_env 4 scenario_buffers
                    scenario_host_buffer idle_machine)
             _ (MkDeviceBufferPair F32 12 scenario_payload_dst scenario_payload_dst)
             _ _ _ _ 2 eq_refl).
    + repeat split; reflexivity.
    + reflexivity.
    + repeat split; reflexivity.
    + repeat split; reflexivity.
    + repeat split; reflexivity.
    + repeat split; reflexivity.
    + cbn. lia.
Defined.

(** C4 as stated fails: on the five bindings payload, input_offsets,
    send_sizes, output_offsets, recv_sizes, the staging loop copies the
    arrays at positions 2 to 4 only, three arrays and not the four at
    positions 1 to 4; on six bindings the arrays staged are not those at
    positions 1 to 4 either. *)
Lemma five_bindings_not_consumed :
  staged_sources
    (trace_of (LoadOffsetAndSizeOperands scenario_env five_bindings
                 scenario_host_buffer idle_machine))
  = [ MkDeviceMemoryBase 12544 16; MkDeviceMemoryBase 12800 8;
      MkDeviceMemoryBase 13056 16 ] /\
  staged_sources
    (trace_of (LoadOffsetAndSizeOperands scenario_env five_bindings
                 scenario_host_buffer idle_machine))
  <> map source_buffer (drop 1 five_bindings) /\
  staged_sources (trace_of scenario_run)
  = map source_buffer (drop 2 scenario_buffers) /\
  staged_sources (trace_of scenario_run)
  <> map source_buffer (take 4 (drop 1 scenario_buffers)).
Proof.
  repeat split; try (vm_compute; reflexivity); vm_compute; discriminate.
Qed.

(** ** The batching scope on every return path *)

Lemma peer_step_returns env rs b0 a_io a_ss a_oo a_rs k w :
  outcome_of (peer_step env rs b0 a_io a_ss a_oo a_rs k w) = Returns tt ->
  send_status env k = OkStatus /\ recv_status env k = OkStatus.
Proof.
  step_unfold.
  destruct (get a_io (host w) k) as [io|e|r] eqn:E1; cbv beta iota;
    [| intros H; discriminate H ..].
  destruct (get a_ss (host w) k) as [ss|e|r] eqn:E2; cbv beta iota;
    [| intros H; discriminate H ..].
  destruct (get a_oo (host w) k) as [oo|e|r] eqn:E3; cbv beta iota;
    [| intros H; discriminate H ..].
  destruct (get a_rs (host w) k) as [rs'|e|r] eqn:E4; cbv beta iota;
    [| intros H; discriminate H ..].
  rewrite ?E2. cbv beta iota.
  destruct (send_status env k); cbv beta iota; [|intros H; discriminate H].
  rewrite ?E4. cbv beta iota.
  destruct (recv_status env k); cbv beta iota; [|intros H; discriminate H].
  intros _. split; reflexivity.
Qed.

Lemma peer_loop_returns env rs b0 a_io a_ss a_oo a_rs peers w :
  outcome_of (peer_loop (peer_step env rs b0 a_io a_ss a_oo a_rs) peers w)
  = Returns tt ->
  forall k, k ∈ peers ->
    send_status env k = OkStatus /\ recv_status env k = OkStatus.
Proof.
  revert w. induction peers as [|p peers IH]; intros w H k Hk.
  - inversion Hk.
  - rewrite peer_loop_cons, bind_run in H.
    pose proof (peer_step_returns env rs b0 a_io a_ss a_oo a_rs p w) as Hp.
    destruct (peer_step env rs b0 a_io a_ss a_oo a_rs p w)
      as [[[[]|e|r] t] w1]; cbn [outcome_of fst] in H, Hp; try discriminate H.
    apply elem_of_cons in Hk as [->|Hk]; [apply Hp; reflexivity|].
    exact (IH w1 H k Hk).
Qed.

Lemma transfer_not_group (e : Event) :
  is_transfer e = true -> is_group_start e = false /\ is_group_end e = false.
Proof. destruct e; cbn; intros H; try discriminate H; split; reflexivity. Qed.

(** The three ways a run on six bindings can go, as to the batching scope:
    it ends before [GroupStart] is called; it ends after a call of
    [GroupStart], in that call or in the loop, without [GroupEnd]; or the
    loop ends and [GroupEnd] is the last call. *)
Lemma run_groups env rs b0 b1 b2 b3 b4 b5 hba w :
  let r := RunRaggedAllToAll env rs [b0; b1; b2; b3; b4; b5] hba w in
  let pre := staging_calls hba b2 b3 b4 b5
               ++ [EvBlockHostUntilDone; EvGroupStart] in
  (outcome_of r <> Returns tt /\
   Forall (fun e => is_group_start e = false /\ is_group_end e = false)
     (trace_of r))
  \/ (outcome_of r <> Returns tt /\
      exists mid, trace_of r = pre ++ mid /\
        Forall (fun e => is_transfer e = true) mid)
  \/ (exists N mid,
        num_ranks_result env = OkValue N /\
        trace_of r = pre ++ mid ++ [EvGroupEnd] /\
        Forall (fun e => is_transfer e = true) mid /\
        (forall k, 0 <= k < N ->
           send_status env k = OkStatus /\ recv_status env k = OkStatus) /\
        outcome_of r
        = match group_end_status env with
          | OkStatus => Returns tt
          | ErrorStatus e => Fails e
          end).
Proof.
  cbv zeta. rewrite staging_calls_eq. destruct w as [h p].
  pose proof (fun N w' => peer_loop_transfers
    (peer_step env rs b0
       (MkIntegerOperandData (element_type b2) hba)
       (MkIntegerOperandData (element_type b3) (hba + 8 * element_count b2))
       (MkIntegerOperandData (element_type b4)
          (hba + 8 * element_count b2 + 8 * element_count b2))
       (MkIntegerOperandData (element_type b5)
          (hba + 8 * element_count b2 + 8 * element_count b2
           + 8 * element_count b2)))
    (seqZ 0 N) w' (peer_step_transfers env rs b0 _ _ _ _)) as Hloop.
  pose proof (fun N w' => peer_loop_returns env rs b0
       (MkIntegerOperandData (element_type b2) hba)
       (MkIntegerOperandData (element_type b3) (hba + 8 * element_count b2))
       (MkIntegerOperandData (element_type b4)
          (hba + 8 * element_count b2 + 8 * element_count b2))
       (MkIntegerOperandData (element_type b5)
          (hba + 8 * element_count b2 + 8 * element_count b2
           + 8 * element_count b2))
       (seqZ 0 N) w') as Hret.
  run_unfold. cbn [app]. cbv beta iota.
  destruct (register_status env) as [|e].
  2:{ left. split; [discriminate | repeat constructor]. }
  destruct (num_ranks_result env) as [N|e].
  2:{ left. split; [discriminate | repeat constructor]. }
  destruct (memcpy_status env 2) as [|e].
  2:{ left. split; [discriminate | repeat constructor]. }
  destruct (memcpy_status env 3) as [|e].
  2:{ left. split; [discriminate | repeat constructor]. }
  destruct (memcpy_status env 4) as [|e].
  2:{ left. split; [discriminate | repeat constructor]. }
  destruct (memcpy_status env 5) as [|e].
  2:{ left. split; [discriminate | repeat constructor]. }
  destruct (block_status env) as [|e].
  2:{ left. split; [discriminate | repeat constructor]. }
  destruct (group_start_status env) as [|e].
  2:{ right. left. split; [discriminate|]. exists []. split; [reflexivity|].
      constructor. }
  match goal with
  | |- context [peer_loop ?s ?l ?m] =>
      specialize (Hloop N m); specialize (Hret N m);
      destruct (peer_loop s l m) as [[o t] w']
  end.
  cbn [trace_of outcome_of fst snd] in Hloop, Hret.
  destruct o as [[]|e|r].
  - right. right. exists N, t. split; [reflexivity|].
    split; [|split; [exact Hloop|split]].
    + destruct (group_end_status env); cbn [app]; rewrite ?app_nil_r;
        reflexivity.
    + intros k Hk. apply (Hret eq_refl). apply elem_of_seqZ. lia.
    + destruct (group_end_status env); reflexivity.
  - right. left. split; [discriminate|]. exists t. split; [reflexivity|].
    exact Hloop.
  - right. left. split; [discriminate|]. exists t. split; [reflexivity|].
    exact Hloop.
Qed.

Lemma staging_calls_no_group hba b2 b3 b4 b5 :
  count_events is_group_start (staging_calls hba b2 b3 b4 b5) = 0%nat /\
  count_events is_group_end (staging_calls hba b2 b3 b4 b5) = 0%nat.
Proof. split; reflexivity. Qed.

Lemma transfers_no_group (mid : list Event) :
  Forall (fun e => is_transfer e = true) mid ->
  count_events is_group_start mid = 0%nat /\
  count_events is_group_end mid = 0%nat.
Proof.
  intros H. split; apply count_events_none;
    (eapply Forall_impl; [exact H|]); intros e He;
    apply transfer_not_group in He; tauto.
Qed.

(** C8, as amended: on the return paths that reach the end of the peer loop,
    and so on every successful return, the one [GroupStart] of the run is
    matched by [GroupEnd], the last call of the run; on no path is
    [GroupEnd] called more often than [GroupStart], nor [GroupStart] more
    than once.  A path on which a send or a receive for one of the peers
    fails returns without calling [GroupEnd]. *)
Theorem group_scope_balanced_on_success (env : Env) (rs : Z)
    (b0 b1 b2 b3 b4 b5 : DeviceBufferPair) (hba : Z) (w : Machine) :
  index_operand (element_count b2) b2 -> index_operand (element_count b2) b3 ->
  index_operand (element_count b2) b4 -> index_operand (element_count b2) b5 ->
  (forall N, num_ranks_result env = OkValue N -> N <= element_count b2) ->
  let r := RunRaggedAllToAll env rs [b0; b1; b2; b3; b4; b5] hba w in
  (outcome_of r = Returns tt ->
   exists mid,
     trace_of r
     = staging_calls hba b2 b3 b4 b5 ++ [EvBlockHostUntilDone; EvGroupStart]
         ++ mid ++ [EvGroupEnd] /\
     Forall (fun e => is_transfer e = true) mid /\
     count_events is_group_start (trace_of r) = 1%nat /\
     count_events is_group_end (trace_of r) = 1%nat) /\
  (count_events is_group_end (trace_of r)
   <= count_events is_group_start (trace_of r) <= 1)%nat /\
  (forall N k e,
     num_ranks_result env = OkValue N -> 0 <= k < N ->
     send_status env k = ErrorStatus e \/ recv_status env k = ErrorStatus e ->
     outcome_of r <> Returns tt /\
     count_events is_group_end (trace_of r) = 0%nat).
Proof.
  intros _ _ _ _ _ r.
  pose proof (staging_calls_no_group hba b2 b3 b4 b5) as [Hs0 He0].
  destruct (run_groups env rs b0 b1 b2 b3 b4 b5 hba w)
    as [[Ho Hn] | [[Ho (mid & Ht & Hmid)] | (N & mid & HN & Ht & Hmid & Hst & Ho)]];
    fold r in Ho; try fold r in Hn; try fold r in Ht.
  - assert (Hs : count_events is_group_start (trace_of r) = 0%nat)
      by (apply count_events_none; eapply Forall_impl; [exact Hn|];
          intros x [Hx _]; exact Hx).
    assert (He : count_events is_group_end (trace_of r) = 0%nat)
      by (apply count_events_none; eapply Forall_impl; [exact Hn|];
          intros x [_ Hx]; exact Hx).
    split; [intros H; contradiction|]. split; [lia|].
    intros _ _ _ _ _ _. split; assumption.
  - destruct (transfers_no_group mid Hmid) as [Hs1 He1].
    assert (Hs : count_events is_group_start (trace_of r) = 1%nat).
    { rewrite Ht, !count_events_app, Hs0, Hs1. reflexivity. }
    assert (He : count_events is_group_end (trace_of r) = 0%nat).
    { rewrite Ht, !count_events_app, He0, He1. reflexivity. }
    split; [intros H; contradiction|]. split; [lia|].
    intros _ _ _ _ _ _. split; assumption.
  - destruct (transfers_no_group mid Hmid) as [Hs1 He1].
    assert (Hs : count_events is_group_start (trace_of r) = 1%nat).
    { rewrite Ht, !count_events_app, Hs0, Hs1. reflexivity. }
    assert (He : count_events is_group_end (trace_of r) = 1%nat).
    { rewrite Ht, !count_events_app, He0, He1. reflexivity. }
    split; [|split; [lia|]].
    + intros _. exists mid. rewrite <- app_assoc in Ht. repeat split; assumption.
    + intros N' k e HN' Hk Hfail. rewrite HN in HN'. injection HN' as <-.
      destruct (Hst k Hk) as [H1 H2]. rewrite H1, H2 in Hfail.
      destruct Hfail as [H|H]; discriminate H.
Qed.

Lemma group_scope_balanced_on_success_witness :
  exists mid,
    trace_of scenario_run
    = staging_calls scenario_host_buffer
        (MkDeviceBufferPair S32 2 (MkDeviceMemoryBase 12288 8) (MkDeviceMemoryBase 12288 8))
        (MkDeviceBufferPair S64 2 (MkDeviceMemoryBase 12544 16) (MkDeviceMemoryBase 12544 16))
        (MkDeviceBufferPair U32 2 (MkDeviceMemoryBase 12800 8) (MkDeviceMemoryBase 12800 8))
        (MkDeviceBufferPair U64 2 (MkDeviceMemoryBase 13056 16) (MkDeviceMemoryBase 13056 16))
        ++ [EvBlockHostUntilDone; EvGroupStart] ++ mid ++ [EvGroupEnd] /\
    Forall (fun e => is_transfer e = true) mid /\
    count_events is_group_start (trace_of scenario_run) = 1%nat /\
    count_events is_group_end (trace_of scenario_run) = 1%nat.
Proof.
  apply (proj1 (group_scope_balanced_on_success scenario_env 4
    (MkDeviceBufferPair F32 12 scenario_payload_src scenario_payload_dst)
    (MkDeviceBufferPair F32 12 scenario_payload_dst scenario_payload_dst)
    (MkDeviceBufferPair S32 2 (MkDeviceMemoryBase 12288 8) (MkDeviceMemoryBase 12288 8))
    (MkDeviceBufferPair S64 2 (MkDeviceMemoryBase 12544 16) (MkDeviceMemoryBase 12544 16))
    (MkDeviceBufferPair U32 2 (MkDeviceMemoryBase 12800 8) (MkDeviceMemoryBase 12800 8))
    (MkDeviceBufferPair U64 2 (MkDeviceMemoryBase 13056 16) (MkDeviceMemoryBase 13056 16))
    scenario_host_buffer idle_machine
    ltac:(repeat split; reflexivity) ltac:(repeat split; reflexivity)
    ltac:(repeat split; reflexivity) ltac:(repeat split; reflexivity)
    ltac:(intros N H; injection H as <-; cbn; lia))).
  vm_compute. reflexivity.
Defined.

(** ** The staging copies *)




(** ** Runs that do not return *)

(** X10: on six bindings whose index arrays the loop reads within their
    length, with every product it forms within [int64_t], a run ends
    without returning only through [LOG(FATAL)] in
    [IntegerOperandData::get]: the reason is then the unsupported element
    type of one of the index bindings at positions 2 to 5, so that with four
    index arrays of supported types such a run returns. *)
Theorem run_aborts_only_on_unsupported_type (env : Env) (rs : Z)
    (b0 b1 b2 b3 b4 b5 : DeviceBufferPair) (hba : Z) (w : Machine)
    (N : Z) (reason : AbortReason) :
  num_ranks_result env = OkValue N ->
  N <= element_count b2 ->
  (forall a k v,
     a ∈ staged_operands hba b2 b3 b4 b5 -> 0 <= k < N ->
     get a (staged_host env hba b2 b3 b4 b5 w) k = Returns v ->
     in_int64 (v * rs)) ->
  outcome_of (RunRaggedAllToAll env rs [b0; b1; b2; b3; b4; b5] hba w)
  = Aborts reason ->
  (exists b, b ∈ [b2; b3; b4; b5] /\
     supported_index_type (element_type b) = false /\
     reason = UnsupportedElementType (element_type b)) /\
  ~ (forall b, b ∈ [b2; b3; b4; b5] ->
       supported_index_type (element_type b) = true).
Proof.
  intros _ _ _ H. pose proof (run_outcome env rs b0 b1 b2 b3 b4 b5 hba w) as Ho.
  rewrite H in Ho. split; [exact Ho|].
  destruct Ho as (b & Hb & Hs & _). intros Hall.
  rewrite (Hall b Hb) in Hs. discriminate Hs.
Qed.

Lemma run_aborts_only_on_unsupported_type_witness :
  (exists b, b ∈ drop 2 float_sizes_buffers /\
     supported_index_type (element_type b) = false /\
     UnsupportedElementType F32 = UnsupportedElementType (element_type b)) /\
  ~ (forall b, b ∈ drop 2 float_sizes_buffers ->
       supported_index_type (element_type b) = true).
Proof.
  apply (run_aborts_only_on_unsupported_type scenario_env 4
    (MkDeviceBufferPair F32 12 scenario_payload_src scenario_payload_dst)
    (MkDeviceBufferPair F32 12 scenario_payload_dst scenario_payload_dst)
    (MkDeviceBufferPair S32 2 (MkDeviceMemoryBase 12288 8) (MkDeviceMemoryBase 12288 8))
    (MkDeviceBufferPair F32 2 (MkDeviceMemoryBase 12544 8) (MkDeviceMemoryBase 12544 8))
    (MkDeviceBufferPair U32 2 (MkDeviceMemoryBase 12800 8) (MkDeviceMemoryBase 12800 8))
    (MkDeviceBufferPair U64 2 (MkDeviceMemoryBase 13056 16) (MkDeviceMemoryBase 13056 16))
    scenario_host_buffer idle_machine 2 (UnsupportedElementType F32)).
  - reflexivity.
  - cbn. lia.
  - intros a k v Ha Hk Hv.
    assert (Hk' : k = 0 \/ k = 1) by lia.
    repeat (apply elem_of_cons in Ha as [-> | Ha]); [ | | | | inversion Ha];
      destruct Hk' as [-> | ->]; vm_compute in Hv;
      first [discriminate Hv | injection Hv as <-];
      vm_compute; split; congruence.
  - vm_compute. reflexivity.
Defined.
